(** * wicomlab_webrtc_rpi: signalling and pipeline lifecycle of [server.py]

    A shallow embedding of [WebRTCCamera] and [AppServer.handle_ws].

    Python objects that the handler mutates (the camera's [pipeline] and
    [webrtc] attributes, the websocket, the GStreamer engine) live in one
    explicit state that every method threads; a raised exception keeps the
    state reached so far, as in Python.  What GStreamer, aiohttp and the
    Python runtime decide (which element factories exist, whether a
    property is accepted, how a text parses) is read from a [Platform]
    record.  Calls to [print] and [log_ex] only write to the console and
    are left out. *)

From Stdlib Require Import String Ascii List ZArith Bool Lia SpecFloat DecimalString.
Import ListNotations.

#[local] Open Scope string_scope.
#[local] Open Scope Z_scope.

(** ** Python values and exceptions *)

Inductive ExcType :=
| RuntimeError
| AttributeError
| TypeError
| ValueError
| OverflowError
| JSONDecodeError.

(** An exception instance: its class and [str(ex)]. *)
Record PyExc := mkExc { exc_type : ExcType; exc_str : string }.

Inductive Outcome (A : Type) :=
| Return (a : A)
| Raise (ex : PyExc).
Arguments Return {A} a.
Arguments Raise {A} ex.

(** What [json.loads] can produce. A dict keeps its items as an association
    list; [json.loads] yields at most one item per key. *)
#[local] Unset Elimination Schemes.
Inductive json :=
| JNull
| JBool (b : bool)
| JInt (n : Z)
| JFloat (x : spec_float)
| JStr (s : string)
| JList (l : list json)
| JDict (items : list (string * json)).
#[local] Set Elimination Schemes.

Fixpoint lookup {A : Type} (k : string) (items : list (string * A)) : option A :=
  match items with
  | [] => None
  | (k', v) :: rest => if String.eqb k k' then Some v else lookup k rest
  end.

Definition type_name (v : json) : string :=
  match v with
  | JNull => "NoneType"
  | JBool _ => "bool"
  | JInt _ => "int"
  | JFloat _ => "float"
  | JStr _ => "str"
  | JList _ => "list"
  | JDict _ => "dict"
  end.

Definition no_attribute (tn attr : string) : PyExc :=
  mkExc AttributeError ("'" ++ tn ++ "' object has no attribute '" ++ attr ++ "'").

(** [v.get(key, default)]: only a dict has the method. *)
Definition py_get (v : json) (key : string) (default : json) : Outcome json :=
  match v with
  | JDict items =>
      match lookup key items with
      | Some x => Return x
      | None => Return default
      end
  | _ => Raise (no_attribute (type_name v) "get")
  end.

(** Truth value of an object in [if v:]. *)
Definition truthy (v : json) : bool :=
  match v with
  | JNull => false
  | JBool b => b
  | JInt n => negb (n =? 0)
  | JFloat (S754_zero _) => false
  | JFloat _ => true
  | JStr s => negb (String.eqb s "")
  | JList l => match l with [] => false | _ => true end
  | JDict items => match items with [] => false | _ => true end
  end.

(** [v == s] for a string literal [s]. *)
Definition eq_str (v : json) (s : string) : bool :=
  match v with
  | JStr t => String.eqb t s
  | _ => false
  end.

Definition str_of_Z (n : Z) : string := NilZero.string_of_int (Z.to_int n).

(** [int(v)]; [int_of_str] is Python's parser of integer literals. *)
Definition py_int (int_of_str : string -> option Z) (v : json) : Outcome Z :=
  match v with
  | JInt n => Return n
  | JBool b => Return (if b then 1 else 0)
  | JFloat (S754_zero _) => Return 0
  | JFloat (S754_finite s m e) =>
      let magnitude := Z.shiftl (Z.pos m) e in
      Return (if s then - magnitude else magnitude)
  | JFloat (S754_infinity _) =>
      Raise (mkExc OverflowError "cannot convert float infinity to integer")
  | JFloat S754_nan =>
      Raise (mkExc ValueError "cannot convert float NaN to integer")
  | JStr s =>
      match int_of_str s with
      | Some n => Return n
      | None => Raise (mkExc ValueError ("invalid literal for int() with base 10: '" ++ s ++ "'"))
      end
  | _ =>
      Raise (mkExc TypeError
        ("int() argument must be a string, a bytes-like object or a real number, not '"
           ++ type_name v ++ "'"))
  end.

(** [Optional[str]] used as a condition: [None] and the empty string are false. *)
Definition truthy_opt (o : option string) : bool :=
  match o with
  | Some s => negb (String.eqb s "")
  | None => false
  end.

(** ** The error monad of code that touches no shared object *)

Definition obind {A B : Type} (m : Outcome A) (k : A -> Outcome B) : Outcome B :=
  match m with
  | Return a => k a
  | Raise ex => Raise ex
  end.

Declare Scope outcome_scope.
Delimit Scope outcome_scope with outcome.
Notation "x <- m ;; k" := (obind m (fun x => k))
  (at level 61, m at next level, right associativity) : outcome_scope.
Notation "m ;; k" := (obind m (fun _ => k))
  (at level 61, right associativity) : outcome_scope.

(** [try: m  except Exception: pass], keeping [old] when [m] raises. *)
Definition or_keep {A : Type} (m : Outcome A) (old : A) : A :=
  match m with
  | Return a => a
  | Raise _ => old
  end.

(** ** GStreamer objects *)

Inductive PropValue :=
| PInt (n : Z)
| PStr (s : string)
| PBool (b : bool)
| PCaps (caps : string).

(** An element: the factory it was made from, its name, and the properties
    set on it so far, in the order of the [set_property] calls. *)
Record Element := mkElement {
  factory : string;
  name : string;
  properties : list (string * PropValue) }.

Inductive Pad := mkPad (parent : Element) (pad_name : string).

Record Pipeline := mkPipeline {
  pipeline_name : string;
  children : list Element;
  links : list (string * string) }.

Inductive GstState := NULL | READY | PAUSED | PLAYING.
Inductive StateChangeReturn := FAILURE | SUCCESS | ASYNC | NO_PREROLL.
Inductive PadLinkReturn := PAD_LINK_OK | PAD_LINK_REFUSED.
Inductive SDPResult := SDP_OK | SDP_EINVAL.
Record SDPMessage := mkSDP { as_text : string }.
Inductive WebRTCSDPType := OFFER | PRANSWER | ANSWER | ROLLBACK.
Record WebRTCSessionDescription := mkDesc {
  desc_type : WebRTCSDPType;
  sdp : SDPMessage }.

(** What the host, GStreamer and the Python libraries decide. *)
Record Platform := mkPlatform {
  (** [Gst.ElementFactory.find] and [.make] succeed for this factory *)
  has_factory : string -> bool;
  (** [set_property] on an element of this factory takes this property and value *)
  accepts_property : string -> string -> PropValue -> bool;
  (** [a.link(b)] *)
  can_link : Element -> Element -> bool;
  get_static_pad : Element -> string -> option Pad;
  (** [hasattr(webrtcbin, "request_pad_simple")] *)
  has_request_pad_simple : bool;
  request_pad_simple : Element -> string -> option Pad;
  get_request_pad : Element -> string -> option Pad;
  pad_link : Pad -> Pad -> PadLinkReturn;
  (** the value [pipeline.set_state] returns *)
  set_state_return : Pipeline -> GstState -> StateChangeReturn;
  sdp_message_new_from_text : string -> SDPResult * SDPMessage;
  json_loads : string -> Outcome json;
  int_of_str : string -> option Z }.

Record WebRTCCamera := mkCamera {
  width : Z;
  height : Z;
  fps : Z;
  bitrate : Z;
  stun_server : option string;
  source : string;
  v4l2_dev : option string;
  force_sw : bool;
  pipeline : option Pipeline;
  webrtc : option Element }.

(** ** [WebRTCCamera.build_pipeline] *)

Section BuildPipeline.

Variable P : Platform.

#[local] Open Scope outcome_scope.

(** [Gst.ElementFactory.make(factory, name)]; [None] when the host lacks it. *)
Definition make (fac nm : string) : option Element :=
  if has_factory P fac then Some (mkElement fac nm []) else None.

(** Reaching for a method of a variable that may hold [None]. *)
Definition method (o : option Element) (attr : string) : Outcome Element :=
  match o with
  | Some el => Return el
  | None => Raise (no_attribute "NoneType" attr)
  end.

Definition set_property (el : Element) (prop : string) (v : PropValue) : Outcome Element :=
  if accepts_property P (factory el) prop v
  then Return (mkElement (factory el) (name el) (properties el ++ [(prop, v)]))
  else Raise (mkExc TypeError
         ("object of type '" ++ factory el ++ "' does not have property '" ++ prop ++ "'")).

(** [o.set_property(prop, v)] for a variable [o] that may hold [None]. *)
Definition set_property_on (o : option Element) (prop : string) (v : PropValue)
  : Outcome (option Element) :=
  el <- method o "set_property" ;;
  el' <- set_property el prop v ;;
  Return (Some el').

(** The value last given to a property, if any. *)
Definition get_property (el : Element) (prop : string) : option PropValue :=
  lookup prop (rev (properties el)).

(** [pipeline.add(el)] *)
Definition add (pl : Pipeline) (o : option Element) : Outcome Pipeline :=
  match o with
  | Some el => Return (mkPipeline (pipeline_name pl) (children pl ++ [el]) (links pl))
  | None => Raise (mkExc TypeError "argument element: Expected Gst.Element, but got None")
  end.

Fixpoint add_each (pl : Pipeline) (els : list (option Element)) : Outcome Pipeline :=
  match els with
  | [] => Return pl
  | o :: rest => pl' <- add pl o ;; add_each pl' rest
  end.

Definition display (el : Element) : string :=
  name el ++ "(" ++ factory el ++ ")".

(** [link_chain(elements)]: link each element to its successor, left to
    right, and stop at the first refusal. *)
Fixpoint link_chain (pl : Pipeline) (elements : list Element) : Outcome Pipeline :=
  match elements with
  | a :: (b :: _) as rest =>
      if can_link P a b
      then link_chain (mkPipeline (pipeline_name pl) (children pl)
                         (links pl ++ [(name a, name b)])) rest
      else Raise (mkExc RuntimeError
             ("Failed to link " ++ display a ++ " -> " ++ display b))
  | _ => Return pl
  end.

(** The source element, by [self.source]. *)
Definition make_source (self : WebRTCCamera) : Outcome (option Element) :=
  if String.eqb (source self) "libcamera" then
    match make "libcamerasrc" "src" with
    | Some src => Return (Some src)
    | None => Raise (mkExc RuntimeError
                "Missing plugin 'libcamerasrc'. Install gstreamer1.0-libcamera.")
    end
  else if String.eqb (source self) "v4l2" then
    match make "v4l2src" "src" with
    | Some src =>
        if truthy_opt (v4l2_dev self)
        then set_property_on (Some src) "device"
               (PStr (match v4l2_dev self with Some d => d | None => "" end))
        else Return (Some src)
    | None => Raise (mkExc RuntimeError
                "Missing plugin 'v4l2src'. Install gstreamer1.0-plugins-good.")
    end
  else if String.eqb (source self) "test" then
    src <- set_property_on (make "videotestsrc" "src") "is-live" (PBool true) ;;
    set_property_on src "pattern" (PInt 0)
  else Raise (mkExc RuntimeError ("Unknown source: " ++ source self)).

(** First half of the encoder choice: unless software is forced, try the
    hardware encoder; its bitrate is given in bits per second, and a
    refusal of that property is swallowed. Yields [(enc, using_hw)]. *)
Definition try_hardware_encoder (self : WebRTCCamera) : option Element * bool :=
  if negb (force_sw self) then
    match make "v4l2h264enc" "h264enc" with
    | Some enc =>
        (Some (or_keep
                 (if bitrate self >? 0
                  then set_property enc "bitrate" (PInt (bitrate self))
                  else Return enc)
                 enc),
         true)
    | None => (None, false)
    end
  else (None, false).

(** Second half: with no encoder yet, the software encoder, its bitrate in
    kilobits per second. *)
Definition select_encoder (self : WebRTCCamera) : Outcome (Element * bool) :=
  let '(enc, using_hw) := try_hardware_encoder self in
  match enc with
  | Some enc => Return (enc, using_hw)
  | None =>
      match make "x264enc" "h264enc" with
      | None => Raise (mkExc RuntimeError
          "Missing H.264 encoder. Install gstreamer1.0-plugins-ugly (x264enc) or provide v4l2h264enc.")
      | Some enc =>
          enc <- (if bitrate self >? 0
                  then set_property enc "bitrate" (PInt (Z.max 1 (bitrate self / 1000)))
                  else Return enc) ;;
          enc <- set_property enc "tune" (PStr "zerolatency") ;;
          enc <- set_property enc "speed-preset" (PStr "ultrafast") ;;
          enc <- set_property enc "key-int-max" (PInt (Z.max 1 (fps self * 2))) ;;
          Return (enc, using_hw)
      end
  end.

Definition pre_encode_caps (using_hw : bool) : string :=
  if using_hw then "video/x-raw,format=NV12" else "video/x-raw,format=I420".

(** The local variables of [build_pipeline] that outlive its body. *)
Record Built := mkBuilt {
  built_pipeline : Pipeline;
  built_webrtcbin : Element;
  built_enc : Element;
  built_using_hw : bool;
  built_caps_pre_enc : Element }.

Definition build (self : WebRTCCamera) : Outcome Built :=
  let pl := mkPipeline "webrtc-pipeline" [] [] in
  (if negb (has_factory P "nicesrc") || negb (has_factory P "nicesink")
   then Raise (mkExc RuntimeError
     "Missing libnice elements (nicesrc/nicesink). Install: sudo apt-get install -y gstreamer1.0-nice libnice10")
   else Return tt) ;;
  src <- make_source self ;;
  caps_src <- set_property_on (make "capsfilter" "caps_src") "caps"
    (PCaps ("video/x-raw,width=" ++ str_of_Z (width self)
            ++ ",height=" ++ str_of_Z (height self)
            ++ ",framerate=" ++ str_of_Z (fps self) ++ "/1")) ;;
  let vconv := make "videoconvert" "vconv" in
  let vscale := make "videoscale" "vscale" in
  chosen <- select_encoder self ;;
  let '(enc, using_hw) := chosen in
  caps_pre_enc <- method (make "capsfilter" "caps_pre_enc") "set_property" ;;
  caps_pre_enc <- set_property caps_pre_enc "caps" (PCaps (pre_encode_caps using_hw)) ;;
  let queue_enc := make "queue" "qenc" in
  let h264parse := make "h264parse" "h264parse" in
  let h264parse := or_keep (set_property_on h264parse "config-interval" (PInt 1)) h264parse in
  pay <- method (make "rtph264pay" "pay0") "set_property" ;;
  pay <- set_property pay "pt" (PInt 96) ;;
  let pay := or_keep (set_property pay "config-interval" (PInt 1)) pay in
  webrtcbin <- match make "webrtcbin" "webrtcbin" with
               | Some el => Return el
               | None => Raise (mkExc RuntimeError
                   "Missing plugin 'webrtcbin'. Install gstreamer1.0-plugins-bad.")
               end ;;
  webrtcbin <- (if truthy_opt (stun_server self)
                then set_property webrtcbin "stun-server"
                       (PStr (match stun_server self with Some u => u | None => "" end))
                else Return webrtcbin) ;;
  pl <- add_each pl [src; caps_src; vconv; vscale; Some caps_pre_enc; queue_enc;
                     Some enc; h264parse; Some pay; Some webrtcbin] ;;
  (* every element is in the pipeline now; the chain is all of them but webrtcbin *)
  pl <- link_chain pl (removelast (children pl)) ;;
  pay_src_pad <- match get_static_pad P pay "src" with
                 | Some pad => Return pad
                 | None => Raise (mkExc RuntimeError "Failed to get payloader src pad")
                 end ;;
  webrtc_sink_pad <- match (if has_request_pad_simple P
                            then request_pad_simple P webrtcbin "sink_%u"
                            else get_request_pad P webrtcbin "sink_%u") with
                     | Some pad => Return pad
                     | None => Raise (mkExc RuntimeError "Failed to get webrtcbin sink pad")
                     end ;;
  match pad_link P pay_src_pad webrtc_sink_pad with
  | PAD_LINK_OK => Return (mkBuilt pl webrtcbin enc using_hw caps_pre_enc)
  | PAD_LINK_REFUSED => Raise (mkExc RuntimeError "Failed to link payloader to webrtcbin")
  end.

End BuildPipeline.

(** ** The objects a session shares, and code that mutates them *)

(** The server side of the websocket: whether it is closed, and every
    object given to [send_json], oldest first. *)
Record WebSocket := mkWS {
  closed : bool;
  sent : list json }.

(** A call into the media engine. *)
Inductive EngineCall :=
| set_state (pl : Pipeline) (st : GstState)
| emit_create_offer (element : Element)
| emit_set_local_description (element : Element) (offer : option WebRTCSessionDescription)
| emit_set_remote_description (element : Element) (answer : WebRTCSessionDescription)
| emit_add_ice_candidate (element : Element) (mlineindex : Z) (candidate : string).

(** One connection: the camera object, its websocket, and the calls the
    engine has received, oldest first. *)
Record Session := mkSession {
  camera : WebRTCCamera;
  ws : WebSocket;
  engine : list EngineCall }.

(** A method body: it runs on the session, returns or raises, and leaves
    the session as it was at that point. *)
Definition M (A : Type) : Type := Session -> Outcome A * Session.

Definition ret {A : Type} (a : A) : M A := fun s => (Return a, s).

Definition raise {A : Type} (ex : PyExc) : M A := fun s => (Raise ex, s).

Definition bind {A B : Type} (m : M A) (k : A -> M B) : M B :=
  fun s =>
    match m s with
    | (Return a, s') => k a s'
    | (Raise ex, s') => (Raise ex, s')
    end.

Definition lift {A : Type} (o : Outcome A) : M A := fun s => (o, s).

(** [try: m  except Exception as ex: handler(ex)] *)
Definition try_except {A : Type} (m : M A) (handler : PyExc -> M A) : M A :=
  fun s =>
    match m s with
    | (Return a, s') => (Return a, s')
    | (Raise ex, s') => handler ex s'
    end.

(** [try: m  finally: cleanup] *)
Definition try_finally {A : Type} (m : M A) (cleanup : M unit) : M A :=
  fun s =>
    match m s with
    | (r, s') =>
        match cleanup s' with
        | (Return _, s'') => (r, s'')
        | (Raise ex, s'') => (Raise ex, s'')
        end
    end.

Declare Scope method_scope.
Delimit Scope method_scope with method.
Notation "x <- m ;; k" := (bind m (fun x => k))
  (at level 61, m at next level, right associativity) : method_scope.
Notation "m ;; k" := (bind m (fun _ => k))
  (at level 61, right associativity) : method_scope.

Definition with_handles (c : WebRTCCamera) (pl : option Pipeline) (w : option Element)
  : WebRTCCamera :=
  mkCamera (width c) (height c) (fps c) (bitrate c) (stun_server c) (source c)
           (v4l2_dev c) (force_sw c) pl w.

(** The engine receives a call. *)
Definition call (c : EngineCall) : M unit :=
  fun s => (Return tt, mkSession (camera s) (ws s) (engine s ++ [c])).

(** [await ws.send_json(obj)]: the object joins what the socket has sent.
    (A transport that breaks under a write is not modelled.) *)
Definition send_json (obj : json) : M unit :=
  fun s =>
    (Return tt, mkSession (camera s) (mkWS (closed (ws s)) (sent (ws s) ++ [obj])) (engine s)).

(** ** Outbound messages *)

Definition hello_message : json :=
  JDict [("type", JStr "hello"); ("message", JStr "ws-ready")].
Definition offer_message (text : string) : json :=
  JDict [("type", JStr "offer"); ("sdp", JStr text)].
Definition ice_message (candidate : string) (mlineindex : Z) : json :=
  JDict [("type", JStr "ice");
         ("ice", JDict [("candidate", JStr candidate); ("sdpMLineIndex", JInt mlineindex)])].
Definition pong_message : json :=
  JDict [("type", JStr "pong")].
Definition error_message (message : string) : json :=
  JDict [("type", JStr "error"); ("message", JStr message)].

(** The [type] of a message that was sent. *)
Definition has_type (t : string) (obj : json) : bool :=
  match obj with
  | JDict items =>
      match lookup "type" items with
      | Some v => eq_str v t
      | None => false
      end
  | _ => false
  end.

(** How many messages of a type a socket has sent. *)
Definition count_sent (t : string) (w : WebSocket) : nat :=
  List.length (filter (has_type t) (sent w)).

(** ** [WebRTCCamera] methods *)

(** The reply a create-offer promise holds when its change function runs:
    [promise.get_reply()] may be [None], and a reply need not have an
    [offer] field. *)
Definition PromiseReply : Type := option (option WebRTCSessionDescription).

Inductive BusMessage :=
| MESSAGE_ERROR (err dbg : string)
| MESSAGE_WARNING (err dbg : string)
| MESSAGE_EOS
| MESSAGE_OTHER.

Section Camera.

Variable P : Platform.

#[local] Open Scope method_scope.

Definition build_pipeline : M unit :=
  fun s =>
    match build P (camera s) with
    | Return b =>
        (Return tt,
         mkSession (with_handles (camera s) (Some (built_pipeline b)) (Some (built_webrtcbin b)))
                   (ws s) (engine s))
    | Raise ex => (Raise ex, s)
    end.

Definition start : M unit :=
  (fun s => match pipeline (camera s) with
            | None => build_pipeline s
            | Some _ => (Return tt, s)
            end) ;;
  fun s =>
    match pipeline (camera s) with
    | Some pl =>
        (call (set_state pl PLAYING) ;;
         match set_state_return P pl PLAYING with
         | FAILURE => raise (mkExc RuntimeError "Failed to set pipeline to PLAYING")
         | _ => ret tt
         end) s
    | None => (Raise (no_attribute "NoneType" "set_state"), s)
    end.

Definition stop : M unit :=
  fun s =>
    match pipeline (camera s) with
    | Some pl =>
        (call (set_state pl NULL) ;;
         fun s' => (Return tt, mkSession (with_handles (camera s') None None) (ws s') (engine s'))) s
    | None => (Return tt, s)
    end.

(** [_send_ws(obj)]: the send is handed to the event loop, where it runs
    only if the socket is still open. The hand-over keeps the order of the
    calls, so the send is taken to run at once. *)
Definition _send_ws (obj : json) : M unit :=
  fun s =>
    if negb (closed (ws s)) then send_json obj s else (Return tt, s).

(** The change function of the create-offer promise. *)
Definition on_offer_created (element : Element) (reply : PromiseReply) : M unit :=
  try_except
    (match reply with
     | None => raise (no_attribute "NoneType" "get_value")
     | Some offer =>
         call (emit_set_local_description element offer) ;;
         match offer with
         | None => raise (no_attribute "NoneType" "sdp")
         | Some o => _send_ws (offer_message (as_text (sdp o)))
         end
     end)
    (fun ex => _send_ws (error_message ("Offer error: " ++ exc_str ex))).

(** [_create_and_send_offer(element)]: the promise goes to the engine with
    the request; [on_offer_created] runs when the engine settles it. *)
Definition _create_and_send_offer (element : Element) : M unit :=
  call (emit_create_offer element).

Definition _on_negotiation_needed (element : Element) : M unit :=
  _create_and_send_offer element.

Definition _on_ice_candidate (element : Element) (mlineindex : Z) (candidate : string) : M unit :=
  _send_ws (ice_message candidate mlineindex).

Definition renegotiate : M unit :=
  fun s =>
    match webrtc (camera s) with
    | Some w => _create_and_send_offer w s
    | None => (Return tt, s)
    end.

(** [handle_sdp_answer(sdp_text)]; the argument is whatever the message
    held under [sdp], and the SDP parser takes only a string. *)
Definition handle_sdp_answer (sdp_text : json) : M unit :=
  fun s =>
    match webrtc (camera s) with
    | None => (Return tt, s)
    | Some w =>
        match sdp_text with
        | JStr text =>
            let '(res, sdpmsg) := sdp_message_new_from_text P text in
            match res with
            | SDP_OK => call (emit_set_remote_description w (mkDesc ANSWER sdpmsg)) s
            | SDP_EINVAL => (Raise (mkExc RuntimeError "Failed to parse SDP answer"), s)
            end
        | _ => (Raise (mkExc TypeError ("Must be string, not " ++ type_name sdp_text)), s)
        end
    end.

(** [handle_ice_candidate(candidate, mlineindex)]; the engine's signal
    takes the candidate only as a string. *)
Definition handle_ice_candidate (candidate : json) (mlineindex : Z) : M unit :=
  fun s =>
    match webrtc (camera s) with
    | Some w =>
        match candidate with
        | JStr text => call (emit_add_ice_candidate w mlineindex text) s
        | _ => (Raise (mkExc TypeError ("Must be string, not " ++ type_name candidate)), s)
        end
    | None => (Return tt, s)
    end.

Definition _on_bus_message (message : BusMessage) : M unit :=
  match message with
  | MESSAGE_ERROR err _ => _send_ws (error_message ("GStreamer ERROR: " ++ err))
  | _ => ret tt
  end.

End Camera.

(** ** [AppServer.handle_ws] *)

Record AppServer := mkApp {
  app_host : string;
  app_port : Z;
  app_width : Z;
  app_height : Z;
  app_fps : Z;
  app_bitrate : Z;
  app_stun : option string;
  app_source : string;
  app_v4l2_dev : option string;
  app_force_sw : bool }.

Inductive WSMsgType :=
| CONTINUATION | TEXT | BINARY | PING | PONG | CLOSE | CLOSING | CLOSED | ERROR.

Record WSMessage := mkMsg {
  msg_type : WSMsgType;
  data : string }.

(** What reaches a session while it serves its connection: the next
    message of the socket, or a callback of the engine. *)
Inductive Event :=
| received (msg : WSMessage)
| negotiation_needed (element : Element)
| offer_created (element : Element) (reply : PromiseReply)
| ice_candidate (element : Element) (mlineindex : Z) (candidate : string)
| bus_message (message : BusMessage).

Section Server.

Variable P : Platform.

#[local] Open Scope method_scope.

(** The body of the receive loop for a [TEXT] message. *)
Definition on_text (text : string) : M unit :=
  match json_loads P text with
  | Raise _ => ret tt
  | Return data =>
      mtype <- lift (py_get data "type" JNull) ;;
      if eq_str mtype "answer" then
        try_except
          (sdp_text <- lift (py_get data "sdp" (JStr "")) ;;
           handle_sdp_answer P sdp_text)
          (fun ex => send_json (error_message ("SDP answer error: " ++ exc_str ex)))
      else if eq_str mtype "ice" then
        ice <- lift (py_get data "ice" (JDict [])) ;;
        candidate <- lift (py_get ice "candidate" JNull) ;;
        sdpMLineIndex <- lift (py_get ice "sdpMLineIndex" (JInt 0)) ;;
        if truthy candidate then
          mlineindex <- lift (py_int (int_of_str P) sdpMLineIndex) ;;
          handle_ice_candidate candidate mlineindex
        else ret tt
      else if eq_str mtype "ping" then send_json pong_message
      else if eq_str mtype "ready" then renegotiate
      else ret tt
  end.

(** The body of the receive loop. *)
Definition on_message (msg : WSMessage) : M unit :=
  match msg_type msg with
  | TEXT => on_text (data msg)
  | _ => ret tt
  end.

(** One event: a message goes through the loop body, a callback of the
    engine runs the method connected to it. *)
Definition on_event (ev : Event) : M unit :=
  match ev with
  | received msg => on_message msg
  | negotiation_needed element => _on_negotiation_needed element
  | offer_created element reply => on_offer_created element reply
  | ice_candidate element mlineindex candidate => _on_ice_candidate element mlineindex candidate
  | bus_message message => _on_bus_message message
  end.

(** The socket closes: iteration over it ends. *)
Definition close_socket : M unit :=
  fun s => (Return tt, mkSession (camera s) (mkWS true (sent (ws s))) (engine s)).

Definition ends_iteration (t : WSMsgType) : bool :=
  match t with
  | CLOSE | CLOSING | CLOSED => true
  | _ => false
  end.

(** [async for msg in ws: ...], with the engine's callbacks running between
    messages. Iteration ends at a close message, or when nothing more
    arrives. *)
Fixpoint receive_loop (events : list Event) : M unit :=
  match events with
  | [] => close_socket
  | ev :: rest =>
      if match ev with
         | received msg => ends_iteration (msg_type msg)
         | _ => false
         end
      then close_socket
      else on_event ev ;; receive_loop rest
  end.

Definition new_camera (app : AppServer) : WebRTCCamera :=
  mkCamera (app_width app) (app_height app) (app_fps app) (app_bitrate app)
           (app_stun app) (app_source app) (app_v4l2_dev app) (app_force_sw app)
           None None.

(** The session as [handle_ws] has it once the socket is prepared. *)
Definition new_session (app : AppServer) : Session :=
  mkSession (new_camera app) (mkWS false []) [].

(** The first [try] of [handle_ws]. *)
Definition start_camera : M unit :=
  try_except (start P)
    (fun e => send_json (error_message ("Camera start failed: " ++ exc_str e))).

(** The second [try] of [handle_ws]. *)
Definition serve (events : list Event) : M unit :=
  try_finally (receive_loop events) stop.

Definition handle_ws (app : AppServer) (events : list Event) : Outcome unit * Session :=
  (send_json hello_message ;;
   start_camera ;;
   serve events) (new_session app).

End Server.

(** ** Hosts and messages for the examples *)

Definition quoted (s : string) : string := String "034" (s ++ String "034" "").

Definition ready_text : string :=
  "{" ++ quoted "type" ++ ":" ++ quoted "ready" ++ "}".
Definition bye_text : string :=
  "{" ++ quoted "type" ++ ":" ++ quoted "bye" ++ "}".
Definition answer_text (sdp_text : string) : string :=
  "{" ++ quoted "type" ++ ":" ++ quoted "answer" ++ ","
      ++ quoted "sdp" ++ ":" ++ quoted sdp_text ++ "}".
Definition ice_text (candidate index : string) : string :=
  "{" ++ quoted "type" ++ ":" ++ quoted "ice" ++ "," ++ quoted "ice" ++ ":{"
      ++ quoted "candidate" ++ ":" ++ quoted candidate ++ ","
      ++ quoted "sdpMLineIndex" ++ ":" ++ index ++ "}}".
Definition list_text : string := "[1, 2]".

Definition ice_object (candidate : string) (index : json) : json :=
  JDict [("type", JStr "ice");
         ("ice", JDict [("candidate", JStr candidate); ("sdpMLineIndex", index)])].

(** [json.loads] on the texts the examples send; this host takes any other
    text as malformed. *)
Definition loads_examples (text : string) : Outcome json :=
  match
    lookup text
      [(ready_text, JDict [("type", JStr "ready")]);
       (bye_text, JDict [("type", JStr "bye")]);
       (answer_text "", JDict [("type", JStr "answer"); ("sdp", JStr "")]);
       (answer_text "v=0", JDict [("type", JStr "answer"); ("sdp", JStr "v=0")]);
       (ice_text "a=candidate:1 ..." "0", ice_object "a=candidate:1 ..." (JInt 0));
       (ice_text "" "0", ice_object "" (JInt 0));
       (ice_text "a=candidate:1 ..." "null", ice_object "a=candidate:1 ..." JNull);
       (list_text, JList [JInt 1; JInt 2])]
  with
  | Some v => Return v
  | None => Raise (mkExc JSONDecodeError "Expecting value: line 1 column 1 (char 0)")
  end.

(** The SDP parser of the examples rejects only the empty text. *)
Definition parse_sdp_examples (text : string) : SDPResult * SDPMessage :=
  if String.eqb text "" then (SDP_EINVAL, mkSDP "") else (SDP_OK, mkSDP text).

(** A host given by the factories it has and by what setting a pipeline to
    [PLAYING] returns; every property is accepted and every link succeeds. *)
Definition host (factories : string -> bool) (playing : StateChangeReturn) : Platform :=
  mkPlatform factories
    (fun _ _ _ => true)
    (fun _ _ => true)
    (fun el nm => Some (mkPad el nm))
    true
    (fun el nm => Some (mkPad el nm))
    (fun el nm => Some (mkPad el nm))
    (fun _ _ => PAD_LINK_OK)
    (fun _ st => match st with PLAYING => playing | _ => SUCCESS end)
    parse_sdp_examples
    loads_examples
    (fun s => option_map Z.of_int (NilZero.int_of_string s)).

(** Every plugin installed. *)
Definition full_host : Platform := host (fun _ => true) SUCCESS.
(** No hardware encoder. *)
Definition plain_host : Platform :=
  host (fun f => negb (String.eqb f "v4l2h264enc")) SUCCESS.
(** No GStreamer plugin at all. *)
Definition bare_host : Platform := host (fun _ => false) SUCCESS.
(** Every plugin installed, but the pipeline refuses to play. *)
Definition stalled_host : Platform := host (fun _ => true) FAILURE.

(** Every plugin installed, with a hardware encoder that has no [bitrate]
    property; every other property is accepted. *)
Definition strict_host : Platform :=
  mkPlatform (has_factory full_host)
    (fun fac prop _ => negb (String.eqb fac "v4l2h264enc" && String.eqb prop "bitrate"))
    (can_link full_host) (get_static_pad full_host) (has_request_pad_simple full_host)
    (request_pad_simple full_host) (get_request_pad full_host) (pad_link full_host)
    (set_state_return full_host) (sdp_message_new_from_text full_host)
    (json_loads full_host) (int_of_str full_host).

(** The server with the defaults of [parse_args], on the test source. *)
Definition test_app (force : bool) : AppServer :=
  mkApp "0.0.0.0" 8082 1280 720 30 2500000 None "test" None force.

Definition app_with_bitrate (n : Z) (force : bool) : AppServer :=
  mkApp "0.0.0.0" 8082 1280 720 30 n None "test" None force.

(** The bitrate the encoder of a successful [build] ends up with. *)
Definition bitrate_of (r : Outcome Built) : option PropValue :=
  match r with
  | Return b => get_property (built_enc b) "bitrate"
  | Raise _ => None
  end.

Definition text_message (text : string) : WSMessage := mkMsg TEXT text.

(** A session that has no pipeline, and one whose pipeline plays. *)
Definition idle_session : Session := new_session (test_app false).
Definition live_session : Session := snd (start full_host (new_session (test_app false))).

Definition an_offer (text : string) : WebRTCSessionDescription := mkDesc OFFER (mkSDP text).

(** ** Vocabulary of the properties *)

(** The two handles of a camera are assigned together at the end of
    [build_pipeline] and cleared together by [stop]. *)
Definition paired (c : WebRTCCamera) : Prop :=
  pipeline c = None -> webrtc c = None.

(** The message types that the receive loop has a branch for. *)
Definition dispatched (mtype : json) : bool :=
  eq_str mtype "answer" || eq_str mtype "ice" || eq_str mtype "ping" || eq_str mtype "ready".

(** [data.get("type")] of a dict. *)
Definition type_of (items : list (string * json)) : json :=
  match lookup "type" items with
  | Some v => v
  | None => JNull
  end.

(** [s'] is [s] after some more engine calls and sends; the camera object
    is the same and the socket is as open as it was. *)
Definition continues (s s' : Session) : Prop :=
  camera s' = camera s
  /\ closed (ws s') = closed (ws s)
  /\ (exists calls, engine s' = (engine s ++ calls)%list)
  /\ (exists objs, sent (ws s') = (sent (ws s) ++ objs)%list).

(** A method that leaves the camera's attributes and the socket's state
    alone and only adds to what the engine and the socket have seen. *)
Definition steady {A : Type} (m : M A) : Prop :=
  forall s, continues s (snd (m s)).

(** Counting offers: the create-offer requests the engine has received,
    the events that ask for one, and the events that settle one with an
    offer. *)
Definition is_create_offer (c : EngineCall) : bool :=
  match c with
  | emit_create_offer _ => true
  | _ => false
  end.

Definition offers_requested (s : Session) : nat :=
  List.length (filter is_create_offer (engine s)).

Definition asks_for_offer (P : Platform) (ev : Event) : bool :=
  match ev with
  | negotiation_needed _ => true
  | received msg =>
      match msg_type msg with
      | TEXT =>
          match json_loads P (data msg) with
          | Return (JDict items) => eq_str (type_of items) "ready"
          | _ => false
          end
      | _ => false
      end
  | _ => false
  end.

Definition settles_with_offer (ev : Event) : bool :=
  match ev with
  | offer_created _ (Some (Some _)) => true
  | _ => false
  end.

(** A method that neither asks the engine for an offer nor sends one. *)
Definition quiet {A : Type} (m : M A) : Prop :=
  forall s, offers_requested (snd (m s)) = offers_requested s
            /\ count_sent "offer" (ws (snd (m s))) = count_sent "offer" (ws s).

(** The events one after the other, up to the first that raises. *)
Fixpoint handle_all (P : Platform) (events : list Event) : M unit :=
  match events with
  | [] => ret tt
  | ev :: rest => bind (on_event P ev) (fun _ => handle_all P rest)
  end.

(** The session as it enters the receive loop of [handle_ws]. *)
Definition entering (P : Platform) (app : AppServer) : Session :=
  snd (bind (send_json hello_message) (fun _ => start_camera P) (new_session app)).

(** The properties an encoder ends up with on each path. *)
Definition hardware_properties (P : Platform) (self : WebRTCCamera)
  : list (string * PropValue) :=
  if (bitrate self >? 0) && accepts_property P "v4l2h264enc" "bitrate" (PInt (bitrate self))
  then [("bitrate", PInt (bitrate self))]
  else [].

Definition software_properties (self : WebRTCCamera) : list (string * PropValue) :=
  (if bitrate self >? 0 then [("bitrate", PInt (Z.max 1 (bitrate self / 1000)))] else [])
  ++ [("tune", PStr "zerolatency");
      ("speed-preset", PStr "ultrafast");
      ("key-int-max", PInt (Z.max 1 (fps self * 2)))].

(** ** Vocabulary of the further properties *)

(** Each element of a list with its successor, left to right:
    [zip(elements, elements[1:])]. *)
Fixpoint adjacent {A : Type} (l : list A) : list (A * A) :=
  match l with
  | a :: (b :: _) as rest => (a, b) :: adjacent rest
  | _ => []
  end.

Definition refuses (P : Platform) (ab : Element * Element) : bool :=
  negb (can_link P (fst ab) (snd ab)).

Definition link_names (ab : Element * Element) : string * string :=
  (name (fst ab), name (snd ab)).

(** A property that is there only if the element took it. *)
Definition if_accepted (P : Platform) (fac prop : string) (v : PropValue)
  : list (string * PropValue) :=
  if accepts_property P fac prop v then [(prop, v)] else [].

(** The caps string of the first caps filter. *)
Definition source_caps (self : WebRTCCamera) : string :=
  "video/x-raw,width=" ++ str_of_Z (width self)
  ++ ",height=" ++ str_of_Z (height self)
  ++ ",framerate=" ++ str_of_Z (fps self) ++ "/1".

(** The source element each known [source] asks for. *)
Definition expected_source (self : WebRTCCamera) : option Element :=
  if String.eqb (source self) "libcamera" then Some (mkElement "libcamerasrc" "src" [])
  else if String.eqb (source self) "v4l2" then
    Some (mkElement "v4l2src" "src"
            (if truthy_opt (v4l2_dev self)
             then [("device", PStr (match v4l2_dev self with Some d => d | None => "" end))]
             else []))
  else if String.eqb (source self) "test" then
    Some (mkElement "videotestsrc" "src" [("is-live", PBool true); ("pattern", PInt 0)])
  else None.

(** The [stun-server] property of webrtcbin. *)
Definition stun_properties (self : WebRTCCamera) : list (string * PropValue) :=
  if truthy_opt (stun_server self)
  then [("stun-server", PStr (match stun_server self with Some u => u | None => "" end))]
  else [].

(** The names of the pipeline's elements, in the order they are added. *)
Definition element_names : list string :=
  ["src"; "caps_src"; "vconv"; "vscale"; "caps_pre_enc"; "qenc"; "h264enc";
   "h264parse"; "pay0"; "webrtcbin"].

(** The factories every pipeline needs, whatever its source and encoder. *)
Definition common_factories : list string :=
  ["nicesrc"; "nicesink"; "capsfilter"; "videoconvert"; "videoscale"; "queue";
   "h264parse"; "rtph264pay"; "webrtcbin"].

(** An event that is a callback of the engine, not a message of the peer. *)
Definition is_callback (ev : Event) : bool :=
  match ev with
  | received _ => false
  | _ => true
  end.

Definition is_set_state (c : EngineCall) : bool :=
  match c with
  | set_state _ _ => true
  | _ => false
  end.

Definition is_stop (c : EngineCall) : bool :=
  match c with
  | set_state _ NULL => true
  | _ => false
  end.

(** A method whose calls to the engine are all signal emissions. *)
Definition emits_only {A : Type} (m : M A) : Prop :=
  forall s, exists calls,
    engine (snd (m s)) = (engine s ++ calls)%list
    /\ existsb is_set_state calls = false.

(** A peer's [ping], and a second candidate. *)
Definition ping_text : string :=
  "{" ++ quoted "type" ++ ":" ++ quoted "ping" ++ "}".

(** [json.loads] of the examples, extended by the texts above. *)
Definition loads_more (text : string) : Outcome json :=
  match
    lookup text
      [(ping_text, JDict [("type", JStr "ping")]);
       (ice_text "a=candidate:2 ..." "1", ice_message "a=candidate:2 ..." 1)]
  with
  | Some v => Return v
  | None => loads_examples text
  end.

(** Every plugin installed, and the larger table of texts. *)
Definition chat_host : Platform :=
  mkPlatform (has_factory full_host) (accepts_property full_host) (can_link full_host)
    (get_static_pad full_host) (has_request_pad_simple full_host)
    (request_pad_simple full_host) (get_request_pad full_host) (pad_link full_host)
    (set_state_return full_host) (sdp_message_new_from_text full_host)
    loads_more (int_of_str full_host).

Definition forwarded (w : Element) (cn : string * Z) : EngineCall :=
  emit_add_ice_candidate w (snd cn) (fst cn).

(** An event that cannot make the loop body raise: a callback, a frame
    that is not text, a text that is not JSON, or a JSON object whose
    [type] is not [ice]. *)
Definition harmless (P : Platform) (ev : Event) : bool :=
  match ev with
  | received msg =>
      match msg_type msg with
      | TEXT =>
          match json_loads P (data msg) with
          | Return (JDict items) => negb (eq_str (type_of items) "ice")
          | Return _ => false
          | Raise _ => true
          end
      | _ => true
      end
  | _ => true
  end.

(** A browser's candidate, with the [sdpMid] that browsers add. *)
Definition browser_ice_text : string :=
  "{" ++ quoted "type" ++ ":" ++ quoted "ice" ++ "," ++ quoted "ice" ++ ":{"
      ++ quoted "candidate" ++ ":" ++ quoted "a=candidate:3 ..." ++ ","
      ++ quoted "sdpMid" ++ ":" ++ quoted "0" ++ ","
      ++ quoted "sdpMLineIndex" ++ ":0}}".

Definition loads_browser (text : string) : Outcome json :=
  if String.eqb text browser_ice_text
  then Return (JDict [("type", JStr "ice");
                      ("ice", JDict [("candidate", JStr "a=candidate:3 ...");
                                     ("sdpMid", JStr "0");
                                     ("sdpMLineIndex", JInt 0)])])
  else loads_more text.

Definition browser_host : Platform :=
  mkPlatform (has_factory full_host) (accepts_property full_host) (can_link full_host)
    (get_static_pad full_host) (has_request_pad_simple full_host)
    (request_pad_simple full_host) (get_request_pad full_host) (pad_link full_host)
    (set_state_return full_host) (sdp_message_new_from_text full_host)
    loads_browser (int_of_str full_host).

Definition is_add_ice (c : EngineCall) : bool :=
  match c with
  | emit_add_ice_candidate _ _ _ => true
  | _ => false
  end.

(** The candidate and media-line index that an event asks the session to
    forward, if any: those of a text message that is a JSON object of type
    [ice] whose candidate is a non-empty string and whose index converts. *)
Definition inbound_candidate (P : Platform) (ev : Event) : option (string * Z) :=
  match ev with
  | received msg =>
      match msg_type msg with
      | TEXT =>
          match json_loads P (data msg) with
          | Return (JDict items) =>
              if eq_str (type_of items) "ice" then
                let ice := match lookup "ice" items with
                           | Some v => v
                           | None => JDict []
                           end in
                match py_get ice "candidate" JNull with
                | Return (JStr candidate) =>
                    if String.eqb candidate "" then None
                    else
                      match py_get ice "sdpMLineIndex" (JInt 0) with
                      | Return sdpMLineIndex =>
                          match py_int (int_of_str P) sdpMLineIndex with
                          | Return n => Some (candidate, n)
                          | Raise _ => None
                          end
                      | Raise _ => None
                      end
                | _ => None
                end
              else None
          | _ => None
          end
      | _ => None
      end
  | _ => None
  end.

(** The candidates of a run of events, in the order of arrival. *)
Fixpoint candidates (P : Platform) (events : list Event) : list (string * Z) :=
  match events with
  | [] => []
  | ev :: rest =>
      match inbound_candidate P ev with
      | Some cn => cn :: candidates P rest
      | None => candidates P rest
      end
  end.

(** A method that only adds engine calls that pass [okc] and only sends
    objects that pass [oko]. *)
Definition within (okc : EngineCall -> bool) (oko : json -> bool) {A : Type} (m : M A)
  : Prop :=
  forall s, exists calls objs,
    engine (snd (m s)) = (engine s ++ calls)%list
    /\ sent (ws (snd (m s))) = (sent (ws s) ++ objs)%list
    /\ forallb okc calls = true
    /\ forallb oko objs = true.

Definition not_add_ice (c : EngineCall) : bool := negb (is_add_ice c).
Definition any_call (c : EngineCall) : bool := true.
Definition any_object (obj : json) : bool := true.

(** [s.startswith(pre)] *)
Fixpoint starts_with (pre s : string) : bool :=
  match pre with
  | EmptyString => true
  | String a pre' =>
      match s with
      | String b s' => Ascii.eqb a b && starts_with pre' s'
      | EmptyString => false
      end
  end.

(** The [error] message of a failed [start]. *)
Definition is_start_failure (obj : json) : bool :=
  match obj with
  | JDict items =>
      has_type "error" obj
      && match lookup "message" items with
         | Some (JStr m) => starts_with "Camera start failed: " m
         | _ => false
         end
  | _ => false
  end.

(** What the receive loop may send: anything but a greeting or the report
    of a failed [start]. *)
Definition loop_message (obj : json) : bool :=
  negb (has_type "hello" obj) && negb (is_start_failure obj).

(** * Properties *)

(** ** Lifecycle: [stop] *)

Lemma stop_without_pipeline (s : Session) :
  pipeline (camera s) = None -> stop s = (Return tt, s).
Proof.
  intros Hnone. unfold stop. rewrite Hnone. reflexivity.
Qed.

Lemma stop_with_pipeline (s : Session) (pl : Pipeline) :
  pipeline (camera s) = Some pl ->
  stop s = (Return tt,
            mkSession (with_handles (camera s) None None) (ws s)
                      (engine s ++ [set_state pl NULL])).
Proof.
  intros Hsome. unfold stop. rewrite Hsome. reflexivity.
Qed.

Lemma stop_returns (s : Session) : fst (stop s) = Return tt.
Proof.
  destruct (pipeline (camera s)) as [pl|] eqn:Hpl.
  - rewrite (stop_with_pipeline s pl Hpl). reflexivity.
  - rewrite (stop_without_pipeline s Hpl). reflexivity.
Qed.

Lemma stop_clears_pipeline (s : Session) : pipeline (camera (snd (stop s))) = None.
Proof.
  destruct (pipeline (camera s)) as [pl|] eqn:Hpl.
  - rewrite (stop_with_pipeline s pl Hpl). reflexivity.
  - rewrite (stop_without_pipeline s Hpl). exact Hpl.
Qed.

Lemma stop_clears_webrtc (s : Session) :
  paired (camera s) -> webrtc (camera (snd (stop s))) = None.
Proof.
  intros Hpaired.
  destruct (pipeline (camera s)) as [pl|] eqn:Hpl.
  - rewrite (stop_with_pipeline s pl Hpl). reflexivity.
  - rewrite (stop_without_pipeline s Hpl). exact (Hpaired Hpl).
Qed.

Lemma new_session_paired (app : AppServer) : paired (camera (new_session app)).
Proof. intros _. reflexivity. Qed.

(** C7. [stop] never raises; it leaves both handles cleared; a second
    [stop] changes nothing at all, so the pipeline is released at most
    once; and [stop] on a camera that never built a pipeline changes
    nothing either. *)
Theorem stop_idempotent (app : AppServer) (s : Session) :
  paired (camera s) ->
  fst (stop s) = Return tt
  /\ pipeline (camera (snd (stop s))) = None
  /\ webrtc (camera (snd (stop s))) = None
  /\ engine (snd (stop s)) =
       (engine s ++ match pipeline (camera s) with
                    | Some pl => [set_state pl NULL]
                    | None => []
                    end)%list
  /\ stop (snd (stop s)) = (Return tt, snd (stop s))
  /\ stop (new_session app) = (Return tt, new_session app).
Proof.
  intros Hpaired.
  split; [apply stop_returns|].
  split; [apply stop_clears_pipeline|].
  split; [apply stop_clears_webrtc; exact Hpaired|].
  split.
  - destruct (pipeline (camera s)) as [pl|] eqn:Hpl.
    + rewrite (stop_with_pipeline s pl Hpl). reflexivity.
    + rewrite (stop_without_pipeline s Hpl). symmetry. apply app_nil_r.
  - split.
    + apply stop_without_pipeline. apply stop_clears_pipeline.
    + apply stop_without_pipeline. reflexivity.
Qed.

Lemma stop_idempotent_witness :
  paired (camera live_session)
  /\ (fst (stop live_session) = Return tt
      /\ pipeline (camera (snd (stop live_session))) = None
      /\ webrtc (camera (snd (stop live_session))) = None
      /\ engine (snd (stop live_session)) =
           (engine live_session ++ match pipeline (camera live_session) with
                                   | Some pl => [set_state pl NULL]
                                   | None => []
                                   end)%list
      /\ stop (snd (stop live_session)) = (Return tt, snd (stop live_session))
      /\ stop (new_session (test_app false)) = (Return tt, new_session (test_app false))).
Proof.
  assert (Hpaired : paired (camera live_session)).
  { intros Hnone. vm_compute in Hnone. discriminate Hnone. }
  split; [exact Hpaired|].
  exact (stop_idempotent (test_app false) live_session Hpaired).
Defined.

(** ** Events leave the camera's handles alone *)

Lemma continues_refl (s : Session) : continues s s.
Proof.
  split; [reflexivity|]. split; [reflexivity|].
  split; exists []; symmetry; apply app_nil_r.
Qed.

Lemma continues_trans (s1 s2 s3 : Session) :
  continues s1 s2 -> continues s2 s3 -> continues s1 s3.
Proof.
  intros [Hc1 [Ho1 [[calls1 He1] [objs1 Hs1]]]] [Hc2 [Ho2 [[calls2 He2] [objs2 Hs2]]]].
  split; [congruence|]. split; [congruence|].
  split.
  - exists (calls1 ++ calls2)%list. rewrite He2, He1. symmetry. apply app_assoc.
  - exists (objs1 ++ objs2)%list. rewrite Hs2, Hs1. symmetry. apply app_assoc.
Qed.

Lemma steady_ret {A : Type} (a : A) : steady (ret a).
Proof. intros s. apply continues_refl. Qed.

Lemma steady_raise {A : Type} (ex : PyExc) : steady (@raise A ex).
Proof. intros s. apply continues_refl. Qed.

Lemma steady_lift {A : Type} (o : Outcome A) : steady (lift o).
Proof. intros s. apply continues_refl. Qed.

Lemma steady_call (c : EngineCall) : steady (call c).
Proof.
  intros s. split; [reflexivity|]. split; [reflexivity|]. split.
  - exists [c]. reflexivity.
  - exists []. symmetry. apply app_nil_r.
Qed.

Lemma steady_send_json (obj : json) : steady (send_json obj).
Proof.
  intros s. split; [reflexivity|]. split; [reflexivity|]. split.
  - exists []. symmetry. apply app_nil_r.
  - exists [obj]. reflexivity.
Qed.

Lemma steady_bind {A B : Type} (m : M A) (k : A -> M B) :
  steady m -> (forall a, steady (k a)) -> steady (bind m k).
Proof.
  intros Hm Hk s. unfold bind. specialize (Hm s).
  destruct (m s) as [[a|ex] s1]; simpl in Hm.
  - apply (continues_trans s s1); [exact Hm | apply Hk].
  - exact Hm.
Qed.

Lemma steady_try_except {A : Type} (m : M A) (handler : PyExc -> M A) :
  steady m -> (forall ex, steady (handler ex)) -> steady (try_except m handler).
Proof.
  intros Hm Hh s. unfold try_except. specialize (Hm s).
  destruct (m s) as [[a|ex] s1]; simpl in Hm.
  - exact Hm.
  - apply (continues_trans s s1); [exact Hm | apply Hh].
Qed.

(** A method that picks its body by looking at the session. *)
Lemma steady_choice {A : Type} (m : M A) :
  (forall s, exists m', steady m' /\ m s = m' s) -> steady m.
Proof.
  intros Hpick s. destruct (Hpick s) as [m' [Hm' Heq]]. rewrite Heq. apply Hm'.
Qed.

Lemma steady__send_ws (obj : json) : steady (_send_ws obj).
Proof.
  apply steady_choice. intros s. unfold _send_ws.
  destruct (negb (closed (ws s))).
  - exists (send_json obj). split; [apply steady_send_json | reflexivity].
  - exists (ret tt). split; [apply steady_ret | reflexivity].
Qed.

Lemma steady_renegotiate : steady renegotiate.
Proof.
  apply steady_choice. intros s. unfold renegotiate.
  destruct (webrtc (camera s)) as [w|].
  - exists (call (emit_create_offer w)). split; [apply steady_call | reflexivity].
  - exists (ret tt). split; [apply steady_ret | reflexivity].
Qed.

Lemma steady_handle_sdp_answer (P : Platform) (sdp_text : json) :
  steady (handle_sdp_answer P sdp_text).
Proof.
  apply steady_choice. intros s. unfold handle_sdp_answer.
  destruct (webrtc (camera s)) as [w|].
  - destruct sdp_text;
      try (eexists (raise _); split; [apply steady_raise | reflexivity]).
    destruct (sdp_message_new_from_text P s0) as [[|] sdpmsg].
    + eexists (call _). split; [apply steady_call | reflexivity].
    + eexists (raise _). split; [apply steady_raise | reflexivity].
  - exists (ret tt). split; [apply steady_ret | reflexivity].
Qed.

Lemma steady_handle_ice_candidate (candidate : json) (n : Z) :
  steady (handle_ice_candidate candidate n).
Proof.
  apply steady_choice. intros s. unfold handle_ice_candidate.
  destruct (webrtc (camera s)) as [w|].
  - destruct candidate;
      try (eexists (raise _); split; [apply steady_raise | reflexivity]).
    eexists (call _). split; [apply steady_call | reflexivity].
  - exists (ret tt). split; [apply steady_ret | reflexivity].
Qed.

Lemma steady_on_offer_created (element : Element) (reply : PromiseReply) :
  steady (on_offer_created element reply).
Proof.
  unfold on_offer_created. apply steady_try_except.
  - destruct reply as [[o|]|].
    + apply steady_bind; [apply steady_call | intros _; apply steady__send_ws].
    + apply steady_bind; [apply steady_call | intros _; apply steady_raise].
    + apply steady_raise.
  - intros ex. apply steady__send_ws.
Qed.

Lemma steady_on_text (P : Platform) (text : string) : steady (on_text P text).
Proof.
  unfold on_text. destruct (json_loads P text) as [data|ex]; [|apply steady_ret].
  apply steady_bind; [apply steady_lift|]. intros mtype.
  destruct (eq_str mtype "answer").
  { apply steady_try_except.
    - apply steady_bind; [apply steady_lift|]. intros v. apply steady_handle_sdp_answer.
    - intros ex. apply steady_send_json. }
  destruct (eq_str mtype "ice").
  { apply steady_bind; [apply steady_lift|]. intros ice.
    apply steady_bind; [apply steady_lift|]. intros candidate.
    apply steady_bind; [apply steady_lift|]. intros idx.
    destruct (truthy candidate); [|apply steady_ret].
    apply steady_bind; [apply steady_lift|]. intros n.
    apply steady_handle_ice_candidate. }
  destruct (eq_str mtype "ping"); [apply steady_send_json|].
  destruct (eq_str mtype "ready"); [apply steady_renegotiate | apply steady_ret].
Qed.

Lemma steady_on_event (P : Platform) (ev : Event) : steady (on_event P ev).
Proof.
  destruct ev as [msg | element | element reply | element n candidate | message];
    unfold on_event.
  - unfold on_message. destruct (msg_type msg); try apply steady_ret.
    apply steady_on_text.
  - apply steady_call.
  - apply steady_on_offer_created.
  - apply steady__send_ws.
  - destruct message; try apply steady_ret. apply steady__send_ws.
Qed.

(** The loop as a whole: it may close the socket, and still leaves the
    camera alone and only adds to the calls of the engine. *)
Lemma receive_loop_camera (P : Platform) (events : list Event) (s : Session) :
  camera (snd (receive_loop P events s)) = camera s
  /\ exists calls, engine (snd (receive_loop P events s)) = (engine s ++ calls)%list.
Proof.
  revert s. induction events as [|ev rest IH]; intros s; simpl.
  - split; [reflexivity | exists []; symmetry; apply app_nil_r].
  - destruct (match ev with
              | received msg => ends_iteration (msg_type msg)
              | _ => false
              end).
    + split; [reflexivity | exists []; symmetry; apply app_nil_r].
    + unfold bind.
      destruct (steady_on_event P ev s) as [Hcam [_ [[calls Hcalls] _]]].
      destruct (on_event P ev s) as [[u|ex] s1]; simpl in *.
      * destruct (IH s1) as [Hcam' [calls' Hcalls']].
        split; [congruence|].
        exists (calls ++ calls')%list. rewrite Hcalls', Hcalls. symmetry. apply app_assoc.
      * split; [exact Hcam | exists calls; exact Hcalls].
Qed.

(** ** Dispatch of one text message *)

(** Settles the comparisons of a known [type] with the branch literals. *)
Ltac settle_type :=
  repeat match goal with
         | |- context [eq_str (JStr ?a) ?b] =>
             let v := eval vm_compute in (eq_str (JStr a) b) in
             change (eq_str (JStr a) b) with v
         end;
  cbv iota.

Section Dispatch.

Variable P : Platform.

Lemma on_message_text (text : string) (s : Session) :
  on_message P (text_message text) s = on_text P text s.
Proof. reflexivity. Qed.

Lemma on_text_malformed (text : string) (ex : PyExc) (s : Session) :
  json_loads P text = Raise ex -> on_text P text s = (Return tt, s).
Proof.
  intros Hloads. unfold on_text. rewrite Hloads. reflexivity.
Qed.

Lemma get_type (items : list (string * json)) :
  py_get (JDict items) "type" JNull = Return (type_of items).
Proof.
  unfold py_get, type_of. destruct (lookup "type" items); reflexivity.
Qed.

(** The loop body on a dict: the chain of comparisons on its [type]. *)
Lemma on_text_dict (text : string) (items : list (string * json)) (s : Session) :
  json_loads P text = Return (JDict items) ->
  on_text P text s
  = (if eq_str (type_of items) "answer" then
       try_except
         (bind (lift (py_get (JDict items) "sdp" (JStr "")))
               (fun sdp_text => handle_sdp_answer P sdp_text))
         (fun ex => send_json (error_message ("SDP answer error: " ++ exc_str ex)))
     else if eq_str (type_of items) "ice" then
       bind (lift (py_get (JDict items) "ice" (JDict []))) (fun ice =>
       bind (lift (py_get ice "candidate" JNull)) (fun candidate =>
       bind (lift (py_get ice "sdpMLineIndex" (JInt 0))) (fun sdpMLineIndex =>
       if truthy candidate then
         bind (lift (py_int (int_of_str P) sdpMLineIndex)) (fun mlineindex =>
         handle_ice_candidate candidate mlineindex)
       else ret tt)))
     else if eq_str (type_of items) "ping" then send_json pong_message
     else if eq_str (type_of items) "ready" then renegotiate
     else ret tt) s.
Proof.
  intros Hloads. unfold on_text. rewrite Hloads, get_type. reflexivity.
Qed.

(** A dict whose [type] has no branch falls through the whole chain. *)
Lemma on_text_undispatched (text : string) (items : list (string * json)) (s : Session) :
  json_loads P text = Return (JDict items) ->
  dispatched (type_of items) = false ->
  on_text P text s = (Return tt, s).
Proof.
  intros Hloads Hnone. unfold on_text. rewrite Hloads.
  unfold dispatched in Hnone.
  repeat (apply orb_false_iff in Hnone; destruct Hnone as [Hnone ?]).
  rewrite get_type. unfold bind, lift.
  rewrite Hnone.
  repeat match goal with H : eq_str _ _ = false |- _ => rewrite H; clear H end.
  reflexivity.
Qed.

Lemma on_text_answer (text : string) (items : list (string * json)) (s : Session) :
  json_loads P text = Return (JDict items) ->
  type_of items = JStr "answer" ->
  on_text P text s =
    try_except
      (handle_sdp_answer P (match lookup "sdp" items with Some v => v | None => JStr "" end))
      (fun ex => send_json (error_message ("SDP answer error: " ++ exc_str ex))) s.
Proof.
  intros Hloads Htype. unfold on_text. rewrite Hloads, get_type.
  unfold bind at 1. unfold lift at 1.
  rewrite Htype. settle_type.
  unfold try_except, bind, lift, py_get.
  destruct (lookup "sdp" items); reflexivity.
Qed.

Lemma on_text_ready (text : string) (items : list (string * json)) (s : Session) :
  json_loads P text = Return (JDict items) ->
  type_of items = JStr "ready" ->
  on_text P text s = renegotiate s.
Proof.
  intros Hloads Htype. unfold on_text. rewrite Hloads, get_type.
  unfold bind, lift.
  rewrite Htype. settle_type. reflexivity.
Qed.

Lemma on_text_ice (text : string) (items : list (string * json)) (s : Session) :
  json_loads P text = Return (JDict items) ->
  type_of items = JStr "ice" ->
  on_text P text s =
    match py_get (match lookup "ice" items with Some v => v | None => JDict [] end)
                 "candidate" JNull with
    | Raise ex => (Raise ex, s)
    | Return candidate =>
        match py_get (match lookup "ice" items with Some v => v | None => JDict [] end)
                     "sdpMLineIndex" (JInt 0) with
        | Raise ex => (Raise ex, s)
        | Return sdpMLineIndex =>
            if truthy candidate then
              match py_int (int_of_str P) sdpMLineIndex with
              | Raise ex => (Raise ex, s)
              | Return mlineindex => handle_ice_candidate candidate mlineindex s
              end
            else (Return tt, s)
        end
    end.
Proof.
  intros Hloads Htype. unfold on_text. rewrite Hloads, get_type.
  unfold bind at 1. unfold lift at 1.
  rewrite Htype. settle_type.
  unfold bind, lift. unfold py_get at 1.
  destruct (lookup "ice" items) as [ice|]; cbv iota beta.
  - destruct (py_get ice "candidate" JNull) as [candidate|ex]; [|reflexivity].
    destruct (py_get ice "sdpMLineIndex" (JInt 0)) as [idx|ex]; [|reflexivity].
    destruct (truthy candidate); [|reflexivity].
    destruct (py_int (int_of_str P) idx); reflexivity.
  - destruct (py_get (JDict []) "candidate" JNull) as [candidate|ex]; [|reflexivity].
    destruct (py_get (JDict []) "sdpMLineIndex" (JInt 0)) as [idx|ex]; [|reflexivity].
    destruct (truthy candidate); [|reflexivity].
    destruct (py_int (int_of_str P) idx); reflexivity.
Qed.

End Dispatch.

(** ** Answers *)

(** C9. While the camera has no engine handle, an [answer] message is
    ignored whatever it carries: the method returns, nothing is sent, the
    engine is not called, and the loop body returns with the session as it
    was. *)
Theorem answer_without_engine (P : Platform) (s : Session) (text : string)
    (items : list (string * json)) (sdp_text : json) :
  webrtc (camera s) = None ->
  json_loads P text = Return (JDict items) ->
  type_of items = JStr "answer" ->
  handle_sdp_answer P sdp_text s = (Return tt, s)
  /\ on_message P (text_message text) s = (Return tt, s).
Proof.
  intros Hnone Hloads Htype.
  assert (Hsilent : forall v, handle_sdp_answer P v s = (Return tt, s)).
  { intros v. unfold handle_sdp_answer. rewrite Hnone. reflexivity. }
  split; [apply Hsilent|].
  rewrite on_message_text, (on_text_answer P text items s Hloads Htype).
  unfold try_except. rewrite Hsilent. reflexivity.
Qed.

Lemma answer_without_engine_witness :
  webrtc (camera idle_session) = None
  /\ json_loads bare_host (answer_text "") =
       Return (JDict [("type", JStr "answer"); ("sdp", JStr "")])
  /\ handle_sdp_answer bare_host (JStr "") idle_session = (Return tt, idle_session)
  /\ on_message bare_host (text_message (answer_text "")) idle_session
     = (Return tt, idle_session).
Proof.
  split; [reflexivity|]. split; [reflexivity|].
  apply (answer_without_engine bare_host idle_session (answer_text "")
           [("type", JStr "answer"); ("sdp", JStr "")] (JStr ""));
    reflexivity.
Defined.

Lemma handle_sdp_answer_unparsable (P : Platform) (s : Session) (w : Element)
    (sdp_text : string) :
  webrtc (camera s) = Some w ->
  fst (sdp_message_new_from_text P sdp_text) = SDP_EINVAL ->
  handle_sdp_answer P (JStr sdp_text) s
  = (Raise (mkExc RuntimeError "Failed to parse SDP answer"), s).
Proof.
  intros Hsome Hres. unfold handle_sdp_answer. rewrite Hsome.
  destruct (sdp_message_new_from_text P sdp_text) as [res sdpmsg].
  simpl in Hres. rewrite Hres. reflexivity.
Qed.

(** C2, as the code has it. While the camera holds an engine handle, an
    [answer] whose text the SDP parser rejects makes the loop body send one
    [error] message and nothing else: the camera and the calls the engine
    has received stay as they were, so no remote description is set. *)
Theorem unparsable_answer_reported (P : Platform) (s : Session) (w : Element)
    (text : string) (items : list (string * json)) (sdp_text : string) :
  webrtc (camera s) = Some w ->
  json_loads P text = Return (JDict items) ->
  type_of items = JStr "answer" ->
  py_get (JDict items) "sdp" (JStr "") = Return (JStr sdp_text) ->
  fst (sdp_message_new_from_text P sdp_text) = SDP_EINVAL ->
  on_message P (text_message text) s
  = (Return tt,
     mkSession (camera s)
       (mkWS (closed (ws s))
          (sent (ws s) ++ [error_message "SDP answer error: Failed to parse SDP answer"]))
       (engine s))
  /\ count_sent "error" (ws (snd (on_message P (text_message text) s)))
     = S (count_sent "error" (ws s)).
Proof.
  intros Hsome Hloads Htype Hsdp Hres.
  assert (Hrun : on_message P (text_message text) s
                 = (Return tt,
                    mkSession (camera s)
                      (mkWS (closed (ws s))
                         (sent (ws s) ++
                            [error_message "SDP answer error: Failed to parse SDP answer"]))
                      (engine s))).
  { rewrite on_message_text, (on_text_answer P text items s Hloads Htype).
    assert (Hget : match lookup "sdp" items with Some v => v | None => JStr "" end
                   = JStr sdp_text).
    { unfold py_get in Hsdp. destruct (lookup "sdp" items); congruence. }
    rewrite Hget. unfold try_except.
    rewrite (handle_sdp_answer_unparsable P s w sdp_text Hsome Hres).
    reflexivity. }
  split; [exact Hrun|].
  rewrite Hrun. unfold count_sent. simpl.
  rewrite filter_app, length_app. simpl. lia.
Qed.

Lemma unparsable_answer_reported_witness :
  webrtc (camera live_session) = Some (mkElement "webrtcbin" "webrtcbin" [])
  /\ fst (sdp_message_new_from_text full_host "") = SDP_EINVAL
  /\ on_message full_host (text_message (answer_text "")) live_session
     = (Return tt,
        mkSession (camera live_session)
          (mkWS (closed (ws live_session))
             (sent (ws live_session)
                ++ [error_message "SDP answer error: Failed to parse SDP answer"]))
          (engine live_session))
  /\ count_sent "error"
       (ws (snd (on_message full_host (text_message (answer_text "")) live_session)))
     = S (count_sent "error" (ws live_session)).
Proof.
  split; [reflexivity|]. split; [reflexivity|].
  apply (unparsable_answer_reported full_host live_session
           (mkElement "webrtcbin" "webrtcbin" []) (answer_text "")
           [("type", JStr "answer"); ("sdp", JStr "")] "");
    reflexivity.
Defined.

(** C2 as stated fails: the same unparsable [answer], arriving while the
    camera has no engine handle, is an [answer] message whose text does not
    parse, and no [error] message follows it. *)
Lemma unparsable_answer_unreported :
  json_loads bare_host (answer_text "")
    = Return (JDict [("type", JStr "answer"); ("sdp", JStr "")])
  /\ fst (sdp_message_new_from_text bare_host "") = SDP_EINVAL
  /\ on_message bare_host (text_message (answer_text "")) idle_session
     = (Return tt, idle_session)
  /\ count_sent "error"
       (ws (snd (on_message bare_host (text_message (answer_text "")) idle_session)))
     <> S (count_sent "error" (ws idle_session)).
Proof.
  split; [reflexivity|]. split; [reflexivity|]. split; [reflexivity|].
  vm_compute. discriminate.
Qed.

(** ** Frames without a branch *)

(** C10. A text frame that [json.loads] rejects, or that holds a dict whose
    [type] is none of [answer], [ice], [ping], [ready], leaves the session
    exactly as it was, and the loop goes on with the next event. *)
Theorem unknown_frame_skipped (P : Platform) (s : Session) (text : string)
    (rest : list Event) :
  (exists ex, json_loads P text = Raise ex)
  \/ (exists items, json_loads P text = Return (JDict items)
                    /\ dispatched (type_of items) = false) ->
  on_message P (text_message text) s = (Return tt, s)
  /\ receive_loop P (received (text_message text) :: rest) s = receive_loop P rest s.
Proof.
  intros Hframe.
  assert (Hskip : on_message P (text_message text) s = (Return tt, s)).
  { rewrite on_message_text.
    destruct Hframe as [[ex Hloads] | [items [Hloads Hnone]]].
    - exact (on_text_malformed P text ex s Hloads).
    - exact (on_text_undispatched P text items s Hloads Hnone). }
  split; [exact Hskip|].
  simpl. unfold bind. unfold on_event. rewrite Hskip. reflexivity.
Qed.

Lemma unknown_frame_skipped_witness :
  ((exists ex, json_loads full_host bye_text = Raise ex)
   \/ (exists items, json_loads full_host bye_text = Return (JDict items)
                     /\ dispatched (type_of items) = false))
  /\ on_message full_host (text_message bye_text) live_session = (Return tt, live_session)
  /\ receive_loop full_host
       [received (text_message bye_text); received (text_message ready_text)] live_session
     = receive_loop full_host [received (text_message ready_text)] live_session.
Proof.
  assert (Hframe : (exists ex, json_loads full_host bye_text = Raise ex)
                   \/ (exists items, json_loads full_host bye_text = Return (JDict items)
                                     /\ dispatched (type_of items) = false)).
  { right. exists [("type", JStr "bye")]. split; reflexivity. }
  split; [exact Hframe|].
  exact (unknown_frame_skipped full_host live_session bye_text
           [received (text_message ready_text)] Hframe).
Defined.

(** ** ICE candidates from the peer *)

Lemma handle_ice_candidate_without_engine (s : Session) (candidate : json) (n : Z) :
  webrtc (camera s) = None -> handle_ice_candidate candidate n s = (Return tt, s).
Proof.
  intros Hnone. unfold handle_ice_candidate. rewrite Hnone. reflexivity.
Qed.

Lemma handle_ice_candidate_with_engine (s : Session) (w : Element) (candidate : string)
    (n : Z) :
  webrtc (camera s) = Some w ->
  handle_ice_candidate (JStr candidate) n s
  = (Return tt,
     mkSession (camera s) (ws s) (engine s ++ [emit_add_ice_candidate w n candidate])).
Proof.
  intros Hsome. unfold handle_ice_candidate. rewrite Hsome. reflexivity.
Qed.

(** C5, as the code has it. An [ice] message whose [ice] field is a dict
    with a string [candidate], and whose [sdpMLineIndex] (0 when absent)
    converts to the integer [n]: with an empty candidate the loop body does
    nothing at all; with a non-empty candidate and no engine handle it does
    nothing at all either, raising nothing and sending nothing; with a
    non-empty candidate and an engine handle it gives the engine exactly
    one add-ice-candidate call, with [n] and the candidate. *)
Theorem ice_candidate_forwarding (P : Platform) (s : Session) (text : string)
    (items ice_items : list (string * json)) (candidate : string) (n : Z) :
  json_loads P text = Return (JDict items) ->
  type_of items = JStr "ice" ->
  lookup "ice" items = Some (JDict ice_items) ->
  lookup "candidate" ice_items = Some (JStr candidate) ->
  (candidate <> "" ->
   py_int (int_of_str P)
     (match lookup "sdpMLineIndex" ice_items with Some v => v | None => JInt 0 end)
   = Return n) ->
  on_message P (text_message text) s
  = (Return tt,
     if String.eqb candidate "" then s
     else match webrtc (camera s) with
          | Some w =>
              mkSession (camera s) (ws s)
                        (engine s ++ [emit_add_ice_candidate w n candidate])
          | None => s
          end).
Proof.
  intros Hloads Htype Hice Hcand Hindex.
  rewrite on_message_text, (on_text_ice P text items s Hloads Htype), Hice.
  unfold py_get. rewrite Hcand. simpl truthy.
  destruct (String.eqb_spec candidate "") as [Hempty | Hfull].
  - destruct (lookup "sdpMLineIndex" ice_items); reflexivity.
  - specialize (Hindex Hfull).
    destruct (lookup "sdpMLineIndex" ice_items) as [v|]; simpl negb; cbv iota;
      rewrite Hindex;
      (destruct (webrtc (camera s)) as [w|] eqn:Hw;
       [ apply handle_ice_candidate_with_engine; exact Hw
       | apply handle_ice_candidate_without_engine; exact Hw ]).
Qed.

Lemma ice_candidate_forwarding_witness :
  json_loads full_host (ice_text "a=candidate:1 ..." "0")
    = Return (ice_object "a=candidate:1 ..." (JInt 0))
  /\ on_message full_host (text_message (ice_text "a=candidate:1 ..." "0")) live_session
     = (Return tt,
        if String.eqb "a=candidate:1 ..." "" then live_session
        else match webrtc (camera live_session) with
             | Some w =>
                 mkSession (camera live_session) (ws live_session)
                   (engine live_session ++ [emit_add_ice_candidate w 0 "a=candidate:1 ..."])
             | None => live_session
             end).
Proof.
  split; [reflexivity|].
  apply (ice_candidate_forwarding full_host live_session
           (ice_text "a=candidate:1 ..." "0")
           [("type", JStr "ice");
            ("ice", JDict [("candidate", JStr "a=candidate:1 ..."); ("sdpMLineIndex", JInt 0)])]
           [("candidate", JStr "a=candidate:1 ..."); ("sdpMLineIndex", JInt 0)]
           "a=candidate:1 ..." 0);
    reflexivity.
Defined.

(** C5 as stated fails twice. With an engine handle, an [ice] message
    whose candidate is the empty string is not forwarded: the engine
    receives no call. With no pipeline, an [ice] message whose
    [sdpMLineIndex] is [null] makes the loop body raise [TypeError]. *)
Lemma ice_candidate_not_always_forwarded :
  (exists w, webrtc (camera live_session) = Some w)
  /\ json_loads full_host (ice_text "" "0") = Return (ice_object "" (JInt 0))
  /\ on_message full_host (text_message (ice_text "" "0")) live_session
     = (Return tt, live_session)
  /\ webrtc (camera idle_session) = None
  /\ json_loads bare_host (ice_text "a=candidate:1 ..." "null")
     = Return (ice_object "a=candidate:1 ..." JNull)
  /\ on_message bare_host (text_message (ice_text "a=candidate:1 ..." "null")) idle_session
     = (Raise (mkExc TypeError
          "int() argument must be a string, a bytes-like object or a real number, not 'NoneType'"),
        idle_session).
Proof.
  split; [eexists; vm_compute; reflexivity|].
  split; [vm_compute; reflexivity|].
  split; [vm_compute; reflexivity|].
  split; [reflexivity|].
  split; vm_compute; reflexivity.
Qed.

(** The scenario of the specification: the candidate arrives before any
    pipeline exists, and the whole handler ends without having called the
    engine or sent anything but its greeting and the start failure. *)
Example ice_before_pipeline :
  handle_ws bare_host (test_app false)
    [received (text_message (ice_text "a=candidate:1 ..." "0"))]
  = (Return tt,
     mkSession (new_camera (test_app false))
       (mkWS true
          [hello_message;
           error_message
             "Camera start failed: Missing libnice elements (nicesrc/nicesink). Install: sudo apt-get install -y gstreamer1.0-nice libnice10"])
       []).
Proof. reflexivity. Qed.

(** ** Offers *)

(** C1. In any session whose camera holds an engine handle: a [ready]
    message makes the loop body give the engine exactly one create-offer
    request and nothing else; so does a negotiation-needed signal; and when
    the engine settles the request with an offer while the socket is open,
    the offer is set as local description and exactly one [offer] message,
    carrying its text, is sent. No event of the session takes the engine
    handle away or closes the socket, so all of this holds again after
    whatever the session has been through: a [ready] after an applied
    answer yields a further offer. *)
Theorem offer_per_trigger (P : Platform) (s : Session) (w element : Element)
    (text : string) (items : list (string * json)) (o : WebRTCSessionDescription) :
  webrtc (camera s) = Some w ->
  closed (ws s) = false ->
  json_loads P text = Return (JDict items) ->
  type_of items = JStr "ready" ->
  on_event P (received (text_message text)) s
  = (Return tt, mkSession (camera s) (ws s) (engine s ++ [emit_create_offer w]))
  /\ on_event P (negotiation_needed element) s
     = (Return tt, mkSession (camera s) (ws s) (engine s ++ [emit_create_offer element]))
  /\ on_event P (offer_created element (Some (Some o))) s
     = (Return tt,
        mkSession (camera s)
          (mkWS false (sent (ws s) ++ [offer_message (as_text (sdp o))]))
          (engine s ++ [emit_set_local_description element (Some o)]))
  /\ count_sent "offer" (ws (snd (on_event P (offer_created element (Some (Some o))) s)))
     = S (count_sent "offer" (ws s))
  /\ (forall ev, webrtc (camera (snd (on_event P ev s))) = Some w
                 /\ closed (ws (snd (on_event P ev s))) = false).
Proof.
  intros Hsome Hopen Hloads Htype.
  assert (Hdone : on_event P (offer_created element (Some (Some o))) s
                  = (Return tt,
                     mkSession (camera s)
                       (mkWS false (sent (ws s) ++ [offer_message (as_text (sdp o))]))
                       (engine s ++ [emit_set_local_description element (Some o)]))).
  { unfold on_event, on_offer_created, try_except, bind, call, _send_ws, send_json.
    simpl. rewrite Hopen. reflexivity. }
  split.
  - unfold on_event. rewrite on_message_text, (on_text_ready P text items s Hloads Htype).
    unfold renegotiate. rewrite Hsome. reflexivity.
  - split; [reflexivity|].
    split; [exact Hdone|].
    split.
    + rewrite Hdone. unfold count_sent. simpl.
      rewrite filter_app, length_app. simpl. lia.
    + intros ev. destruct (steady_on_event P ev s) as [Hcam [Hsock _]].
      rewrite Hcam, Hsock. split; assumption.
Qed.

Lemma offer_per_trigger_witness :
  webrtc (camera live_session) = Some (mkElement "webrtcbin" "webrtcbin" [])
  /\ closed (ws live_session) = false
  /\ on_event full_host (received (text_message ready_text)) live_session
     = (Return tt,
        mkSession (camera live_session) (ws live_session)
          (engine live_session ++ [emit_create_offer (mkElement "webrtcbin" "webrtcbin" [])]))
  /\ count_sent "offer"
       (ws (snd (on_event full_host
                   (offer_created (mkElement "webrtcbin" "webrtcbin" [])
                      (Some (Some (an_offer "v=0"))))
                   live_session)))
     = S (count_sent "offer" (ws live_session)).
Proof.
  split; [reflexivity|]. split; [reflexivity|].
  destruct (offer_per_trigger full_host live_session
              (mkElement "webrtcbin" "webrtcbin" []) (mkElement "webrtcbin" "webrtcbin" [])
              ready_text [("type", JStr "ready")] (an_offer "v=0")
              eq_refl eq_refl eq_refl eq_refl)
    as [Hready [_ [_ [Hcount _]]]].
  split; [exact Hready | exact Hcount].
Defined.

(** *** Offers over a whole run *)

Lemma quiet_ret {A : Type} (a : A) : quiet (ret a).
Proof. intros s. split; reflexivity. Qed.

Lemma quiet_raise {A : Type} (ex : PyExc) : quiet (@raise A ex).
Proof. intros s. split; reflexivity. Qed.

Lemma quiet_lift {A : Type} (o : Outcome A) : quiet (lift o).
Proof. intros s. split; reflexivity. Qed.

Lemma quiet_bind {A B : Type} (m : M A) (k : A -> M B) :
  quiet m -> (forall a, quiet (k a)) -> quiet (bind m k).
Proof.
  intros Hm Hk s. unfold bind. specialize (Hm s).
  destruct (m s) as [[a|ex] s1]; simpl in Hm.
  - destruct (Hk a s1) as [H1 H2]. destruct Hm as [H3 H4]. split; congruence.
  - exact Hm.
Qed.

Lemma quiet_try_except {A : Type} (m : M A) (handler : PyExc -> M A) :
  quiet m -> (forall ex, quiet (handler ex)) -> quiet (try_except m handler).
Proof.
  intros Hm Hh s. unfold try_except. specialize (Hm s).
  destruct (m s) as [[a|ex] s1]; simpl in Hm.
  - exact Hm.
  - destruct (Hh ex s1) as [H1 H2]. destruct Hm as [H3 H4]. split; congruence.
Qed.

Lemma quiet_choice {A : Type} (m : M A) :
  (forall s, exists m', quiet m' /\ m s = m' s) -> quiet m.
Proof.
  intros Hpick s. destruct (Hpick s) as [m' [Hm' Heq]]. rewrite Heq. apply Hm'.
Qed.

Lemma quiet_call (c : EngineCall) : is_create_offer c = false -> quiet (call c).
Proof.
  intros Hc s. unfold offers_requested, call. simpl.
  rewrite filter_app, length_app. simpl. rewrite Hc. simpl.
  split; [lia | reflexivity].
Qed.

Lemma quiet_send_json (obj : json) : has_type "offer" obj = false -> quiet (send_json obj).
Proof.
  intros Hobj s. unfold count_sent, send_json. simpl.
  rewrite filter_app, length_app. simpl. rewrite Hobj. simpl.
  split; [reflexivity | lia].
Qed.

Lemma quiet__send_ws (obj : json) : has_type "offer" obj = false -> quiet (_send_ws obj).
Proof.
  intros Hobj. apply quiet_choice. intros s. unfold _send_ws.
  destruct (negb (closed (ws s))).
  - exists (send_json obj). split; [apply quiet_send_json; exact Hobj | reflexivity].
  - exists (ret tt). split; [apply quiet_ret | reflexivity].
Qed.

Lemma quiet_handle_sdp_answer (P : Platform) (sdp_text : json) :
  quiet (handle_sdp_answer P sdp_text).
Proof.
  apply quiet_choice. intros s. unfold handle_sdp_answer.
  destruct (webrtc (camera s)) as [w|].
  - destruct sdp_text as [ | | | | text | | ];
      try (eexists (raise _); split; [apply quiet_raise | reflexivity]).
    destruct (sdp_message_new_from_text P text) as [[|] sdpmsg].
    + eexists (call _). split; [|reflexivity]. apply quiet_call. reflexivity.
    + eexists (raise _). split; [apply quiet_raise | reflexivity].
  - exists (ret tt). split; [apply quiet_ret | reflexivity].
Qed.

Lemma quiet_handle_ice_candidate (candidate : json) (n : Z) :
  quiet (handle_ice_candidate candidate n).
Proof.
  apply quiet_choice. intros s. unfold handle_ice_candidate.
  destruct (webrtc (camera s)) as [w|].
  - destruct candidate;
      try (eexists (raise _); split; [apply quiet_raise | reflexivity]).
    eexists (call _). split; [|reflexivity]. apply quiet_call. reflexivity.
  - exists (ret tt). split; [apply quiet_ret | reflexivity].
Qed.

Lemma eq_str_true (v : json) (t : string) : eq_str v t = true -> v = JStr t.
Proof.
  destruct v as [ | | | | text | | ]; simpl; try discriminate.
  intros Heq. apply String.eqb_eq in Heq. rewrite Heq. reflexivity.
Qed.

(** What one event adds to the two counts, in a session that holds an
    engine handle and an open socket. *)
Lemma on_event_offers (P : Platform) (s : Session) (w : Element) (ev : Event) :
  webrtc (camera s) = Some w ->
  closed (ws s) = false ->
  offers_requested (snd (on_event P ev s))
  = (offers_requested s + if asks_for_offer P ev then 1 else 0)%nat
  /\ count_sent "offer" (ws (snd (on_event P ev s)))
     = (count_sent "offer" (ws s) + if settles_with_offer ev then 1 else 0)%nat.
Proof.
  intros Hsome Hopen.
  assert (Hquiet : forall m : M unit, quiet m ->
            offers_requested (snd (m s)) = (offers_requested s + 0)%nat
            /\ count_sent "offer" (ws (snd (m s))) = (count_sent "offer" (ws s) + 0)%nat).
  { intros m Hm. destruct (Hm s) as [H1 H2]. split; lia. }
  assert (Hask : forall element,
            offers_requested (snd (call (emit_create_offer element) s))
            = (offers_requested s + 1)%nat
            /\ count_sent "offer" (ws (snd (call (emit_create_offer element) s)))
               = (count_sent "offer" (ws s) + 0)%nat).
  { intros element. unfold offers_requested, call. simpl.
    rewrite filter_app, length_app. simpl. split; lia. }
  destruct ev as [msg | element | element reply | element n candidate | message];
    unfold on_event, asks_for_offer, settles_with_offer.
  - unfold on_message. destruct (msg_type msg); try (apply Hquiet; apply quiet_ret).
    destruct (json_loads P (data msg)) as [payload|ex] eqn:Hloads.
    2: { rewrite (on_text_malformed P _ ex s Hloads). simpl. split; lia. }
    destruct payload as [ | | | | | | items];
      try (unfold on_text; rewrite Hloads; unfold bind, lift, py_get; simpl; split; lia).
    rewrite (on_text_dict P _ items s Hloads).
    destruct (eq_str (type_of items) "answer") eqn:Hanswer.
    { rewrite (eq_str_true _ _ Hanswer). settle_type.
      apply Hquiet. apply quiet_try_except.
      - apply quiet_bind; [apply quiet_lift | intros v; apply quiet_handle_sdp_answer].
      - intros ex. apply quiet_send_json. reflexivity. }
    destruct (eq_str (type_of items) "ice") eqn:Hice.
    { rewrite (eq_str_true _ _ Hice). settle_type.
      apply Hquiet.
      apply quiet_bind; [apply quiet_lift|]. intros ice.
      apply quiet_bind; [apply quiet_lift|]. intros candidate.
      apply quiet_bind; [apply quiet_lift|]. intros idx.
      destruct (truthy candidate); [|apply quiet_ret].
      apply quiet_bind; [apply quiet_lift|]. intros n.
      apply quiet_handle_ice_candidate. }
    destruct (eq_str (type_of items) "ping") eqn:Hping.
    { rewrite (eq_str_true _ _ Hping). settle_type.
      apply Hquiet. apply quiet_send_json. reflexivity. }
    destruct (eq_str (type_of items) "ready") eqn:Hready.
    { unfold renegotiate. rewrite Hsome. apply Hask. }
    apply Hquiet. apply quiet_ret.
  - apply Hask.
  - destruct reply as [[o|]|].
    + unfold on_offer_created, try_except, bind, call, _send_ws, send_json. simpl.
      rewrite Hopen. simpl. unfold offers_requested, count_sent. simpl.
      rewrite !filter_app, !length_app. simpl. split; lia.
    + apply Hquiet. unfold on_offer_created. apply quiet_try_except.
      * apply quiet_bind; [apply quiet_call; reflexivity | intros _; apply quiet_raise].
      * intros ex. apply quiet__send_ws. reflexivity.
    + apply Hquiet. unfold on_offer_created. apply quiet_try_except.
      * apply quiet_raise.
      * intros ex. apply quiet__send_ws. reflexivity.
  - apply Hquiet. apply quiet__send_ws. reflexivity.
  - apply Hquiet. destruct message; try apply quiet_ret. apply quiet__send_ws. reflexivity.
Qed.

(** X20. Over any run of events that the session handles without an exception,
    the engine is asked for exactly as many offers as there were [ready]
    messages and negotiation-needed signals, and exactly as many [offer]
    messages are sent as requests were settled with an offer. *)
Lemma offers_counted (P : Platform) (events : list Event) (s : Session) (w : Element) :
  webrtc (camera s) = Some w ->
  closed (ws s) = false ->
  fst (handle_all P events s) = Return tt ->
  offers_requested (snd (handle_all P events s))
  = (offers_requested s + List.length (filter (asks_for_offer P) events))%nat
  /\ count_sent "offer" (ws (snd (handle_all P events s)))
     = (count_sent "offer" (ws s) + List.length (filter settles_with_offer events))%nat.
Proof.
  revert s. induction events as [|ev rest IH]; intros s Hsome Hopen Hreturns.
  - simpl. split; lia.
  - simpl in *. unfold bind in *.
    destruct (on_event_offers P s w ev Hsome Hopen) as [Hreq Hsent].
    destruct (steady_on_event P ev s) as [Hcam [Hsock _]].
    destruct (on_event P ev s) as [[u|ex] s1]; simpl in *; [|discriminate Hreturns].
    assert (Hsome1 : webrtc (camera s1) = Some w) by (rewrite Hcam; exact Hsome).
    assert (Hopen1 : closed (ws s1) = false) by (rewrite Hsock; exact Hopen).
    destruct (IH s1 Hsome1 Hopen1 Hreturns) as [Hreq' Hsent'].
    rewrite Hreq', Hsent', Hreq, Hsent.
    destruct (asks_for_offer P ev); destruct (settles_with_offer ev); simpl; split; lia.
Qed.

(** X19. When the engine settles the request without an offer, the message
    sent is an [error], not an [offer]. *)
Lemma offer_failure_reported (s : Session) (element : Element) :
  closed (ws s) = false ->
  on_offer_created element None s
  = (Return tt,
     mkSession (camera s)
       (mkWS false
          (sent (ws s)
             ++ [error_message "Offer error: 'NoneType' object has no attribute 'get_value'"]))
       (engine s))
  /\ on_offer_created element (Some None) s
     = (Return tt,
        mkSession (camera s)
          (mkWS false
             (sent (ws s)
                ++ [error_message "Offer error: 'NoneType' object has no attribute 'sdp'"]))
          (engine s ++ [emit_set_local_description element None])).
Proof.
  intros Hopen.
  unfold on_offer_created, try_except, bind, call, raise, _send_ws, send_json.
  simpl. rewrite Hopen. split; reflexivity.
Qed.

(** ** Encoder selection *)

Section Encoder.

Variable P : Platform.

Lemma make_inv (fac nm : string) (el : Element) :
  make P fac nm = Some el -> has_factory P fac = true /\ el = mkElement fac nm [].
Proof.
  unfold make. destruct (has_factory P fac); [|discriminate].
  intros Heq. injection Heq as <-. split; reflexivity.
Qed.

Lemma make_none (fac nm : string) :
  make P fac nm = None -> has_factory P fac = false.
Proof.
  unfold make. destruct (has_factory P fac); [discriminate|reflexivity].
Qed.

Lemma set_property_inv (el el' : Element) (prop : string) (v : PropValue) :
  set_property P el prop v = Return el' ->
  factory el' = factory el /\ name el' = name el
  /\ properties el' = (properties el ++ [(prop, v)])%list.
Proof.
  unfold set_property. destruct (accepts_property P (factory el) prop v); [|discriminate].
  intros Heq. injection Heq as <-. repeat split; reflexivity.
Qed.

Lemma try_hardware_encoder_some (self : WebRTCCamera) (enc : Element) (hw : bool) :
  try_hardware_encoder P self = (Some enc, hw) ->
  hw = true /\ force_sw self = false /\ has_factory P "v4l2h264enc" = true
  /\ factory enc = "v4l2h264enc" /\ properties enc = hardware_properties P self.
Proof.
  unfold try_hardware_encoder, hardware_properties.
  destruct (force_sw self); simpl; [discriminate|].
  destruct (make P "v4l2h264enc" "h264enc") as [el|] eqn:Hmake; [|discriminate].
  destruct (make_inv _ _ _ Hmake) as [Hfac ->].
  intros Heq. injection Heq as <- <-.
  split; [reflexivity|]. split; [reflexivity|]. split; [exact Hfac|].
  destruct (bitrate self >? 0); simpl.
  - unfold set_property. simpl.
    destruct (accepts_property P "v4l2h264enc" "bitrate" (PInt (bitrate self)));
      split; reflexivity.
  - split; reflexivity.
Qed.

Lemma try_hardware_encoder_none (self : WebRTCCamera) (hw : bool) :
  try_hardware_encoder P self = (None, hw) ->
  hw = false /\ (force_sw self = true \/ has_factory P "v4l2h264enc" = false).
Proof.
  unfold try_hardware_encoder.
  destruct (force_sw self); simpl.
  - intros Heq. injection Heq as <-. split; [reflexivity | left; reflexivity].
  - destruct (make P "v4l2h264enc" "h264enc") as [el|] eqn:Hmake; [discriminate|].
    intros Heq. injection Heq as <-.
    split; [reflexivity | right; exact (make_none _ _ Hmake)].
Qed.

(** What [select_encoder] returns, path by path. *)
Lemma select_encoder_inv (self : WebRTCCamera) (enc : Element) (hw : bool) :
  select_encoder P self = Return (enc, hw) ->
  (hw = true /\ force_sw self = false /\ has_factory P "v4l2h264enc" = true
   /\ factory enc = "v4l2h264enc" /\ properties enc = hardware_properties P self)
  \/ (hw = false /\ (force_sw self = true \/ has_factory P "v4l2h264enc" = false)
      /\ factory enc = "x264enc" /\ properties enc = software_properties self).
Proof.
  unfold select_encoder.
  destruct (try_hardware_encoder P self) as [[hwenc|] hw0] eqn:Htry.
  - intros Heq. injection Heq as <- <-. left.
    exact (try_hardware_encoder_some self hwenc hw0 Htry).
  - destruct (try_hardware_encoder_none self hw0 Htry) as [-> Hwhy].
    destruct (make P "x264enc" "h264enc") as [el|] eqn:Hmake; [|discriminate].
    destruct (make_inv _ _ _ Hmake) as [_ ->].
    unfold obind.
    destruct (if bitrate self >? 0
              then set_property P (mkElement "x264enc" "h264enc" []) "bitrate"
                     (PInt (Z.max 1 (bitrate self / 1000)))
              else Return (mkElement "x264enc" "h264enc" [])) as [e1|] eqn:H1; [|discriminate].
    destruct (set_property P e1 "tune" (PStr "zerolatency")) as [e2|] eqn:H2; [|discriminate].
    destruct (set_property P e2 "speed-preset" (PStr "ultrafast")) as [e3|] eqn:H3;
      [|discriminate].
    destruct (set_property P e3 "key-int-max" (PInt (Z.max 1 (fps self * 2)))) as [e4|] eqn:H4;
      [|discriminate].
    intros Heq. injection Heq as <- <-. right.
    split; [reflexivity|]. split; [exact Hwhy|].
    destruct (set_property_inv _ _ _ _ H4) as [F4 [_ Q4]].
    destruct (set_property_inv _ _ _ _ H3) as [F3 [_ Q3]].
    destruct (set_property_inv _ _ _ _ H2) as [F2 [_ Q2]].
    assert (H0 : factory e1 = "x264enc"
                 /\ properties e1 =
                      if bitrate self >? 0
                      then [("bitrate", PInt (Z.max 1 (bitrate self / 1000)))] else []).
    { destruct (bitrate self >? 0).
      - destruct (set_property_inv _ _ _ _ H1) as [F1 [_ Q1]]. split; assumption.
      - injection H1 as <-. split; reflexivity. }
    destruct H0 as [F1 Q1].
    split; [congruence|].
    unfold software_properties.
    rewrite Q4, Q3, Q2, Q1. rewrite <- !app_assoc. reflexivity.
Qed.

(** A successful [build] hands on what [select_encoder] chose, and the
    pre-encode caps filter carries the caps of that choice. *)
Lemma build_inv (self : WebRTCCamera) (b : Built) :
  build P self = Return b ->
  select_encoder P self = Return (built_enc b, built_using_hw b)
  /\ properties (built_caps_pre_enc b)
     = [("caps", PCaps (pre_encode_caps (built_using_hw b)))].
Proof.
  unfold build, obind.
  repeat match goal with
         | |- match ?scrutinee with _ => _ end = Return _ -> _ =>
             let Heq := fresh "Hstep" in
             destruct scrutinee eqn:Heq; try discriminate
         end.
  intros Hb. injection Hb as <-. simpl.
  split; [reflexivity|].
  match goal with
  | Hm : method _ _ = Return ?e0, Hs : set_property _ ?e0 _ _ = Return _ |- _ =>
      destruct (set_property_inv _ _ _ _ Hs) as [_ [_ Hprops]];
      unfold method in Hm;
      destruct (make P "capsfilter" "caps_pre_enc") as [el|] eqn:Hmake; [|discriminate Hm];
      destruct (make_inv _ _ _ Hmake) as [_ ->];
      injection Hm as <-; exact Hprops
  end.
Qed.

End Encoder.

Lemma link_chain_children (P : Platform) (elements : list Element) (pl pl' : Pipeline) :
  link_chain P pl elements = Return pl' -> children pl' = children pl.
Proof.
  revert pl. induction elements as [|a rest IH]; intros pl.
  - simpl. intros Heq. injection Heq as <-. reflexivity.
  - destruct rest as [|b rest'].
    + simpl. intros Heq. injection Heq as <-. reflexivity.
    + change (link_chain P pl (a :: b :: rest'))
        with (if can_link P a b
              then link_chain P (mkPipeline (pipeline_name pl) (children pl)
                                   (links pl ++ [(name a, name b)])) (b :: rest')
              else Raise (mkExc RuntimeError
                     ("Failed to link " ++ display a ++ " -> " ++ display b))).
      destruct (can_link P a b); [|discriminate].
      intros Hrest. rewrite (IH _ Hrest). reflexivity.
Qed.

(** The encoder and the caps filter that [build] reports are the ones in
    the pipeline. *)
Lemma build_children (P : Platform) (self : WebRTCCamera) (b : Built) :
  build P self = Return b ->
  In (built_enc b) (children (built_pipeline b))
  /\ In (built_caps_pre_enc b) (children (built_pipeline b))
  /\ In (built_webrtcbin b) (children (built_pipeline b)).
Proof.
  unfold build, obind.
  repeat match goal with
         | |- match ?scrutinee with _ => _ end = Return _ -> _ =>
             let Heq := fresh "Hstep" in
             destruct scrutinee eqn:Heq; try discriminate
         end.
  intros Hb. injection Hb as <-. simpl.
  match goal with
  | Hl : link_chain _ _ _ = Return ?q |- _ =>
      rewrite (link_chain_children _ _ _ _ Hl)
  end.
  match goal with
  | Ha : add_each _ _ = Return ?q |- _ =>
      simpl in Ha; unfold obind, add in Ha;
      repeat match type of Ha with
             | context [match ?o with Some _ => _ | None => _ end] =>
                 destruct o; try discriminate Ha
             end;
      simpl in Ha; injection Ha as <-
  end.
  simpl. repeat split; tauto.
Qed.

(** C3. Whenever [build] succeeds: the hardware encoder is the one in use
    exactly when software is not forced and the host has it, otherwise the
    software encoder is; on the software path [tune] is [zerolatency],
    [speed-preset] is [ultrafast], [key-int-max] is [max(1, 2 * fps)] and
    the pre-encode caps ask for I420; on the hardware path none of the
    three is set and the caps ask for NV12. *)
Theorem encoder_selection (P : Platform) (self : WebRTCCamera) (b : Built) :
  build P self = Return b ->
  (built_using_hw b = true <-> force_sw self = false /\ has_factory P "v4l2h264enc" = true)
  /\ factory (built_enc b) = (if built_using_hw b then "v4l2h264enc" else "x264enc")
  /\ get_property (built_enc b) "tune"
     = (if built_using_hw b then None else Some (PStr "zerolatency"))
  /\ get_property (built_enc b) "speed-preset"
     = (if built_using_hw b then None else Some (PStr "ultrafast"))
  /\ get_property (built_enc b) "key-int-max"
     = (if built_using_hw b then None else Some (PInt (Z.max 1 (2 * fps self))))
  /\ get_property (built_caps_pre_enc b) "caps"
     = Some (PCaps (if built_using_hw b
                    then "video/x-raw,format=NV12" else "video/x-raw,format=I420"))
  /\ In (built_enc b) (children (built_pipeline b))
  /\ In (built_caps_pre_enc b) (children (built_pipeline b)).
Proof.
  intros Hbuild.
  destruct (build_inv P self b Hbuild) as [Hsel Hcaps].
  destruct (build_children P self b Hbuild) as [Hin_enc [Hin_caps _]].
  assert (Hcaps' : get_property (built_caps_pre_enc b) "caps"
                   = Some (PCaps (if built_using_hw b
                                  then "video/x-raw,format=NV12"
                                  else "video/x-raw,format=I420"))).
  { unfold get_property. rewrite Hcaps. unfold pre_encode_caps.
    destruct (built_using_hw b); reflexivity. }
  destruct (select_encoder_inv P self _ _ Hsel)
    as [[Hhw [Hforce [Hfac [Hname Hprops]]]] | [Hhw [Hwhy [Hname Hprops]]]].
  - rewrite Hhw in *.
    split; [split; [intros _; split; assumption | reflexivity]|].
    split; [exact Hname|].
    unfold get_property. rewrite Hprops. unfold hardware_properties.
    destruct ((bitrate self >? 0)
              && accepts_property P "v4l2h264enc" "bitrate" (PInt (bitrate self)));
      repeat split; try reflexivity; assumption.
  - rewrite Hhw in *.
    split.
    { split; [discriminate|].
      intros [Hforce Hfac]. destruct Hwhy as [Hwhy | Hwhy]; congruence. }
    split; [exact Hname|].
    unfold get_property. rewrite Hprops. unfold software_properties.
    replace (fps self * 2) with (2 * fps self) by lia.
    destruct (bitrate self >? 0); repeat split; try reflexivity; assumption.
Qed.

Lemma encoder_selection_witness :
  exists b, build plain_host (new_camera (test_app false)) = Return b
  /\ built_using_hw b = false
  /\ factory (built_enc b) = "x264enc"
  /\ get_property (built_enc b) "tune" = Some (PStr "zerolatency")
  /\ get_property (built_enc b) "key-int-max" = Some (PInt 60).
Proof.
  destruct (build plain_host (new_camera (test_app false))) as [b|ex] eqn:Hbuild;
    [|vm_compute in Hbuild; discriminate Hbuild].
  exists b.
  destruct (encoder_selection plain_host (new_camera (test_app false)) b Hbuild)
    as [Hhw [Hfac [Htune [_ [Hkey _]]]]].
  assert (Hsw : built_using_hw b = false).
  { destruct (built_using_hw b); [|reflexivity].
    destruct Hhw as [Hhw _]. destruct (Hhw eq_refl) as [_ Habsurd].
    vm_compute in Habsurd. discriminate Habsurd. }
  rewrite Hsw in *.
  repeat split; assumption.
Defined.

(** C4, as the code has it. Whenever [build] succeeds with a positive
    bitrate: on the software path the encoder's [bitrate] is
    [max(1, bitrate // 1000)], which is 2500 for 2500000 and 1 for 500; on
    the hardware path the encoder is given the bitrate itself, in bits per
    second, so that is its [bitrate] if it takes the property, and if it
    refuses, the refusal is swallowed and no bitrate is set at all. *)
Theorem encoder_bitrate (P : Platform) (self : WebRTCCamera) (b : Built) :
  build P self = Return b ->
  0 < bitrate self ->
  get_property (built_enc b) "bitrate"
  = (if built_using_hw b
     then if accepts_property P "v4l2h264enc" "bitrate" (PInt (bitrate self))
          then Some (PInt (bitrate self))
          else None
     else Some (PInt (Z.max 1 (bitrate self / 1000))))
  /\ (built_using_hw b = false -> bitrate self = 2500000 ->
      get_property (built_enc b) "bitrate" = Some (PInt 2500))
  /\ (built_using_hw b = false -> bitrate self = 500 ->
      get_property (built_enc b) "bitrate" = Some (PInt 1)).
Proof.
  intros Hbuild Hpos.
  destruct (build_inv P self b Hbuild) as [Hsel _].
  assert (Hgt : (bitrate self >? 0) = true) by (apply Z.gtb_lt; exact Hpos).
  assert (Hrate : get_property (built_enc b) "bitrate"
                  = (if built_using_hw b
                     then if accepts_property P "v4l2h264enc" "bitrate" (PInt (bitrate self))
                          then Some (PInt (bitrate self))
                          else None
                     else Some (PInt (Z.max 1 (bitrate self / 1000))))).
  { destruct (select_encoder_inv P self _ _ Hsel)
      as [[Hhw [_ [_ [_ Hprops]]]] | [Hhw [_ [_ Hprops]]]].
    - unfold get_property. rewrite Hprops, Hhw. unfold hardware_properties.
      rewrite Hgt. cbn [andb].
      destruct (accepts_property P "v4l2h264enc" "bitrate" (PInt (bitrate self)));
        reflexivity.
    - unfold get_property. rewrite Hprops, Hhw. unfold software_properties.
      rewrite Hgt. reflexivity. }
  split; [exact Hrate|].
  split; intros Hsw Hvalue; rewrite Hrate, Hsw, Hvalue; reflexivity.
Qed.

(** The hardware path with an encoder that takes the property, the
    hardware path with one that refuses it, and the software path. *)
Lemma encoder_bitrate_witness :
  (exists b, build full_host (new_camera (test_app false)) = Return b
             /\ built_using_hw b = true
             /\ get_property (built_enc b) "bitrate" = Some (PInt 2500000))
  /\ (exists b, build strict_host (new_camera (test_app false)) = Return b
                /\ built_using_hw b = true
                /\ get_property (built_enc b) "bitrate" = None)
  /\ (exists b, build full_host (new_camera (test_app true)) = Return b
                /\ built_using_hw b = false
                /\ get_property (built_enc b) "bitrate" = Some (PInt 2500)).
Proof.
  assert (Hpos : forall force, 0 < bitrate (new_camera (test_app force)))
    by (intros force; reflexivity).
  split; [|split].
  - destruct (build full_host (new_camera (test_app false))) as [b|ex] eqn:Hbuild;
      [|vm_compute in Hbuild; discriminate Hbuild].
    exists b.
    assert (Hhw : built_using_hw b = true).
    { pose proof Hbuild as Hrun. vm_compute in Hrun.
      injection Hrun as Hrun. rewrite <- Hrun. reflexivity. }
    destruct (encoder_bitrate full_host _ b Hbuild (Hpos false)) as [Hrate _].
    rewrite Hhw in Hrate.
    split; [reflexivity|]. split; [exact Hhw | exact Hrate].
  - destruct (build strict_host (new_camera (test_app false))) as [b|ex] eqn:Hbuild;
      [|vm_compute in Hbuild; discriminate Hbuild].
    exists b.
    assert (Hhw : built_using_hw b = true).
    { pose proof Hbuild as Hrun. vm_compute in Hrun.
      injection Hrun as Hrun. rewrite <- Hrun. reflexivity. }
    destruct (encoder_bitrate strict_host _ b Hbuild (Hpos false)) as [Hrate _].
    rewrite Hhw in Hrate.
    split; [reflexivity|]. split; [exact Hhw | exact Hrate].
  - destruct (build full_host (new_camera (test_app true))) as [b|ex] eqn:Hbuild;
      [|vm_compute in Hbuild; discriminate Hbuild].
    exists b.
    assert (Hsw : built_using_hw b = false).
    { pose proof Hbuild as Hrun. vm_compute in Hrun.
      injection Hrun as Hrun. rewrite <- Hrun. reflexivity. }
    destruct (encoder_bitrate full_host _ b Hbuild (Hpos true)) as [Hrate _].
    rewrite Hsw in Hrate.
    split; [reflexivity|]. split; [exact Hsw | exact Hrate].
Defined.

(** C4 as stated fails: on a host whose hardware encoder has no [bitrate]
    property the hardware path is taken with a positive bitrate, the
    refusal is swallowed, and the encoder's bitrate is not set. *)
Lemma hardware_bitrate_refused :
  exists b, build strict_host (new_camera (test_app false)) = Return b
  /\ 0 < bitrate (new_camera (test_app false))
  /\ built_using_hw b = true
  /\ factory (built_enc b) = "v4l2h264enc"
  /\ get_property (built_enc b) "bitrate" = None
  /\ get_property (built_enc b) "bitrate"
     <> Some (PInt (bitrate (new_camera (test_app false)))).
Proof.
  destruct (build strict_host (new_camera (test_app false))) as [b|ex] eqn:Hbuild;
    [|vm_compute in Hbuild; discriminate Hbuild].
  exists b. vm_compute in Hbuild. injection Hbuild as <-.
  split; [reflexivity|]. split; [reflexivity|]. split; [reflexivity|].
  split; [reflexivity|]. split; [reflexivity|].
  vm_compute. discriminate.
Qed.

(** The scenarios of the specification: forced software encoding. *)
Example software_bitrate_2500000 :
  bitrate_of (build full_host (new_camera (app_with_bitrate 2500000 true)))
  = Some (PInt 2500).
Proof. vm_compute. reflexivity. Qed.

Example software_bitrate_500 :
  bitrate_of (build full_host (new_camera (app_with_bitrate 500 true))) = Some (PInt 1).
Proof. vm_compute. reflexivity. Qed.

(** The hardware encoder is given the bits per second as they are. *)
Example hardware_bitrate_2500000 :
  bitrate_of (build full_host (new_camera (app_with_bitrate 2500000 false)))
  = Some (PInt 2500000).
Proof. vm_compute. reflexivity. Qed.

(** ** Leaving the receive loop *)

Lemma serve_unfold (P : Platform) (events : list Event) (s : Session) :
  serve P events s
  = (fst (receive_loop P events s), snd (stop (snd (receive_loop P events s)))).
Proof.
  unfold serve, try_finally.
  destruct (receive_loop P events s) as [r s1]. simpl.
  pose proof (stop_returns s1) as Hret.
  destruct (stop s1) as [[u|ex] s2]; simpl in *; [reflexivity | discriminate Hret].
Qed.

(** What [serve] leaves behind, whatever the loop did. *)
Lemma serve_stops (P : Platform) (events : list Event) (s : Session) :
  paired (camera s) ->
  fst (serve P events s) = fst (receive_loop P events s)
  /\ pipeline (camera (snd (serve P events s))) = None
  /\ webrtc (camera (snd (serve P events s))) = None
  /\ forall pl, pipeline (camera s) = Some pl ->
       exists calls,
         engine (snd (serve P events s)) = (engine s ++ calls ++ [set_state pl NULL])%list.
Proof.
  intros Hpaired. rewrite serve_unfold. simpl.
  destruct (receive_loop_camera P events s) as [Hcam [calls Hcalls]].
  split; [reflexivity|].
  split; [apply stop_clears_pipeline|].
  split.
  - apply stop_clears_webrtc. rewrite Hcam. exact Hpaired.
  - intros pl Hpl. exists calls.
    rewrite <- Hcam in Hpl.
    rewrite (stop_with_pipeline _ pl Hpl). simpl.
    rewrite Hcalls. symmetry. apply app_assoc.
Qed.

(** ** Entering the receive loop *)

Lemma start_fresh (P : Platform) (s : Session) :
  pipeline (camera s) = None ->
  start P s
  = match build P (camera s) with
    | Raise ex => (Raise ex, s)
    | Return b =>
        let s1 := mkSession
                    (with_handles (camera s) (Some (built_pipeline b))
                                  (Some (built_webrtcbin b)))
                    (ws s) (engine s ++ [set_state (built_pipeline b) PLAYING]) in
        match set_state_return P (built_pipeline b) PLAYING with
        | FAILURE => (Raise (mkExc RuntimeError "Failed to set pipeline to PLAYING"), s1)
        | _ => (Return tt, s1)
        end
    end.
Proof.
  intros Hnone. unfold start, bind. rewrite Hnone. unfold build_pipeline.
  destruct (build P (camera s)) as [b|ex]; [|reflexivity].
  simpl. unfold call, raise, ret.
  destruct (set_state_return P (built_pipeline b) PLAYING); reflexivity.
Qed.

Lemma start_camera_returns (P : Platform) (s : Session) :
  fst (start_camera P s) = Return tt.
Proof.
  unfold start_camera, try_except.
  destruct (start P s) as [[u|ex] s1]; [destruct u|]; reflexivity.
Qed.

(** [handle_ws] always reaches its receive loop. *)
Lemma handle_ws_serve (P : Platform) (app : AppServer) (events : list Event) :
  handle_ws P app events = serve P events (entering P app).
Proof.
  unfold handle_ws, entering.
  unfold bind at 1. unfold send_json at 1.
  unfold bind at 1.
  unfold bind at 1. unfold send_json at 1.
  match goal with |- context [start_camera P ?s0] =>
    pose proof (start_camera_returns P s0) as Hret;
    destruct (start_camera P s0) as [[u|ex] s1]
  end; simpl in *; [reflexivity | discriminate Hret].
Qed.

Lemma entering_paired (P : Platform) (app : AppServer) : paired (camera (entering P app)).
Proof.
  unfold entering, bind, send_json, start_camera, try_except. simpl.
  rewrite start_fresh by reflexivity. simpl.
  destruct (build P (new_camera app)) as [b|ex]; simpl.
  - destruct (set_state_return P (built_pipeline b) PLAYING); intros Hnone; discriminate Hnone.
  - intros _. reflexivity.
Qed.

(** The whole handler ends with both handles cleared. *)
Lemma handle_ws_stops (P : Platform) (app : AppServer) (events : list Event) :
  pipeline (camera (snd (handle_ws P app events))) = None
  /\ webrtc (camera (snd (handle_ws P app events))) = None.
Proof.
  rewrite handle_ws_serve.
  destruct (serve_stops P events (entering P app) (entering_paired P app))
    as [_ [Hpl [Hw _]]].
  split; assumption.
Qed.

(** C6. However the receive loop is left, by the socket closing, after a
    transport error, or by an exception out of the loop body, [stop] has
    run by the time [serve] is over: the handler ends as the loop ended,
    both handles are cleared, and a pipeline that the camera held on entry
    received its [set_state(NULL)] as the last call of the session. So
    [handle_ws] as a whole never ends with a handle still held. *)
Theorem stop_on_every_exit (P : Platform) (events : list Event) (s : Session) :
  paired (camera s) ->
  fst (serve P events s) = fst (receive_loop P events s)
  /\ pipeline (camera (snd (serve P events s))) = None
  /\ webrtc (camera (snd (serve P events s))) = None
  /\ (forall pl, pipeline (camera s) = Some pl ->
        exists calls,
          engine (snd (serve P events s)) = (engine s ++ calls ++ [set_state pl NULL])%list)
  /\ (forall app, pipeline (camera (snd (handle_ws P app events))) = None
                  /\ webrtc (camera (snd (handle_ws P app events))) = None).
Proof.
  intros Hpaired.
  destruct (serve_stops P events s Hpaired) as [Hexit [Hpl [Hw Hlast]]].
  repeat (split; [assumption|]).
  intros app. apply handle_ws_stops.
Qed.

(** An exception out of the loop body: a text frame holding a JSON list has
    no [get]. The handler ends with that exception, after the stop. *)
Lemma stop_on_every_exit_witness :
  paired (camera live_session)
  /\ fst (serve full_host [received (text_message list_text)] live_session)
     = Raise (no_attribute "list" "get")
  /\ pipeline (camera (snd (serve full_host [received (text_message list_text)]
                             live_session))) = None
  /\ webrtc (camera (snd (serve full_host [received (text_message list_text)]
                           live_session))) = None.
Proof.
  assert (Hpaired : paired (camera live_session)).
  { intros Hnone. vm_compute in Hnone. discriminate Hnone. }
  destruct (stop_on_every_exit full_host [received (text_message list_text)]
              live_session Hpaired) as [Hexit [Hpl [Hw _]]].
  split; [exact Hpaired|].
  split; [rewrite Hexit; vm_compute; reflexivity|].
  split; [exact Hpl | exact Hw].
Defined.

(** The three ways out of the loop, on one running session: the socket is
    closed by the peer, a transport error is followed by the close, and
    the loop body raises. Each ends with the pipeline stopped. *)
Example exits_all_stop :
  exists pl,
    pipeline (camera live_session) = Some pl
    /\ serve full_host [received (mkMsg CLOSE "")] live_session
       = (Return tt,
          mkSession (with_handles (camera live_session) None None)
            (mkWS true (sent (ws live_session)))
            [set_state pl PLAYING; set_state pl NULL])
    /\ serve full_host [received (mkMsg ERROR ""); received (mkMsg CLOSED "")] live_session
       = (Return tt,
          mkSession (with_handles (camera live_session) None None)
            (mkWS true (sent (ws live_session)))
            [set_state pl PLAYING; set_state pl NULL])
    /\ serve full_host [received (text_message list_text)] live_session
       = (Raise (no_attribute "list" "get"),
          mkSession (with_handles (camera live_session) None None)
            (mkWS false (sent (ws live_session)))
            [set_state pl PLAYING; set_state pl NULL]).
Proof.
  eexists. split; [vm_compute; reflexivity|].
  repeat split; vm_compute; reflexivity.
Qed.

(** C8, as the code has it. When [start] raises on a new connection, the
    handler sends one [error] message after its greeting, leaves the socket
    open and goes on to serve the receive loop. The camera then has no
    pipeline if it was [build] that raised; if the pipeline was built and
    only refused to play, the camera keeps both handles. Either way the
    handler ends with the pipeline handle cleared. *)
Theorem start_failure_keeps_connection (P : Platform) (app : AppServer)
    (events : list Event) (ex : PyExc) :
  fst (start P (new_session app)) = Raise ex ->
  handle_ws P app events = serve P events (entering P app)
  /\ ws (entering P app)
     = mkWS false [hello_message; error_message ("Camera start failed: " ++ exc_str ex)]
  /\ count_sent "error" (ws (entering P app)) = 1%nat
  /\ ((build P (new_camera app) = Raise ex
       /\ camera (entering P app) = new_camera app
       /\ engine (entering P app) = [])
      \/ (exists b, build P (new_camera app) = Return b
                    /\ set_state_return P (built_pipeline b) PLAYING = FAILURE
                    /\ camera (entering P app)
                       = with_handles (new_camera app) (Some (built_pipeline b))
                                      (Some (built_webrtcbin b))
                    /\ engine (entering P app) = [set_state (built_pipeline b) PLAYING]))
  /\ pipeline (camera (snd (handle_ws P app events))) = None.
Proof.
  intros Hfail.
  split; [apply handle_ws_serve|].
  assert (Hstops := proj1 (handle_ws_stops P app events)).
  revert Hstops. generalize (snd (handle_ws P app events)). intros final Hstops.
  rewrite start_fresh in Hfail by reflexivity.
  unfold entering, bind, send_json, start_camera, try_except. simpl.
  rewrite start_fresh by reflexivity. simpl in *.
  destruct (build P (new_camera app)) as [b|ex0] eqn:Hbuild; simpl in *.
  - destruct (set_state_return P (built_pipeline b) PLAYING) eqn:Hplay;
      simpl in Hfail; try discriminate Hfail.
    injection Hfail as <-. simpl.
    split; [reflexivity|]. split; [reflexivity|].
    split; [|exact Hstops].
    right. exists b. repeat split; try reflexivity. exact Hplay.
  - injection Hfail as <-. simpl.
    split; [reflexivity|]. split; [reflexivity|].
    split; [|exact Hstops].
    left. repeat split; reflexivity.
Qed.

Lemma start_failure_keeps_connection_witness :
  fst (start bare_host (new_session (test_app false)))
    = Raise (mkExc RuntimeError
        "Missing libnice elements (nicesrc/nicesink). Install: sudo apt-get install -y gstreamer1.0-nice libnice10")
  /\ handle_ws bare_host (test_app false) [received (text_message ready_text)]
     = serve bare_host [received (text_message ready_text)]
         (entering bare_host (test_app false))
  /\ count_sent "error" (ws (entering bare_host (test_app false))) = 1%nat.
Proof.
  assert (Hfail : fst (start bare_host (new_session (test_app false)))
                  = Raise (mkExc RuntimeError
                      "Missing libnice elements (nicesrc/nicesink). Install: sudo apt-get install -y gstreamer1.0-nice libnice10")).
  { vm_compute. reflexivity. }
  destruct (start_failure_keeps_connection bare_host (test_app false)
              [received (text_message ready_text)] _ Hfail) as [Hserve [_ [Hcount _]]].
  split; [exact Hfail|]. split; [exact Hserve | exact Hcount].
Defined.

(** C8 as stated fails: on a host where the pipeline is built but refuses
    to play, [start] raises, and the session enters its loop holding the
    pipeline and the engine handle; a [ready] then reaches the engine. *)
Lemma start_failure_with_pipeline :
  fst (start stalled_host (new_session (test_app false)))
    = Raise (mkExc RuntimeError "Failed to set pipeline to PLAYING")
  /\ pipeline (camera (entering stalled_host (test_app false))) <> None
  /\ webrtc (camera (entering stalled_host (test_app false)))
     = Some (mkElement "webrtcbin" "webrtcbin" [])
  /\ exists pl,
       engine (snd (handle_ws stalled_host (test_app false)
                      [received (text_message ready_text)]))
       = [set_state pl PLAYING;
          emit_create_offer (mkElement "webrtcbin" "webrtcbin" []);
          set_state pl NULL].
Proof.
  split; [vm_compute; reflexivity|].
  split; [vm_compute; discriminate|].
  split; [vm_compute; reflexivity|].
  eexists. vm_compute. reflexivity.
Qed.

(** ** A whole negotiation *)

(** The engine asks for negotiation and settles the offer, the peer
    answers, then sends [ready]: the engine is asked for a second offer,
    and the session has sent two [offer] messages when the peer leaves. *)
Example second_offer_after_answer :
  let webrtcbin := mkElement "webrtcbin" "webrtcbin" [] in
  let final :=
    snd (handle_ws full_host (test_app false)
           [negotiation_needed webrtcbin;
            offer_created webrtcbin (Some (Some (an_offer "v=0 first")));
            received (text_message (answer_text "v=0"));
            received (text_message ready_text);
            offer_created webrtcbin (Some (Some (an_offer "v=0 second")));
            received (mkMsg CLOSE "")]) in
  sent (ws final)
  = [hello_message; offer_message "v=0 first"; offer_message "v=0 second"]
  /\ count_sent "offer" (ws final) = 2%nat
  /\ exists pl,
       engine final
       = [set_state pl PLAYING;
          emit_create_offer webrtcbin;
          emit_set_local_description webrtcbin (Some (an_offer "v=0 first"));
          emit_set_remote_description webrtcbin (mkDesc ANSWER (mkSDP "v=0"));
          emit_create_offer webrtcbin;
          emit_set_local_description webrtcbin (Some (an_offer "v=0 second"));
          set_state pl NULL].
Proof.
  split; [vm_compute; reflexivity|].
  split; [vm_compute; reflexivity|].
  eexists. vm_compute. reflexivity.
Qed.

(** * Further properties *)

(** ** [link_chain] *)

(** X1. [link_chain] links each element to its successor, left to right:
    it fails at the first pair that refuses, with an error that names the
    two elements, and otherwise records exactly the adjacent pairs, in
    order, leaving the children and everything linked before as they were.
    A chain of fewer than two elements links nothing. *)
Theorem link_chain_adjacent (P : Platform) (elements : list Element) (pl : Pipeline) :
  link_chain P pl elements
  = match find (refuses P) (adjacent elements) with
    | Some (a, b) =>
        Raise (mkExc RuntimeError ("Failed to link " ++ display a ++ " -> " ++ display b))
    | None =>
        Return (mkPipeline (pipeline_name pl) (children pl)
                  (links pl ++ map link_names (adjacent elements)))
    end.
Proof.
  revert pl. induction elements as [|a rest IH]; intros pl.
  - simpl. rewrite app_nil_r. destruct pl; reflexivity.
  - destruct rest as [|b rest'].
    + simpl. rewrite app_nil_r. destruct pl; reflexivity.
    + change (link_chain P pl (a :: b :: rest'))
        with (if can_link P a b
              then link_chain P (mkPipeline (pipeline_name pl) (children pl)
                                   (links pl ++ [(name a, name b)])) (b :: rest')
              else Raise (mkExc RuntimeError
                     ("Failed to link " ++ display a ++ " -> " ++ display b))).
      change (adjacent (a :: b :: rest')) with ((a, b) :: adjacent (b :: rest')).
      rewrite IH. clear IH.
      remember (adjacent (b :: rest')) as pairs eqn:Hpairs. clear Hpairs.
      change (find (refuses P) ((a, b) :: pairs))
        with (if negb (can_link P a b) then Some (a, b) else find (refuses P) pairs).
      change (map link_names ((a, b) :: pairs))
        with ((name a, name b) :: map link_names pairs).
      destruct (can_link P a b); [|reflexivity].
      change (negb true) with false. cbv iota.
      destruct (find (refuses P) pairs) as [[a' b']|]; [reflexivity|].
      change (pipeline_name (mkPipeline (pipeline_name pl) (children pl)
                               (links pl ++ [(name a, name b)])))
        with (pipeline_name pl).
      change (children (mkPipeline (pipeline_name pl) (children pl)
                          (links pl ++ [(name a, name b)])))
        with (children pl).
      change (links (mkPipeline (pipeline_name pl) (children pl)
                       (links pl ++ [(name a, name b)])))
        with (links pl ++ [(name a, name b)])%list.
      rewrite <- app_assoc. reflexivity.
Qed.

(** ** The anatomy of a built pipeline *)

Section Anatomy.

Variable P : Platform.

Lemma element_eta (el : Element) :
  mkElement (factory el) (name el) (properties el) = el.
Proof. destruct el; reflexivity. Qed.

Lemma set_property_exact (el el' : Element) (prop : string) (v : PropValue) :
  set_property P el prop v = Return el' ->
  accepts_property P (factory el) prop v = true
  /\ el' = mkElement (factory el) (name el) (properties el ++ [(prop, v)]).
Proof.
  unfold set_property. destruct (accepts_property P (factory el) prop v); [|discriminate].
  intros Heq. injection Heq as <-. split; reflexivity.
Qed.

Lemma method_make (fac nm attr : string) (el : Element) :
  method (make P fac nm) attr = Return el ->
  has_factory P fac = true /\ el = mkElement fac nm [].
Proof.
  unfold method. destruct (make P fac nm) as [made|] eqn:Hmake; [|discriminate].
  intros Heq. injection Heq as <-. exact (make_inv P fac nm made Hmake).
Qed.

Lemma set_property_on_make (fac nm prop : string) (v : PropValue) (o : option Element) :
  set_property_on P (make P fac nm) prop v = Return o ->
  has_factory P fac = true /\ o = Some (mkElement fac nm [(prop, v)]).
Proof.
  unfold set_property_on, obind.
  destruct (method (make P fac nm) "set_property") as [el|] eqn:Hmethod; [|discriminate].
  destruct (method_make _ _ _ _ Hmethod) as [Hfac ->].
  destruct (set_property P (mkElement fac nm []) prop v) as [el'|] eqn:Hset; [|discriminate].
  destruct (set_property_exact _ _ _ _ Hset) as [_ ->].
  intros Heq. injection Heq as <-. split; [exact Hfac | reflexivity].
Qed.

(** A best-effort [set_property]: the property is there if the element
    took it, and the element is otherwise untouched. *)
Lemma or_keep_set_property (el : Element) (prop : string) (v : PropValue) :
  or_keep (set_property P el prop v) el
  = mkElement (factory el) (name el)
      (properties el ++ if_accepted P (factory el) prop v).
Proof.
  unfold set_property, if_accepted.
  destruct (accepts_property P (factory el) prop v); simpl.
  - reflexivity.
  - rewrite app_nil_r. symmetry. apply element_eta.
Qed.

Lemma or_keep_set_property_on_make (fac nm prop : string) (v : PropValue) :
  or_keep (set_property_on P (make P fac nm) prop v) (make P fac nm)
  = if has_factory P fac
    then Some (mkElement fac nm (if_accepted P fac prop v))
    else None.
Proof.
  unfold set_property_on, obind, method, make, set_property, if_accepted.
  destruct (has_factory P fac); simpl; [|reflexivity].
  destruct (accepts_property P fac prop v); reflexivity.
Qed.

Lemma make_source_inv (self : WebRTCCamera) (o : option Element) :
  make_source P self = Return o ->
  o = expected_source self
  /\ exists src, o = Some src /\ has_factory P (factory src) = true.
Proof.
  unfold make_source, expected_source.
  destruct (String.eqb (source self) "libcamera").
  { destruct (make P "libcamerasrc" "src") as [src|] eqn:Hmake; [|discriminate].
    destruct (make_inv P _ _ _ Hmake) as [Hfac ->].
    intros Heq. injection Heq as <-.
    split; [reflexivity | eexists; split; [reflexivity | exact Hfac]]. }
  destruct (String.eqb (source self) "v4l2").
  { destruct (make P "v4l2src" "src") as [src|] eqn:Hmake; [|discriminate].
    destruct (make_inv P _ _ _ Hmake) as [Hfac ->].
    destruct (truthy_opt (v4l2_dev self)).
    - unfold set_property_on, obind, method, set_property. simpl.
      match goal with
      | |- context [accepts_property P ?f ?k ?v] =>
          destruct (accepts_property P f k v); [|discriminate]
      end.
      intros Heq. injection Heq as <-.
      split; [reflexivity | eexists; split; [reflexivity | exact Hfac]].
    - intros Heq. injection Heq as <-.
      split; [reflexivity | eexists; split; [reflexivity | exact Hfac]]. }
  destruct (String.eqb (source self) "test"); [|discriminate].
  unfold obind.
  destruct (set_property_on P (make P "videotestsrc" "src") "is-live" (PBool true))
    as [o1|] eqn:Hlive; [|discriminate].
  destruct (set_property_on_make _ _ _ _ _ Hlive) as [Hfac ->].
  unfold set_property_on, obind, method, set_property. simpl.
  match goal with
  | |- context [accepts_property P ?f ?k ?v] =>
      destruct (accepts_property P f k v); [|discriminate]
  end.
  intros Heq. injection Heq as <-.
  split; [reflexivity | eexists; split; [reflexivity | exact Hfac]].
Qed.

Lemma select_encoder_name (self : WebRTCCamera) (enc : Element) (hw : bool) :
  select_encoder P self = Return (enc, hw) -> name enc = "h264enc".
Proof.
  unfold select_encoder.
  destruct (try_hardware_encoder P self) as [[hwenc|] hw0] eqn:Htry.
  - intros Heq. injection Heq as <- <-.
    unfold try_hardware_encoder in Htry.
    destruct (negb (force_sw self)); [|discriminate].
    destruct (make P "v4l2h264enc" "h264enc") as [el|] eqn:Hmake; [|discriminate].
    destruct (make_inv P _ _ _ Hmake) as [_ ->].
    injection Htry as <- _.
    destruct (bitrate self >? 0); [|reflexivity].
    rewrite or_keep_set_property. reflexivity.
  - destruct (make P "x264enc" "h264enc") as [el|] eqn:Hmake; [|discriminate].
    destruct (make_inv P _ _ _ Hmake) as [_ ->].
    unfold obind.
    destruct (if bitrate self >? 0
              then set_property P (mkElement "x264enc" "h264enc" []) "bitrate"
                     (PInt (Z.max 1 (bitrate self / 1000)))
              else Return (mkElement "x264enc" "h264enc" [])) as [e1|] eqn:H1; [|discriminate].
    destruct (set_property P e1 "tune" (PStr "zerolatency")) as [e2|] eqn:H2; [|discriminate].
    destruct (set_property P e2 "speed-preset" (PStr "ultrafast")) as [e3|] eqn:H3;
      [|discriminate].
    destruct (set_property P e3 "key-int-max" (PInt (Z.max 1 (fps self * 2)))) as [e4|] eqn:H4;
      [|discriminate].
    intros Heq. injection Heq as <- _.
    destruct (set_property_inv P _ _ _ _ H4) as [_ [N4 _]].
    destruct (set_property_inv P _ _ _ _ H3) as [_ [N3 _]].
    destruct (set_property_inv P _ _ _ _ H2) as [_ [N2 _]].
    assert (N1 : name e1 = "h264enc").
    { destruct (bitrate self >? 0).
      - destruct (set_property_inv P _ _ _ _ H1) as [_ [N1 _]]. exact N1.
      - injection H1 as <-. reflexivity. }
    congruence.
Qed.

End Anatomy.

Lemma link_chain_links (P : Platform) (elements : list Element) (pl pl' : Pipeline) :
  link_chain P pl elements = Return pl' ->
  pl' = mkPipeline (pipeline_name pl) (children pl)
          (links pl ++ map link_names (adjacent elements)).
Proof.
  revert pl. induction elements as [|a rest IH]; intros pl.
  - simpl. intros Heq. injection Heq as <-. rewrite app_nil_r. destruct pl; reflexivity.
  - destruct rest as [|b rest'].
    + simpl. intros Heq. injection Heq as <-. rewrite app_nil_r. destruct pl; reflexivity.
    + change (link_chain P pl (a :: b :: rest'))
        with (if can_link P a b
              then link_chain P (mkPipeline (pipeline_name pl) (children pl)
                                   (links pl ++ [(name a, name b)])) (b :: rest')
              else Raise (mkExc RuntimeError
                     ("Failed to link " ++ display a ++ " -> " ++ display b))).
      destruct (can_link P a b); [|discriminate].
      intros Hrest. rewrite (IH _ Hrest).
      change (adjacent (a :: b :: rest')) with ((a, b) :: adjacent (b :: rest')).
      cbn [pipeline_name children links map]. unfold link_names at 2. cbn [fst snd].
      rewrite <- app_assoc. reflexivity.
Qed.

(** Everything a successful [build] has put together. *)
Lemma build_anatomy (P : Platform) (self : WebRTCCamera) (b : Built) :
  build P self = Return b ->
  exists src,
    expected_source self = Some src
    /\ has_factory P (factory src) = true
    /\ forallb (has_factory P) common_factories = true
    /\ built_caps_pre_enc b
       = mkElement "capsfilter" "caps_pre_enc"
           [("caps", PCaps (pre_encode_caps (built_using_hw b)))]
    /\ built_webrtcbin b = mkElement "webrtcbin" "webrtcbin" (stun_properties self)
    /\ pipeline_name (built_pipeline b) = "webrtc-pipeline"
    /\ children (built_pipeline b)
       = [src;
          mkElement "capsfilter" "caps_src" [("caps", PCaps (source_caps self))];
          mkElement "videoconvert" "vconv" [];
          mkElement "videoscale" "vscale" [];
          built_caps_pre_enc b;
          mkElement "queue" "qenc" [];
          built_enc b;
          mkElement "h264parse" "h264parse"
            (if_accepted P "h264parse" "config-interval" (PInt 1));
          mkElement "rtph264pay" "pay0"
            ([("pt", PInt 96)] ++ if_accepted P "rtph264pay" "config-interval" (PInt 1));
          built_webrtcbin b]
    /\ links (built_pipeline b)
       = map link_names (adjacent (removelast (children (built_pipeline b)))).
Proof.
  unfold build, obind.
  repeat match goal with
         | |- match ?scrutinee with _ => _ end = Return _ -> _ =>
             let Heq := fresh "Hstep" in
             destruct scrutinee eqn:Heq; try discriminate
         end.
  intros Hb. injection Hb as <-. simpl built_pipeline. simpl built_webrtcbin.
  simpl built_enc. simpl built_using_hw. simpl built_caps_pre_enc.
  (* the preflight *)
  match goal with
  | H : (if negb (has_factory P "nicesrc") || negb (has_factory P "nicesink")
         then _ else _) = Return _ |- _ =>
      destruct (has_factory P "nicesrc") eqn:Hnicesrc;
      destruct (has_factory P "nicesink") eqn:Hnicesink;
      try discriminate H; clear H
  end.
  (* the elements, one by one *)
  match goal with
  | H : make_source P self = Return _ |- _ =>
      destruct (make_source_inv P self _ H) as [Hsrc [src [-> Hsrcfac]]]; clear H
  end.
  match goal with
  | H : set_property_on P (make P "capsfilter" "caps_src") _ _ = Return _ |- _ =>
      destruct (set_property_on_make P _ _ _ _ _ H) as [Hcapsfilter ->]; clear H
  end.
  match goal with
  | H : method (make P "capsfilter" "caps_pre_enc") _ = Return _ |- _ =>
      destruct (method_make P _ _ _ _ H) as [_ ->]; clear H
  end.
  match goal with
  | H : set_property P (mkElement "capsfilter" "caps_pre_enc" []) _ _ = Return _ |- _ =>
      destruct (set_property_exact P _ _ _ _ H) as [_ ->]; clear H
  end.
  match goal with
  | H : method (make P "rtph264pay" "pay0") _ = Return _ |- _ =>
      destruct (method_make P _ _ _ _ H) as [Hpay ->]; clear H
  end.
  match goal with
  | H : set_property P (mkElement "rtph264pay" "pay0" []) _ _ = Return _ |- _ =>
      destruct (set_property_exact P _ _ _ _ H) as [_ ->]; clear H
  end.
  match goal with
  | H : match make P "webrtcbin" "webrtcbin" with _ => _ end = Return _ |- _ =>
      destruct (make P "webrtcbin" "webrtcbin") as [bin|] eqn:Hmakebin;
      [|discriminate H];
      destruct (make_inv P _ _ _ Hmakebin) as [Hwebrtcbin ->];
      injection H as <-
  end.
  match goal with
  | H : (if truthy_opt (stun_server self) then _ else _) = Return ?bin |- _ =>
      assert (Hbin : bin = mkElement "webrtcbin" "webrtcbin" (stun_properties self));
      [ unfold stun_properties; destruct (truthy_opt (stun_server self));
        [ destruct (set_property_exact P _ _ _ _ H) as [_ ->]; reflexivity
        | injection H as <-; reflexivity ]
      | clear H; subst bin ]
  end.
  (* adding them to the pipeline *)
  match goal with
  | H : add_each _ _ = Return _ |- _ =>
      rewrite or_keep_set_property_on_make, or_keep_set_property in H;
      unfold make in H;
      destruct (has_factory P "videoconvert") eqn:Hvconv;
      destruct (has_factory P "videoscale") eqn:Hvscale;
      destruct (has_factory P "queue") eqn:Hqueue;
      destruct (has_factory P "h264parse") eqn:Hparse;
      try discriminate H;
      simpl in H; injection H as <-
  end.
  (* linking the chain *)
  match goal with
  | H : link_chain P _ _ = Return _ |- _ =>
      rewrite (link_chain_links P _ _ _ H); clear H
  end.
  exists src.
  split; [symmetry; exact Hsrc|].
  split; [exact Hsrcfac|].
  split.
  { unfold common_factories. simpl forallb.
    rewrite Hnicesrc, Hnicesink, Hcapsfilter, Hvconv, Hvscale, Hqueue, Hparse, Hpay,
      Hwebrtcbin. reflexivity. }
  repeat split; reflexivity.
Qed.

Lemma select_encoder_factory (P : Platform) (self : WebRTCCamera) (enc : Element)
    (hw : bool) :
  select_encoder P self = Return (enc, hw) -> has_factory P (factory enc) = true.
Proof.
  intros Hsel.
  destruct (select_encoder_inv P self enc hw Hsel)
    as [[_ [_ [Hfac [Hname _]]]] | [_ [_ [Hname _]]]].
  - rewrite Hname. exact Hfac.
  - rewrite Hname.
    unfold select_encoder in Hsel.
    destruct (try_hardware_encoder P self) as [[hwenc|] hw0] eqn:Htry.
    + injection Hsel as -> _.
      destruct (try_hardware_encoder_some P self enc hw0 Htry) as [_ [_ [_ [Hhw _]]]].
      rewrite Hhw in Hname. discriminate Hname.
    + destruct (make P "x264enc" "h264enc") as [el|] eqn:Hmake; [|discriminate Hsel].
      exact (proj1 (make_inv P _ _ _ Hmake)).
Qed.

(** X2. A pipeline that [build] returns always has the same shape: ten
    elements with the names [src] to [webrtcbin] in the order they were
    added, and the first nine linked each to the next. The pipeline never
    links [webrtcbin] element to element: the payloader reaches it through
    a requested pad. *)
Theorem build_shape (P : Platform) (self : WebRTCCamera) (b : Built) :
  build P self = Return b ->
  pipeline_name (built_pipeline b) = "webrtc-pipeline"
  /\ map name (children (built_pipeline b)) = element_names
  /\ links (built_pipeline b) = adjacent (removelast element_names)
  /\ last (children (built_pipeline b)) (built_enc b) = built_webrtcbin b
  /\ forall l, In l (links (built_pipeline b)) ->
       fst l <> "webrtcbin" /\ snd l <> "webrtcbin".
Proof.
  intros Hbuild.
  destruct (build_anatomy P self b Hbuild)
    as [src [Hsrc [_ [_ [Hcaps [Hbin [Hname [Hchildren Hlinks]]]]]]]].
  destruct (build_inv P self b Hbuild) as [Hsel _].
  pose proof (select_encoder_name P self _ _ Hsel) as Henc.
  assert (Hsrcname : name src = "src").
  { unfold expected_source in Hsrc.
    destruct (String.eqb (source self) "libcamera"); [injection Hsrc as <-; reflexivity|].
    destruct (String.eqb (source self) "v4l2"); [injection Hsrc as <-; reflexivity|].
    destruct (String.eqb (source self) "test"); [injection Hsrc as <-; reflexivity|].
    discriminate Hsrc. }
  assert (Hnames : map name (children (built_pipeline b)) = element_names).
  { rewrite Hchildren. simpl. rewrite Hsrcname, Henc, Hcaps, Hbin. reflexivity. }
  assert (Hl : links (built_pipeline b) = adjacent (removelast element_names)).
  { rewrite Hlinks, Hchildren. simpl. unfold link_names. simpl.
    rewrite Hsrcname, Henc, Hcaps. reflexivity. }
  split; [exact Hname|]. split; [exact Hnames|]. split; [exact Hl|].
  split; [rewrite Hchildren; reflexivity|].
  intros l Hin. rewrite Hl in Hin. simpl in Hin.
  repeat (destruct Hin as [<- | Hin]; [split; discriminate|]).
  destruct Hin.
Qed.

Lemma build_shape_witness :
  exists b, build full_host (new_camera (test_app false)) = Return b
  /\ map name (children (built_pipeline b)) = element_names
  /\ links (built_pipeline b) = adjacent (removelast element_names).
Proof.
  destruct (build full_host (new_camera (test_app false))) as [b|ex] eqn:Hbuild;
    [|vm_compute in Hbuild; discriminate Hbuild].
  exists b.
  destruct (build_shape full_host _ b Hbuild) as [_ [Hnames [Hlinks _]]].
  split; [reflexivity|]. split; [exact Hnames | exact Hlinks].
Defined.

(** X3. [build] returns a pipeline only on a host that has every factory
    it uses: the two libnice elements of the preflight, the seven factories
    every pipeline shares, and the factory of each element in the pipeline,
    the chosen source and encoder among them. *)
Theorem build_needs_factories (P : Platform) (self : WebRTCCamera) (b : Built) :
  build P self = Return b ->
  forallb (has_factory P) common_factories = true
  /\ Forall (fun el => has_factory P (factory el) = true) (children (built_pipeline b))
  /\ (has_factory P "v4l2h264enc" = true \/ has_factory P "x264enc" = true).
Proof.
  intros Hbuild.
  destruct (build_anatomy P self b Hbuild)
    as [src [_ [Hsrcfac [Hcommon [Hcaps [Hbin [_ [Hchildren _]]]]]]]].
  destruct (build_inv P self b Hbuild) as [Hsel _].
  pose proof (select_encoder_factory P self _ _ Hsel) as Hencfac.
  split; [exact Hcommon|].
  unfold common_factories in Hcommon. simpl in Hcommon.
  repeat (apply andb_true_iff in Hcommon; destruct Hcommon as [? Hcommon]).
  split.
  - rewrite Hchildren, Hcaps, Hbin.
    repeat (apply Forall_cons; [simpl; assumption|]). apply Forall_nil.
  - destruct (select_encoder_inv P self _ _ Hsel)
      as [[_ [_ [Hfac _]]] | [_ [_ [Hname _]]]].
    + left. exact Hfac.
    + right. rewrite Hname in Hencfac. exact Hencfac.
Qed.

Lemma build_needs_factories_witness :
  exists b, build plain_host (new_camera (test_app false)) = Return b
  /\ forallb (has_factory plain_host) common_factories = true
  /\ Forall (fun el => has_factory plain_host (factory el) = true)
       (children (built_pipeline b)).
Proof.
  destruct (build plain_host (new_camera (test_app false))) as [b|ex] eqn:Hbuild;
    [|vm_compute in Hbuild; discriminate Hbuild].
  exists b.
  destruct (build_needs_factories plain_host _ b Hbuild) as [Hcommon [Hall _]].
  split; [reflexivity|]. split; [exact Hcommon | exact Hall].
Defined.

(** X4. The source element of a built pipeline is decided by the
    configuration alone: [libcamerasrc] with nothing set, [v4l2src] with
    its [device] set only when a non-empty path is configured, or a live
    [videotestsrc] with pattern 0. With any other [source] no pipeline is
    ever built, and the first caps filter carries the configured width,
    height and frame rate. *)
Theorem build_source (P : Platform) (self : WebRTCCamera) (b : Built) :
  build P self = Return b ->
  (String.eqb (source self) "libcamera" || String.eqb (source self) "v4l2"
   || String.eqb (source self) "test") = true
  /\ nth_error (children (built_pipeline b)) 0 = expected_source self
  /\ nth_error (children (built_pipeline b)) 1
     = Some (mkElement "capsfilter" "caps_src" [("caps", PCaps (source_caps self))]).
Proof.
  intros Hbuild.
  destruct (build_anatomy P self b Hbuild) as [src [Hsrc [_ [_ [_ [_ [_ [Hchildren _]]]]]]]].
  split.
  - unfold expected_source in Hsrc.
    destruct (String.eqb (source self) "libcamera"); [reflexivity|].
    destruct (String.eqb (source self) "v4l2"); [reflexivity|].
    destruct (String.eqb (source self) "test"); [reflexivity | discriminate Hsrc].
  - rewrite Hchildren, Hsrc. split; reflexivity.
Qed.

Lemma build_source_witness :
  exists b, build full_host (new_camera (test_app false)) = Return b
  /\ nth_error (children (built_pipeline b)) 0
     = Some (mkElement "videotestsrc" "src" [("is-live", PBool true); ("pattern", PInt 0)])
  /\ nth_error (children (built_pipeline b)) 1
     = Some (mkElement "capsfilter" "caps_src"
               [("caps", PCaps "video/x-raw,width=1280,height=720,framerate=30/1")]).
Proof.
  destruct (build full_host (new_camera (test_app false))) as [b|ex] eqn:Hbuild;
    [|vm_compute in Hbuild; discriminate Hbuild].
  exists b.
  destruct (build_source full_host _ b Hbuild) as [_ [Hsrc Hcaps]].
  split; [reflexivity|]. split; [exact Hsrc | exact Hcaps].
Defined.

(** An unknown source stops [build] once the preflight has passed. *)
Lemma build_unknown_source (P : Platform) (self : WebRTCCamera) :
  has_factory P "nicesrc" = true ->
  has_factory P "nicesink" = true ->
  expected_source self = None ->
  build P self = Raise (mkExc RuntimeError ("Unknown source: " ++ source self)).
Proof.
  intros Hsrc Hsink Hnone. unfold build, obind. rewrite Hsrc, Hsink. simpl.
  unfold make_source. unfold expected_source in Hnone.
  destruct (String.eqb (source self) "libcamera"); [discriminate Hnone|].
  destruct (String.eqb (source self) "v4l2"); [discriminate Hnone|].
  destruct (String.eqb (source self) "test"); [discriminate Hnone | reflexivity].
Qed.

(** X5. Without both libnice elements [build] fails at once, whatever the
    configuration and whatever else the host has, with the error that
    names them. *)
Theorem build_preflight (P : Platform) (self : WebRTCCamera) :
  has_factory P "nicesrc" = false \/ has_factory P "nicesink" = false ->
  build P self
  = Raise (mkExc RuntimeError
      "Missing libnice elements (nicesrc/nicesink). Install: sudo apt-get install -y gstreamer1.0-nice libnice10").
Proof.
  intros Hmissing. unfold build, obind.
  destruct Hmissing as [Hsrc | Hsink].
  - rewrite Hsrc. reflexivity.
  - rewrite Hsink. rewrite orb_true_r. reflexivity.
Qed.

Lemma build_preflight_witness :
  (has_factory bare_host "nicesrc" = false \/ has_factory bare_host "nicesink" = false)
  /\ build bare_host (new_camera (test_app false))
     = Raise (mkExc RuntimeError
         "Missing libnice elements (nicesrc/nicesink). Install: sudo apt-get install -y gstreamer1.0-nice libnice10").
Proof.
  assert (Hmissing : has_factory bare_host "nicesrc" = false
                     \/ has_factory bare_host "nicesink" = false) by (left; reflexivity).
  split; [exact Hmissing|].
  exact (build_preflight bare_host (new_camera (test_app false)) Hmissing).
Defined.

(** X6. The [stun-server] property of a built pipeline's webrtcbin is the
    configured URI when that is a non-empty string, and is not set at all
    otherwise; nothing else is ever set on webrtcbin. *)
Theorem build_stun (P : Platform) (self : WebRTCCamera) (b : Built) :
  build P self = Return b ->
  properties (built_webrtcbin b) = stun_properties self
  /\ get_property (built_webrtcbin b) "stun-server"
     = match stun_server self with
       | Some uri => if String.eqb uri "" then None else Some (PStr uri)
       | None => None
       end.
Proof.
  intros Hbuild.
  destruct (build_anatomy P self b Hbuild) as [src [_ [_ [_ [_ [Hbin _]]]]]].
  rewrite Hbin. split; [reflexivity|].
  unfold get_property, stun_properties, truthy_opt. simpl properties.
  destruct (stun_server self) as [uri|]; [|reflexivity].
  destruct (String.eqb uri ""); reflexivity.
Qed.

Lemma build_stun_witness :
  exists b, build full_host (new_camera (test_app false)) = Return b
  /\ properties (built_webrtcbin b) = []
  /\ get_property (built_webrtcbin b) "stun-server" = None.
Proof.
  destruct (build full_host (new_camera (test_app false))) as [b|ex] eqn:Hbuild;
    [|vm_compute in Hbuild; discriminate Hbuild].
  exists b.
  destruct (build_stun full_host _ b Hbuild) as [Hprops Hget].
  split; [reflexivity|]. split; [exact Hprops | exact Hget].
Defined.

(** X7. An empty STUN URI and an empty device path are the same as none:
    [build] does exactly what it does when they are absent. *)
Theorem build_empty_is_absent (P : Platform) (w h f br : Z) (src : string) (force : bool)
    (stun dev : option string) (pl : option Pipeline) (bin : option Element) :
  build P (mkCamera w h f br (Some "") src dev force pl bin)
  = build P (mkCamera w h f br None src dev force pl bin)
  /\ build P (mkCamera w h f br stun src (Some "") force pl bin)
     = build P (mkCamera w h f br stun src None force pl bin).
Proof.
  split; reflexivity.
Qed.

(** ** [start] and [stop] together *)

(** X8. [stop] undoes [start]: on a camera that holds no handles, [start]
    followed by [stop] leaves the camera and the socket exactly as they
    were, whether [start] returned, failed to build, or built a pipeline
    that refused to play. The engine has seen the pipeline set to PLAYING
    and then to NULL if one was built, and nothing if none was. *)
Theorem start_then_stop (P : Platform) (s : Session) :
  pipeline (camera s) = None ->
  webrtc (camera s) = None ->
  camera (snd (stop (snd (start P s)))) = camera s
  /\ ws (snd (stop (snd (start P s)))) = ws s
  /\ engine (snd (stop (snd (start P s))))
     = (engine s ++ match build P (camera s) with
                    | Return b => [set_state (built_pipeline b) PLAYING;
                                   set_state (built_pipeline b) NULL]
                    | Raise _ => []
                    end)%list.
Proof.
  intros Hpl Hbin. rewrite (start_fresh P s Hpl).
  destruct (build P (camera s)) as [b|ex].
  - assert (Hstopped :
      forall r, camera (snd (stop (snd (r : Outcome unit,
                  mkSession (with_handles (camera s) (Some (built_pipeline b))
                                          (Some (built_webrtcbin b)))
                            (ws s) (engine s ++ [set_state (built_pipeline b) PLAYING])))))
                = camera s
                /\ ws (snd (stop (snd (r,
                  mkSession (with_handles (camera s) (Some (built_pipeline b))
                                          (Some (built_webrtcbin b)))
                            (ws s) (engine s ++ [set_state (built_pipeline b) PLAYING])))))
                   = ws s
                /\ engine (snd (stop (snd (r,
                  mkSession (with_handles (camera s) (Some (built_pipeline b))
                                          (Some (built_webrtcbin b)))
                            (ws s) (engine s ++ [set_state (built_pipeline b) PLAYING])))))
                   = (engine s ++ [set_state (built_pipeline b) PLAYING;
                                   set_state (built_pipeline b) NULL])%list).
    { intros r. unfold stop. simpl.
      split; [|split; [reflexivity|]].
      - destruct (camera s) as [w h f br stun src dev force pl bin]. simpl in *.
        subst pl bin. reflexivity.
      - rewrite <- app_assoc. reflexivity. }
    cbv zeta.
    destruct (set_state_return P (built_pipeline b) PLAYING); apply Hstopped.
  - cbn [snd]. rewrite (stop_without_pipeline s Hpl). cbn [snd].
    split; [reflexivity|]. split; [reflexivity|]. symmetry. apply app_nil_r.
Qed.

Lemma start_then_stop_witness :
  pipeline (camera idle_session) = None
  /\ webrtc (camera idle_session) = None
  /\ camera (snd (stop (snd (start stalled_host idle_session)))) = camera idle_session
  /\ ws (snd (stop (snd (start stalled_host idle_session)))) = ws idle_session.
Proof.
  destruct (start_then_stop stalled_host idle_session eq_refl eq_refl) as [Hcam [Hws _]].
  split; [reflexivity|]. split; [reflexivity|]. split; [exact Hcam | exact Hws].
Defined.

(** X9. On a camera that already holds a pipeline, [start] builds
    nothing: the camera keeps the pipeline and the engine handle it has,
    the pipeline is set to PLAYING once more, and the outcome is decided by
    that state change alone. *)
Theorem start_reuses_pipeline (P : Platform) (s : Session) (pl : Pipeline) :
  pipeline (camera s) = Some pl ->
  start P s
  = (match set_state_return P pl PLAYING with
     | FAILURE => Raise (mkExc RuntimeError "Failed to set pipeline to PLAYING")
     | _ => Return tt
     end,
     mkSession (camera s) (ws s) (engine s ++ [set_state pl PLAYING])).
Proof.
  intros Hpl. unfold start, bind. rewrite Hpl. simpl. rewrite Hpl.
  unfold call, raise, ret. simpl.
  destruct (set_state_return P pl PLAYING); reflexivity.
Qed.

Lemma start_reuses_pipeline_witness :
  exists pl, pipeline (camera live_session) = Some pl
  /\ start bare_host live_session
     = (Return tt,
        mkSession (camera live_session) (ws live_session)
                  (engine live_session ++ [set_state pl PLAYING])).
Proof.
  destruct (pipeline (camera live_session)) as [pl|] eqn:Hpl;
    [|vm_compute in Hpl; discriminate Hpl].
  exists pl. split; [reflexivity|].
  exact (start_reuses_pipeline bare_host live_session pl Hpl).
Defined.

(** ** Callbacks of the engine *)

(** X10. A callback of the engine never raises into the session, never
    changes the camera, and sends at most one message; once the socket is
    closed it sends nothing at all. *)
Theorem callbacks_contained (P : Platform) (ev : Event) (s : Session) :
  is_callback ev = true ->
  fst (on_event P ev s) = Return tt
  /\ camera (snd (on_event P ev s)) = camera s
  /\ (exists objs, sent (ws (snd (on_event P ev s))) = (sent (ws s) ++ objs)%list
                   /\ (List.length objs <= 1)%nat)
  /\ (closed (ws s) = true -> ws (snd (on_event P ev s)) = ws s).
Proof.
  intros Hcallback.
  destruct ev as [msg | element | element reply | element n candidate | message];
    [discriminate Hcallback | | | |];
    unfold on_event, _on_negotiation_needed, _create_and_send_offer, on_offer_created,
      _on_ice_candidate, _on_bus_message, try_except, bind, call, raise, ret, _send_ws,
      send_json;
    try destruct reply as [[o|]|]; try destruct message;
    cbn [fst snd camera ws engine sent closed negb];
    destruct (closed (ws s)) eqn:Hclosed;
    cbn [fst snd camera ws engine sent closed negb];
    (split; [reflexivity|]; split; [reflexivity|];
     split;
     [ first [ exists []; split; [symmetry; apply app_nil_r | simpl; lia]
             | eexists [_]; split; [reflexivity | simpl; lia] ]
     | intros Hc; first [ reflexivity | discriminate Hc ] ]).
Qed.

Lemma callbacks_contained_witness :
  is_callback (offer_created (mkElement "webrtcbin" "webrtcbin" []) None) = true
  /\ fst (on_event full_host (offer_created (mkElement "webrtcbin" "webrtcbin" []) None)
            live_session) = Return tt
  /\ camera (snd (on_event full_host
                    (offer_created (mkElement "webrtcbin" "webrtcbin" []) None)
                    live_session)) = camera live_session.
Proof.
  destruct (callbacks_contained full_host
              (offer_created (mkElement "webrtcbin" "webrtcbin" []) None)
              live_session eq_refl) as [Hret [Hcam _]].
  split; [reflexivity|]. split; [exact Hret | exact Hcam].
Defined.

(** X11. Of the bus messages only an error reaches the peer, as one
    [error] message with the engine's text; a warning, an end of stream and
    every other bus message leave the session as it was. *)
Theorem bus_error_reported (s : Session) (message : BusMessage) :
  closed (ws s) = false ->
  _on_bus_message message s
  = (Return tt,
     match message with
     | MESSAGE_ERROR err _ =>
         mkSession (camera s)
           (mkWS false (sent (ws s) ++ [error_message ("GStreamer ERROR: " ++ err)]))
           (engine s)
     | _ => s
     end).
Proof.
  intros Hopen.
  destruct message; unfold _on_bus_message, ret; try reflexivity.
  unfold _send_ws, send_json. rewrite Hopen. reflexivity.
Qed.

Lemma bus_error_reported_witness :
  closed (ws live_session) = false
  /\ _on_bus_message (MESSAGE_ERROR "Internal data stream error." "") live_session
     = (Return tt,
        mkSession (camera live_session)
          (mkWS false
             (sent (ws live_session)
                ++ [error_message "GStreamer ERROR: Internal data stream error."]))
          (engine live_session))
  /\ _on_bus_message MESSAGE_EOS live_session = (Return tt, live_session).
Proof.
  assert (Hopen : closed (ws live_session) = false) by reflexivity.
  split; [exact Hopen|].
  split.
  - exact (bus_error_reported live_session (MESSAGE_ERROR "Internal data stream error." "")
             Hopen).
  - exact (bus_error_reported live_session MESSAGE_EOS Hopen).
Defined.

(** ** Messages of the peer *)

(** X12. Every [ping] is answered with exactly one [pong], with or
    without a pipeline, and touches neither the camera nor the engine. *)
Theorem ping_pong (P : Platform) (s : Session) (text : string)
    (items : list (string * json)) :
  json_loads P text = Return (JDict items) ->
  type_of items = JStr "ping" ->
  on_message P (text_message text) s
  = (Return tt,
     mkSession (camera s) (mkWS (closed (ws s)) (sent (ws s) ++ [pong_message])) (engine s)).
Proof.
  intros Hloads Htype.
  rewrite on_message_text, (on_text_dict P text items s Hloads), Htype.
  settle_type. reflexivity.
Qed.

(** X13. While the camera holds an engine handle, an [answer] whose text
    the SDP parser accepts is given to the engine as a remote description
    of type ANSWER, once, and nothing is sent to the peer. *)
Theorem answer_applied (P : Platform) (s : Session) (w : Element) (text : string)
    (items : list (string * json)) (sdp_text : string) (sdpmsg : SDPMessage) :
  webrtc (camera s) = Some w ->
  json_loads P text = Return (JDict items) ->
  type_of items = JStr "answer" ->
  py_get (JDict items) "sdp" (JStr "") = Return (JStr sdp_text) ->
  sdp_message_new_from_text P sdp_text = (SDP_OK, sdpmsg) ->
  on_message P (text_message text) s
  = (Return tt,
     mkSession (camera s) (ws s)
       (engine s ++ [emit_set_remote_description w (mkDesc ANSWER sdpmsg)])).
Proof.
  intros Hsome Hloads Htype Hsdp Hparse.
  rewrite on_message_text, (on_text_dict P text items s Hloads), Htype.
  settle_type.
  unfold try_except, bind, lift. rewrite Hsdp.
  unfold handle_sdp_answer. rewrite Hsome, Hparse. reflexivity.
Qed.

(** An object whose [type] is not [ice]: the loop body returns. *)
Lemma on_text_returns (P : Platform) (s : Session) (text : string)
    (items : list (string * json)) :
  json_loads P text = Return (JDict items) ->
  eq_str (type_of items) "ice" = false ->
  fst (on_text P text s) = Return tt.
Proof.
  intros Hloads Hnotice.
  rewrite (on_text_dict P text items s Hloads), Hnotice.
  destruct (eq_str (type_of items) "answer").
  { unfold try_except.
    destruct (bind (lift (py_get (JDict items) "sdp" (JStr "")))
                (fun sdp_text => handle_sdp_answer P sdp_text) s) as [[u|ex] s1].
    - destruct u. reflexivity.
    - reflexivity. }
  destruct (eq_str (type_of items) "ping"); [reflexivity|].
  destruct (eq_str (type_of items) "ready"); [|reflexivity].
  unfold renegotiate. destruct (webrtc (camera s)); reflexivity.
Qed.

(** X14. Only an [ice] message, or a payload that is not a JSON object,
    can make the loop body raise: on an object of any other [type], known
    or not, whatever its other fields hold, the body returns and the
    camera is as it was. *)
Theorem only_ice_raises (P : Platform) (s : Session) (text : string)
    (items : list (string * json)) :
  json_loads P text = Return (JDict items) ->
  eq_str (type_of items) "ice" = false ->
  fst (on_message P (text_message text) s) = Return tt
  /\ camera (snd (on_message P (text_message text) s)) = camera s.
Proof.
  intros Hloads Hnotice.
  split.
  - rewrite on_message_text. exact (on_text_returns P s text items Hloads Hnotice).
  - exact (proj1 (steady_on_event P (received (text_message text)) s)).
Qed.

Lemma ping_pong_witness :
  json_loads chat_host ping_text = Return (JDict [("type", JStr "ping")])
  /\ on_message chat_host (text_message ping_text) idle_session
     = (Return tt,
        mkSession (camera idle_session)
          (mkWS (closed (ws idle_session)) (sent (ws idle_session) ++ [pong_message]))
          (engine idle_session)).
Proof.
  split; [reflexivity|].
  exact (ping_pong chat_host idle_session ping_text [("type", JStr "ping")]
           eq_refl eq_refl).
Defined.

Lemma answer_applied_witness :
  webrtc (camera live_session) = Some (mkElement "webrtcbin" "webrtcbin" [])
  /\ sdp_message_new_from_text full_host "v=0" = (SDP_OK, mkSDP "v=0")
  /\ on_message full_host (text_message (answer_text "v=0")) live_session
     = (Return tt,
        mkSession (camera live_session) (ws live_session)
          (engine live_session
             ++ [emit_set_remote_description (mkElement "webrtcbin" "webrtcbin" [])
                   (mkDesc ANSWER (mkSDP "v=0"))])).
Proof.
  split; [reflexivity|]. split; [reflexivity|].
  exact (answer_applied full_host live_session (mkElement "webrtcbin" "webrtcbin" [])
           (answer_text "v=0") [("type", JStr "answer"); ("sdp", JStr "v=0")] "v=0"
           (mkSDP "v=0") eq_refl eq_refl eq_refl eq_refl eq_refl).
Defined.

Lemma only_ice_raises_witness :
  json_loads full_host (answer_text "")
    = Return (JDict [("type", JStr "answer"); ("sdp", JStr "")])
  /\ fst (on_message full_host (text_message (answer_text "")) live_session) = Return tt
  /\ camera (snd (on_message full_host (text_message (answer_text "")) live_session))
     = camera live_session.
Proof.
  split; [reflexivity|].
  exact (only_ice_raises full_host live_session (answer_text "")
           [("type", JStr "answer"); ("sdp", JStr "")] eq_refl eq_refl).
Defined.

(** ** Candidates, there and back *)

(** An [ice] message in the server's own form, read by the loop body. *)
Lemma on_message_own_ice (P : Platform) (s : Session) (text candidate : string) (n : Z) :
  json_loads P text = Return (ice_message candidate n) ->
  candidate <> "" ->
  on_message P (text_message text) s
  = handle_ice_candidate (JStr candidate) n s.
Proof.
  intros Hloads Hfull.
  rewrite on_message_text. unfold ice_message in Hloads.
  rewrite (on_text_ice P text _ s Hloads eq_refl).
  cbn [lookup String.eqb Ascii.eqb Bool.eqb py_get].
  assert (Htruthy : truthy (JStr candidate) = true).
  { simpl. destruct (String.eqb_spec candidate ""); [contradiction | reflexivity]. }
  rewrite Htruthy. reflexivity.
Qed.

(** X15. What [_on_ice_candidate] sends for a candidate is a message
    that the loop body of a session reads back to the same candidate and
    the same media-line index: received by a camera with an engine handle,
    it reaches the engine as exactly that add-ice-candidate call. *)
Theorem ice_round_trip (P : Platform) (s s' : Session) (element w : Element) (text : string)
    (candidate : string) (n : Z) :
  closed (ws s) = false ->
  webrtc (camera s') = Some w ->
  candidate <> "" ->
  json_loads P text = Return (last (sent (ws (snd (_on_ice_candidate element n candidate s))))
                                   JNull) ->
  on_message P (text_message text) s'
  = (Return tt,
     mkSession (camera s') (ws s') (engine s' ++ [emit_add_ice_candidate w n candidate])).
Proof.
  intros Hopen Hsome Hfull Hloads.
  assert (Hsent : last (sent (ws (snd (_on_ice_candidate element n candidate s)))) JNull
                  = ice_message candidate n).
  { unfold _on_ice_candidate, _send_ws, send_json. rewrite Hopen.
    cbn [negb snd ws sent]. apply last_last. }
  rewrite Hsent in Hloads.
  rewrite (on_message_own_ice P s' text candidate n Hloads Hfull).
  apply handle_ice_candidate_with_engine. exact Hsome.
Qed.

Lemma ice_round_trip_witness :
  closed (ws live_session) = false
  /\ json_loads chat_host (ice_text "a=candidate:2 ..." "1")
     = Return (last (sent (ws (snd (_on_ice_candidate (mkElement "webrtcbin" "webrtcbin" [])
                                      1 "a=candidate:2 ..." live_session)))) JNull)
  /\ on_message chat_host (text_message (ice_text "a=candidate:2 ..." "1")) live_session
     = (Return tt,
        mkSession (camera live_session) (ws live_session)
          (engine live_session
             ++ [emit_add_ice_candidate (mkElement "webrtcbin" "webrtcbin" []) 1
                   "a=candidate:2 ..."])).
Proof.
  assert (Hopen : closed (ws live_session) = false) by reflexivity.
  assert (Hloads : json_loads chat_host (ice_text "a=candidate:2 ..." "1")
                   = Return (last (sent (ws (snd (_on_ice_candidate
                                                    (mkElement "webrtcbin" "webrtcbin" [])
                                                    1 "a=candidate:2 ..." live_session))))
                               JNull)).
  { vm_compute. reflexivity. }
  split; [exact Hopen|]. split; [exact Hloads|].
  apply (ice_round_trip chat_host live_session live_session
           (mkElement "webrtcbin" "webrtcbin" []) (mkElement "webrtcbin" "webrtcbin" [])
           (ice_text "a=candidate:2 ..." "1") "a=candidate:2 ..." 1 Hopen).
  - reflexivity.
  - discriminate.
  - exact Hloads.
Defined.

(** ** A session from its greeting to its stop *)

Lemma emits_nothing {A : Type} (m : M A) :
  (forall s, engine (snd (m s)) = engine s) -> emits_only m.
Proof.
  intros Hsame s. exists []. split; [|reflexivity].
  rewrite Hsame. symmetry. apply app_nil_r.
Qed.

Lemma emits_call (c : EngineCall) : is_set_state c = false -> emits_only (call c).
Proof.
  intros Hc s. exists [c]. split; [reflexivity|]. simpl. rewrite Hc. reflexivity.
Qed.

Lemma emits_bind {A B : Type} (m : M A) (k : A -> M B) :
  emits_only m -> (forall a, emits_only (k a)) -> emits_only (bind m k).
Proof.
  intros Hm Hk s. unfold bind. destruct (Hm s) as [calls [Hcalls Hnone]].
  destruct (m s) as [[a|ex] s1]; simpl in *.
  - destruct (Hk a s1) as [calls' [Hcalls' Hnone']].
    exists (calls ++ calls')%list. split.
    + rewrite Hcalls', Hcalls. symmetry. apply app_assoc.
    + rewrite existsb_app, Hnone, Hnone'. reflexivity.
  - exists calls. split; assumption.
Qed.

Lemma emits_try_except {A : Type} (m : M A) (handler : PyExc -> M A) :
  emits_only m -> (forall ex, emits_only (handler ex)) -> emits_only (try_except m handler).
Proof.
  intros Hm Hh s. unfold try_except. destruct (Hm s) as [calls [Hcalls Hnone]].
  destruct (m s) as [[a|ex] s1]; simpl in *.
  - exists calls. split; assumption.
  - destruct (Hh ex s1) as [calls' [Hcalls' Hnone']].
    exists (calls ++ calls')%list. split.
    + rewrite Hcalls', Hcalls. symmetry. apply app_assoc.
    + rewrite existsb_app, Hnone, Hnone'. reflexivity.
Qed.

Lemma emits_choice {A : Type} (m : M A) :
  (forall s, exists m', emits_only m' /\ m s = m' s) -> emits_only m.
Proof.
  intros Hpick s. destruct (Hpick s) as [m' [Hm' Heq]]. rewrite Heq. apply Hm'.
Qed.

Lemma emits__send_ws (obj : json) : emits_only (_send_ws obj).
Proof.
  apply emits_nothing. intros s. unfold _send_ws, send_json.
  destruct (negb (closed (ws s))); reflexivity.
Qed.

Lemma emits_on_text (P : Platform) (text : string) : emits_only (on_text P text).
Proof.
  unfold on_text.
  destruct (json_loads P text) as [payload|ex]; [|apply emits_nothing; reflexivity].
  apply emits_bind; [apply emits_nothing; reflexivity|]. intros mtype.
  destruct (eq_str mtype "answer").
  { apply emits_try_except.
    - apply emits_bind; [apply emits_nothing; reflexivity|]. intros v.
      apply emits_choice. intros s. unfold handle_sdp_answer.
      destruct (webrtc (camera s)) as [w|];
        [|exists (ret tt); split; [apply emits_nothing; reflexivity | reflexivity]].
      destruct v as [ | | | | sdp_text | | ];
        try (eexists (raise _); split; [apply emits_nothing; reflexivity | reflexivity]).
      destruct (sdp_message_new_from_text P sdp_text) as [[|] sdpmsg].
      + eexists (call _). split; [|reflexivity]. apply emits_call. reflexivity.
      + eexists (raise _). split; [apply emits_nothing; reflexivity | reflexivity].
    - intros ex. apply emits_nothing. reflexivity. }
  destruct (eq_str mtype "ice").
  { apply emits_bind; [apply emits_nothing; reflexivity|]. intros ice.
    apply emits_bind; [apply emits_nothing; reflexivity|]. intros candidate.
    apply emits_bind; [apply emits_nothing; reflexivity|]. intros idx.
    destruct (truthy candidate); [|apply emits_nothing; reflexivity].
    apply emits_bind; [apply emits_nothing; reflexivity|]. intros n.
    apply emits_choice. intros s. unfold handle_ice_candidate.
    destruct (webrtc (camera s)) as [w|];
      [|exists (ret tt); split; [apply emits_nothing; reflexivity | reflexivity]].
    destruct candidate;
      try (eexists (raise _); split; [apply emits_nothing; reflexivity | reflexivity]).
    eexists (call _). split; [|reflexivity]. apply emits_call. reflexivity. }
  destruct (eq_str mtype "ping"); [apply emits_nothing; reflexivity|].
  destruct (eq_str mtype "ready"); [|apply emits_nothing; reflexivity].
  apply emits_choice. intros s. unfold renegotiate.
  destruct (webrtc (camera s)) as [w|].
  - eexists (call _). split; [|reflexivity]. apply emits_call. reflexivity.
  - exists (ret tt). split; [apply emits_nothing; reflexivity | reflexivity].
Qed.

Lemma emits_on_event (P : Platform) (ev : Event) : emits_only (on_event P ev).
Proof.
  destruct ev as [msg | element | element reply | element n candidate | message];
    unfold on_event.
  - unfold on_message. destruct (msg_type msg); try (apply emits_nothing; reflexivity).
    apply emits_on_text.
  - apply emits_call. reflexivity.
  - unfold on_offer_created. apply emits_try_except.
    + destruct reply as [[o|]|].
      * apply emits_bind; [apply emits_call; reflexivity | intros _; apply emits__send_ws].
      * apply emits_bind; [apply emits_call; reflexivity|].
        intros _. apply emits_nothing. reflexivity.
      * apply emits_nothing. reflexivity.
    + intros ex. apply emits__send_ws.
  - apply emits__send_ws.
  - destruct message; try (apply emits_nothing; reflexivity). apply emits__send_ws.
Qed.

(** The loop never changes the state of a pipeline, and only adds to what
    the socket has sent. *)
Lemma receive_loop_trace (P : Platform) (events : list Event) (s : Session) :
  (exists calls, engine (snd (receive_loop P events s)) = (engine s ++ calls)%list
                 /\ existsb is_set_state calls = false)
  /\ exists objs, sent (ws (snd (receive_loop P events s))) = (sent (ws s) ++ objs)%list.
Proof.
  revert s. induction events as [|ev rest IH]; intros s; simpl.
  - split; [exists []; split; [symmetry; apply app_nil_r | reflexivity]
           | exists []; symmetry; apply app_nil_r].
  - destruct (match ev with
              | received msg => ends_iteration (msg_type msg)
              | _ => false
              end).
    + split; [exists []; split; [symmetry; apply app_nil_r | reflexivity]
             | exists []; symmetry; apply app_nil_r].
    + unfold bind.
      destruct (emits_on_event P ev s) as [calls [Hcalls Hnone]].
      destruct (steady_on_event P ev s) as [_ [_ [_ [objs Hobjs]]]].
      destruct (on_event P ev s) as [[u|ex] s1]; simpl in *.
      * destruct (IH s1) as [[calls' [Hcalls' Hnone']] [objs' Hobjs']].
        split.
        -- exists (calls ++ calls')%list. split.
           ++ rewrite Hcalls', Hcalls. symmetry. apply app_assoc.
           ++ rewrite existsb_app, Hnone, Hnone'. reflexivity.
        -- exists (objs ++ objs')%list. rewrite Hobjs', Hobjs. symmetry. apply app_assoc.
      * split; [exists calls; split; assumption | exists objs; exact Hobjs].
Qed.

(** The session at the entry of the loop, case by case. *)
Lemma entering_cases (P : Platform) (app : AppServer) :
  entering P app
  = match build P (new_camera app) with
    | Raise ex =>
        mkSession (new_camera app)
          (mkWS false [hello_message;
                       error_message ("Camera start failed: " ++ exc_str ex)])
          []
    | Return b =>
        mkSession
          (with_handles (new_camera app) (Some (built_pipeline b))
                        (Some (built_webrtcbin b)))
          (mkWS false
             (hello_message ::
              match set_state_return P (built_pipeline b) PLAYING with
              | FAILURE =>
                  [error_message "Camera start failed: Failed to set pipeline to PLAYING"]
              | _ => []
              end))
          [set_state (built_pipeline b) PLAYING]
    end.
Proof.
  unfold entering, bind, send_json, start_camera, try_except. simpl.
  rewrite start_fresh by reflexivity. simpl.
  destruct (build P (new_camera app)) as [b|ex]; simpl; [|reflexivity].
  destruct (set_state_return P (built_pipeline b) PLAYING); reflexivity.
Qed.

(** X18. Over a whole session the pipeline changes state exactly twice,
    if one was built: it is set to PLAYING first and to NULL last, and
    nothing in between changes its state, so it is stopped exactly once.
    If none was built, the engine never sees a state change. *)
Theorem pipeline_stopped_once (P : Platform) (app : AppServer) (events : list Event) :
  exists calls,
    existsb is_set_state calls = false
    /\ engine (snd (handle_ws P app events))
       = match build P (new_camera app) with
         | Return b =>
             ([set_state (built_pipeline b) PLAYING] ++ calls
                ++ [set_state (built_pipeline b) NULL])%list
         | Raise _ => calls
         end.
Proof.
  rewrite handle_ws_serve, serve_unfold. cbn [snd].
  destruct (receive_loop_trace P events (entering P app)) as [[calls [Hcalls Hnone]] _].
  destruct (receive_loop_camera P events (entering P app)) as [Hcam _].
  exists calls. split; [exact Hnone|].
  revert Hcalls Hcam. rewrite entering_cases.
  generalize (receive_loop P events).
  intros loop.
  destruct (build P (new_camera app)) as [b|ex]; intros Hcalls Hcam.
  - rewrite (stop_with_pipeline _ (built_pipeline b)) by (rewrite Hcam; reflexivity).
    cbn [snd engine]. rewrite Hcalls. cbn [engine]. rewrite <- app_assoc. reflexivity.
  - rewrite stop_without_pipeline by (rewrite Hcam; reflexivity).
    cbn [snd]. rewrite Hcalls. reflexivity.
Qed.

(** ** Offers, the other cases *)

Lemma offer_failure_reported_witness :
  closed (ws live_session) = false
  /\ on_offer_created (mkElement "webrtcbin" "webrtcbin" []) None live_session
     = (Return tt,
        mkSession (camera live_session)
          (mkWS false
             (sent (ws live_session)
                ++ [error_message
                      "Offer error: 'NoneType' object has no attribute 'get_value'"]))
          (engine live_session)).
Proof.
  assert (Hopen : closed (ws live_session) = false) by reflexivity.
  split; [exact Hopen|].
  exact (proj1 (offer_failure_reported live_session (mkElement "webrtcbin" "webrtcbin" [])
                  Hopen)).
Defined.

Lemma offers_counted_witness :
  webrtc (camera live_session) = Some (mkElement "webrtcbin" "webrtcbin" [])
  /\ closed (ws live_session) = false
  /\ offers_requested
       (snd (handle_all full_host
               [received (text_message ready_text);
                offer_created (mkElement "webrtcbin" "webrtcbin" [])
                  (Some (Some (an_offer "v=0")));
                negotiation_needed (mkElement "webrtcbin" "webrtcbin" []);
                offer_created (mkElement "webrtcbin" "webrtcbin" []) None]
               live_session))
     = (offers_requested live_session + 2)%nat
  /\ count_sent "offer"
       (ws (snd (handle_all full_host
                   [received (text_message ready_text);
                    offer_created (mkElement "webrtcbin" "webrtcbin" [])
                      (Some (Some (an_offer "v=0")));
                    negotiation_needed (mkElement "webrtcbin" "webrtcbin" []);
                    offer_created (mkElement "webrtcbin" "webrtcbin" []) None]
                   live_session)))
     = (count_sent "offer" (ws live_session) + 1)%nat.
Proof.
  split; [reflexivity|]. split; [reflexivity|].
  apply (offers_counted full_host
           [received (text_message ready_text);
            offer_created (mkElement "webrtcbin" "webrtcbin" [])
              (Some (Some (an_offer "v=0")));
            negotiation_needed (mkElement "webrtcbin" "webrtcbin" []);
            offer_created (mkElement "webrtcbin" "webrtcbin" []) None]
           live_session (mkElement "webrtcbin" "webrtcbin" []));
    vm_compute; reflexivity.
Defined.

(** X21. A [ready] that arrives while the camera has no engine handle is
    ignored: the engine is not asked for an offer, nothing is sent, and no
    error is raised. *)
Theorem ready_without_engine (P : Platform) (s : Session) (text : string)
    (items : list (string * json)) :
  webrtc (camera s) = None ->
  json_loads P text = Return (JDict items) ->
  type_of items = JStr "ready" ->
  on_message P (text_message text) s = (Return tt, s).
Proof.
  intros Hnone Hloads Htype.
  rewrite on_message_text, (on_text_ready P text items s Hloads Htype).
  unfold renegotiate. rewrite Hnone. reflexivity.
Qed.

Lemma ready_without_engine_witness :
  webrtc (camera idle_session) = None
  /\ json_loads bare_host ready_text = Return (JDict [("type", JStr "ready")])
  /\ on_message bare_host (text_message ready_text) idle_session
     = (Return tt, idle_session).
Proof.
  split; [reflexivity|]. split; [reflexivity|].
  exact (ready_without_engine bare_host idle_session ready_text [("type", JStr "ready")]
           eq_refl eq_refl eq_refl).
Defined.

(** ** Sessions that end normally *)

Lemma harmless_returns (P : Platform) (ev : Event) (s : Session) :
  harmless P ev = true -> fst (on_event P ev s) = Return tt.
Proof.
  intros Hharmless.
  destruct ev as [msg | element | element reply | element n candidate | message];
    unfold on_event.
  - unfold harmless in Hharmless. unfold on_message.
    destruct (msg_type msg); try reflexivity.
    destruct (json_loads P (data msg)) as [payload|ex] eqn:Hloads.
    + destruct payload as [ | | | | | | items]; try discriminate Hharmless.
      apply (on_text_returns P s (data msg) items Hloads).
      destruct (eq_str (type_of items) "ice"); [discriminate Hharmless | reflexivity].
    + rewrite (on_text_malformed P (data msg) ex s Hloads). reflexivity.
  - reflexivity.
  - unfold on_offer_created, try_except, bind, call, raise, _send_ws, send_json.
    destruct reply as [[o|]|]; cbn [fst snd ws closed];
      destruct (negb (closed (ws s))); reflexivity.
  - unfold _on_ice_candidate, _send_ws, send_json.
    destruct (negb (closed (ws s))); reflexivity.
  - unfold _on_bus_message, _send_ws, send_json, ret.
    destruct message; try reflexivity.
    destruct (negb (closed (ws s))); reflexivity.
Qed.

(** X22. A session ends without an exception when nothing that reaches it
    is an [ice] message or a JSON text that is not an object: whatever
    else the peer sends, whatever the engine calls back and whether or not
    a pipeline could be started, [handle_ws] returns. *)
Theorem session_returns (P : Platform) (app : AppServer) (events : list Event) :
  forallb (harmless P) events = true ->
  fst (handle_ws P app events) = Return tt.
Proof.
  intros Hall.
  rewrite handle_ws_serve, serve_unfold. cbn [fst].
  generalize (entering P app). revert Hall.
  induction events as [|ev rest IH]; intros Hall s.
  - reflexivity.
  - cbn [forallb] in Hall. apply andb_true_iff in Hall. destruct Hall as [Hev Hrest].
    cbn [receive_loop].
    destruct (match ev with
              | received msg => ends_iteration (msg_type msg)
              | _ => false
              end); [reflexivity|].
    unfold bind. pose proof (harmless_returns P ev s Hev) as Hret.
    destruct (on_event P ev s) as [[u|ex] s1]; cbn [fst] in Hret; [|discriminate Hret].
    apply IH. exact Hrest.
Qed.

Lemma session_returns_witness :
  forallb (harmless full_host)
    [received (text_message (answer_text ""));
     received (mkMsg BINARY "");
     received (text_message "not json");
     bus_message MESSAGE_EOS;
     received (text_message ready_text)] = true
  /\ fst (handle_ws full_host (test_app false)
            [received (text_message (answer_text ""));
             received (mkMsg BINARY "");
             received (text_message "not json");
             bus_message MESSAGE_EOS;
             received (text_message ready_text)]) = Return tt.
Proof.
  assert (Hall : forallb (harmless full_host)
                   [received (text_message (answer_text ""));
                    received (mkMsg BINARY "");
                    received (text_message "not json");
                    bus_message MESSAGE_EOS;
                    received (text_message ready_text)] = true).
  { vm_compute. reflexivity. }
  split; [exact Hall|].
  exact (session_returns full_host (test_app false) _ Hall).
Defined.

(** ** What a method adds to the engine's calls and to the socket *)

Lemma within_still {A : Type} (okc : EngineCall -> bool) (oko : json -> bool) (m : M A) :
  (forall s, engine (snd (m s)) = engine s /\ sent (ws (snd (m s))) = sent (ws s)) ->
  within okc oko m.
Proof.
  intros Hsame s. destruct (Hsame s) as [He Hs]. exists [], [].
  rewrite He, Hs, !app_nil_r. repeat split; reflexivity.
Qed.

Lemma within_call (okc : EngineCall -> bool) (oko : json -> bool) (c : EngineCall) :
  okc c = true -> within okc oko (call c).
Proof.
  intros Hc s. exists [c], []. cbn [call snd engine ws sent forallb].
  rewrite Hc, app_nil_r. repeat split; reflexivity.
Qed.

Lemma within_send_json (okc : EngineCall -> bool) (oko : json -> bool) (obj : json) :
  oko obj = true -> within okc oko (send_json obj).
Proof.
  intros Hobj s. exists [], [obj]. cbn [send_json snd engine ws sent forallb].
  rewrite Hobj, app_nil_r. repeat split; reflexivity.
Qed.

Lemma within_bind {A B : Type} (okc : EngineCall -> bool) (oko : json -> bool)
    (m : M A) (k : A -> M B) :
  within okc oko m -> (forall a, within okc oko (k a)) -> within okc oko (bind m k).
Proof.
  intros Hm Hk s. unfold bind.
  destruct (Hm s) as [calls [objs [He [Hs [Hc Ho]]]]].
  destruct (m s) as [[a|ex] s1]; cbn [snd] in *.
  - destruct (Hk a s1) as [calls' [objs' [He' [Hs' [Hc' Ho']]]]].
    exists (calls ++ calls')%list, (objs ++ objs')%list.
    rewrite He', He, Hs', Hs, !forallb_app, Hc, Hc', Ho, Ho', <- !app_assoc.
    repeat split; reflexivity.
  - exists calls, objs. repeat split; assumption.
Qed.

Lemma within_try_except {A : Type} (okc : EngineCall -> bool) (oko : json -> bool)
    (m : M A) (handler : PyExc -> M A) :
  within okc oko m -> (forall ex, within okc oko (handler ex)) ->
  within okc oko (try_except m handler).
Proof.
  intros Hm Hh s. unfold try_except.
  destruct (Hm s) as [calls [objs [He [Hs [Hc Ho]]]]].
  destruct (m s) as [[a|ex] s1]; cbn [snd] in *.
  - exists calls, objs. repeat split; assumption.
  - destruct (Hh ex s1) as [calls' [objs' [He' [Hs' [Hc' Ho']]]]].
    exists (calls ++ calls')%list, (objs ++ objs')%list.
    rewrite He', He, Hs', Hs, !forallb_app, Hc, Hc', Ho, Ho', <- !app_assoc.
    repeat split; reflexivity.
Qed.

Lemma within_choice {A : Type} (okc : EngineCall -> bool) (oko : json -> bool) (m : M A) :
  (forall s, exists m', within okc oko m' /\ m s = m' s) -> within okc oko m.
Proof.
  intros Hpick s. destruct (Hpick s) as [m' [Hm' Heq]]. rewrite Heq. apply Hm'.
Qed.

Section Within.

Variables (okc : EngineCall -> bool) (oko : json -> bool).

Lemma within_ret {A : Type} (a : A) : within okc oko (ret a).
Proof. apply within_still. intros s. split; reflexivity. Qed.

Lemma within_raise {A : Type} (ex : PyExc) : within okc oko (@raise A ex).
Proof. apply within_still. intros s. split; reflexivity. Qed.

Lemma within_lift {A : Type} (o : Outcome A) : within okc oko (lift o).
Proof. apply within_still. intros s. split; reflexivity. Qed.

Lemma within__send_ws (obj : json) : oko obj = true -> within okc oko (_send_ws obj).
Proof.
  intros Hobj. apply within_choice. intros s. unfold _send_ws.
  destruct (negb (closed (ws s))).
  - exists (send_json obj). split; [apply within_send_json; exact Hobj | reflexivity].
  - exists (ret tt). split; [apply within_ret | reflexivity].
Qed.

Lemma within_handle_sdp_answer (P : Platform) (sdp_text : json) :
  (forall w d, okc (emit_set_remote_description w d) = true) ->
  within okc oko (handle_sdp_answer P sdp_text).
Proof.
  intros Hok. apply within_choice. intros s. unfold handle_sdp_answer.
  destruct (webrtc (camera s)) as [w|];
    [|exists (ret tt); split; [apply within_ret | reflexivity]].
  destruct sdp_text as [ | | | | text | | ];
    try (eexists (raise _); split; [apply within_raise | reflexivity]).
  destruct (sdp_message_new_from_text P text) as [[|] sdpmsg].
  - eexists (call _). split; [|reflexivity]. apply within_call. apply Hok.
  - eexists (raise _). split; [apply within_raise | reflexivity].
Qed.

Lemma within_renegotiate :
  (forall w, okc (emit_create_offer w) = true) -> within okc oko renegotiate.
Proof.
  intros Hok. apply within_choice. intros s. unfold renegotiate.
  destruct (webrtc (camera s)) as [w|].
  - eexists (call _). split; [|reflexivity]. apply within_call. apply Hok.
  - exists (ret tt). split; [apply within_ret | reflexivity].
Qed.

Lemma within_handle_ice_candidate (candidate : json) (n : Z) :
  (forall w k c, okc (emit_add_ice_candidate w k c) = true) ->
  within okc oko (handle_ice_candidate candidate n).
Proof.
  intros Hok. apply within_choice. intros s. unfold handle_ice_candidate.
  destruct (webrtc (camera s)) as [w|];
    [|exists (ret tt); split; [apply within_ret | reflexivity]].
  destruct candidate;
    try (eexists (raise _); split; [apply within_raise | reflexivity]).
  eexists (call _). split; [|reflexivity]. apply within_call. apply Hok.
Qed.

(** The callbacks of the engine. *)
Lemma within_callback (P : Platform) (ev : Event) :
  is_callback ev = true ->
  (forall w, okc (emit_create_offer w) = true) ->
  (forall w o, okc (emit_set_local_description w o) = true) ->
  (forall text, oko (offer_message text) = true) ->
  (forall text, oko (error_message ("Offer error: " ++ text)) = true) ->
  (forall text, oko (error_message ("GStreamer ERROR: " ++ text)) = true) ->
  (forall c n, oko (ice_message c n) = true) ->
  within okc oko (on_event P ev).
Proof.
  intros Hcallback Hcreate Hlocal Hoffer Hfail Hbus Hice.
  destruct ev as [msg | element | element reply | element n candidate | message];
    [discriminate Hcallback | | | |]; unfold on_event.
  - apply within_call. apply Hcreate.
  - unfold on_offer_created. apply within_try_except.
    + destruct reply as [[o|]|].
      * apply within_bind; [apply within_call; apply Hlocal|].
        intros _. apply within__send_ws. apply Hoffer.
      * apply within_bind; [apply within_call; apply Hlocal|].
        intros _. apply within_raise.
      * apply within_raise.
    + intros ex. apply within__send_ws. apply Hfail.
  - apply within__send_ws. apply Hice.
  - destruct message; try apply within_ret. apply within__send_ws. apply Hbus.
Qed.

(** The branches of the loop body other than [ice]. *)
Lemma within_other_branches (P : Platform) (items : list (string * json)) :
  (forall w d, okc (emit_set_remote_description w d) = true) ->
  (forall w, okc (emit_create_offer w) = true) ->
  (forall text, oko (error_message ("SDP answer error: " ++ text)) = true) ->
  oko pong_message = true ->
  within okc oko
    (if eq_str (type_of items) "answer" then
       try_except
         (bind (lift (py_get (JDict items) "sdp" (JStr "")))
               (fun sdp_text => handle_sdp_answer P sdp_text))
         (fun ex => send_json (error_message ("SDP answer error: " ++ exc_str ex)))
     else if eq_str (type_of items) "ping" then send_json pong_message
     else if eq_str (type_of items) "ready" then renegotiate
     else ret tt).
Proof.
  intros Hremote Hcreate Hanswer Hpong.
  destruct (eq_str (type_of items) "answer").
  { apply within_try_except.
    - apply within_bind; [apply within_lift|]. intros v.
      apply within_handle_sdp_answer. exact Hremote.
    - intros ex. apply within_send_json. apply Hanswer. }
  destruct (eq_str (type_of items) "ping"); [apply within_send_json; exact Hpong|].
  destruct (eq_str (type_of items) "ready"); [|apply within_ret].
  apply within_renegotiate. exact Hcreate.
Qed.

End Within.

(** ** Candidates in order *)

Lemma filter_not_add_ice (calls : list EngineCall) :
  forallb not_add_ice calls = true -> filter is_add_ice calls = [].
Proof.
  induction calls as [|c rest IH]; [reflexivity|].
  cbn [forallb filter]. unfold not_add_ice at 1.
  destruct (is_add_ice c); cbn [negb andb]; [discriminate | exact IH].
Qed.

(** What one event adds to the candidates that the engine has been given,
    in a session that holds an engine handle. *)
Lemma on_event_candidates (P : Platform) (s : Session) (w : Element) (ev : Event) :
  webrtc (camera s) = Some w ->
  fst (on_event P ev s) = Return tt ->
  exists calls,
    engine (snd (on_event P ev s)) = (engine s ++ calls)%list
    /\ filter is_add_ice calls
       = match inbound_candidate P ev with
         | Some cn => [forwarded w cn]
         | None => []
         end.
Proof.
  intros Hsome Hret.
  assert (Hquiet : forall m : M unit, within not_add_ice any_object m ->
            exists calls, engine (snd (m s)) = (engine s ++ calls)%list
                          /\ filter is_add_ice calls = []).
  { intros m Hm. destruct (Hm s) as [calls [_ [He [_ [Hc _]]]]].
    exists calls. split; [exact He | exact (filter_not_add_ice calls Hc)]. }
  assert (Hnothing : exists calls, engine s = (engine s ++ calls)%list
                                   /\ filter is_add_ice calls = []).
  { exists []. split; [symmetry; apply app_nil_r | reflexivity]. }
  destruct ev as [msg | element | element reply | element n candidate | message].
  2-5: (cbn [inbound_candidate]; apply Hquiet;
        apply within_callback; try reflexivity; intros; reflexivity).
  cbn [on_event] in *. unfold on_message in *. cbn [inbound_candidate].
  destruct (msg_type msg); try exact Hnothing.
  destruct (json_loads P (data msg)) as [payload|ex] eqn:Hloads.
  2: { rewrite (on_text_malformed P _ ex s Hloads). exact Hnothing. }
  destruct payload as [ | | | | | | items];
    try (exfalso; revert Hret; unfold on_text; rewrite Hloads;
         unfold bind, lift, py_get; cbn [fst]; discriminate).
  destruct (eq_str (type_of items) "ice") eqn:Hice.
  - pose proof (eq_str_true _ _ Hice) as Htype.
    rewrite (on_text_ice P _ items s Hloads Htype) in *.
    cbv zeta.
    destruct (py_get match lookup "ice" items with
                     | Some v => v
                     | None => JDict []
                     end "candidate" JNull) as [candidate|ex];
      [|discriminate Hret].
    destruct (py_get match lookup "ice" items with
                     | Some v => v
                     | None => JDict []
                     end "sdpMLineIndex" (JInt 0)) as [idx|ex];
      [|discriminate Hret].
    destruct candidate as [ | flag | k | x | text | l | d ];
      cbn [truthy] in *;
      try exact Hnothing.
    + destruct flag; [|exact Hnothing].
      destruct (py_int (int_of_str P) idx) as [n|ex]; [|discriminate Hret].
      exfalso. revert Hret. unfold handle_ice_candidate. rewrite Hsome.
      cbn [fst]. discriminate.
    + destruct (negb (k =? 0)); [|exact Hnothing].
      destruct (py_int (int_of_str P) idx) as [n|ex]; [|discriminate Hret].
      exfalso. revert Hret. unfold handle_ice_candidate. rewrite Hsome.
      cbn [fst]. discriminate.
    + destruct x; try exact Hnothing;
        (destruct (py_int (int_of_str P) idx) as [n|ex]; [|discriminate Hret];
         exfalso; revert Hret; unfold handle_ice_candidate; rewrite Hsome;
         cbn [fst]; discriminate).
    + destruct (String.eqb text ""); cbn [negb] in *; [exact Hnothing|].
      destruct (py_int (int_of_str P) idx) as [n|ex]; [|discriminate Hret].
      rewrite (handle_ice_candidate_with_engine s w text n Hsome).
      exists [emit_add_ice_candidate w n text]. split; reflexivity.
    + destruct l; [exact Hnothing|].
      destruct (py_int (int_of_str P) idx) as [n|ex]; [|discriminate Hret].
      exfalso. revert Hret. unfold handle_ice_candidate. rewrite Hsome.
      cbn [fst]. discriminate.
    + destruct d; [exact Hnothing|].
      destruct (py_int (int_of_str P) idx) as [n|ex]; [|discriminate Hret].
      exfalso. revert Hret. unfold handle_ice_candidate. rewrite Hsome.
      cbn [fst]. discriminate.
  - apply Hquiet. apply within_choice. intros s0.
    eexists. split; [|apply (on_text_dict P _ items s0 Hloads)].
    rewrite Hice.
    apply within_other_branches; try reflexivity; intros; reflexivity.
Qed.

(** X16. Over any run of events that a session with an engine handle
    handles without an exception, the add-ice-candidate calls that the
    engine receives are exactly the candidates of the inbound [ice]
    messages, in the order of arrival, each with its converted media-line
    index and once per message. Other messages and callbacks in between,
    and further fields in the messages, change nothing; an empty candidate
    is left out and a repeated one is forwarded again. *)
Theorem ice_order_kept (P : Platform) (events : list Event) (s : Session) (w : Element) :
  webrtc (camera s) = Some w ->
  fst (handle_all P events s) = Return tt ->
  exists calls,
    engine (snd (handle_all P events s)) = (engine s ++ calls)%list
    /\ filter is_add_ice calls = map (forwarded w) (candidates P events).
Proof.
  revert s. induction events as [|ev rest IH]; intros s Hsome Hreturns.
  - exists []. split; [symmetry; apply app_nil_r | reflexivity].
  - cbn [handle_all candidates] in *. unfold bind in *.
    destruct (steady_on_event P ev s) as [Hcam _].
    destruct (on_event P ev s) as [[u|ex] s1] eqn:Hstep; cbn [fst snd] in *;
      [|discriminate Hreturns].
    assert (Hone : fst (on_event P ev s) = Return tt) by (rewrite Hstep; destruct u; reflexivity).
    destruct (on_event_candidates P s w ev Hsome Hone) as [calls [Hcalls Hfilter]].
    rewrite Hstep in Hcalls. cbn [snd] in Hcalls.
    assert (Hsome1 : webrtc (camera s1) = Some w) by (rewrite Hcam; exact Hsome).
    destruct (IH s1 Hsome1 Hreturns) as [calls' [Hcalls' Hfilter']].
    exists (calls ++ calls')%list. split.
    + rewrite Hcalls', Hcalls. symmetry. apply app_assoc.
    + rewrite filter_app, Hfilter, Hfilter'.
      destruct (inbound_candidate P ev); reflexivity.
Qed.

(** A browser's candidate with an [sdpMid], a [ping], the same candidate
    again, and another one: three calls, in that order. *)
Lemma ice_order_kept_witness :
  webrtc (camera live_session) = Some (mkElement "webrtcbin" "webrtcbin" [])
  /\ fst (handle_all browser_host
            [received (text_message browser_ice_text);
             received (text_message ping_text);
             received (text_message browser_ice_text);
             received (text_message (ice_text "" "0"));
             received (text_message (ice_text "a=candidate:2 ..." "1"))]
            live_session) = Return tt
  /\ exists calls,
       engine (snd (handle_all browser_host
                      [received (text_message browser_ice_text);
                       received (text_message ping_text);
                       received (text_message browser_ice_text);
                       received (text_message (ice_text "" "0"));
                       received (text_message (ice_text "a=candidate:2 ..." "1"))]
                      live_session))
       = (engine live_session ++ calls)%list
       /\ filter is_add_ice calls
          = [emit_add_ice_candidate (mkElement "webrtcbin" "webrtcbin" []) 0
               "a=candidate:3 ...";
             emit_add_ice_candidate (mkElement "webrtcbin" "webrtcbin" []) 0
               "a=candidate:3 ...";
             emit_add_ice_candidate (mkElement "webrtcbin" "webrtcbin" []) 1
               "a=candidate:2 ..."].
Proof.
  assert (Hsome : webrtc (camera live_session)
                  = Some (mkElement "webrtcbin" "webrtcbin" [])) by reflexivity.
  assert (Hret : fst (handle_all browser_host
                        [received (text_message browser_ice_text);
                         received (text_message ping_text);
                         received (text_message browser_ice_text);
                         received (text_message (ice_text "" "0"));
                         received (text_message (ice_text "a=candidate:2 ..." "1"))]
                        live_session) = Return tt) by (vm_compute; reflexivity).
  split; [exact Hsome|]. split; [exact Hret|].
  destruct (ice_order_kept browser_host _ live_session _ Hsome Hret)
    as [calls [Hcalls Hfilter]].
  exists calls. split; [exact Hcalls|].
  rewrite Hfilter. vm_compute. reflexivity.
Defined.

(** ** The first messages of a session *)

Lemma loop_messages_only (P : Platform) (ev : Event) :
  within any_call loop_message (on_event P ev).
Proof.
  destruct ev as [msg | element | element reply | element n candidate | message].
  2-5: (apply within_callback; try reflexivity; intros; reflexivity).
  cbn [on_event]. unfold on_message.
  destruct (msg_type msg); try apply within_ret.
  unfold on_text.
  destruct (json_loads P (data msg)) as [payload|ex]; [|apply within_ret].
  apply within_bind; [apply within_lift|]. intros mtype.
  destruct (eq_str mtype "answer").
  { apply within_try_except.
    - apply within_bind; [apply within_lift|]. intros v.
      apply within_handle_sdp_answer. reflexivity.
    - intros ex. apply within_send_json. reflexivity. }
  destruct (eq_str mtype "ice").
  { apply within_bind; [apply within_lift|]. intros ice.
    apply within_bind; [apply within_lift|]. intros candidate.
    apply within_bind; [apply within_lift|]. intros idx.
    destruct (truthy candidate); [|apply within_ret].
    apply within_bind; [apply within_lift|]. intros n.
    apply within_handle_ice_candidate. reflexivity. }
  destruct (eq_str mtype "ping"); [apply within_send_json; reflexivity|].
  destruct (eq_str mtype "ready"); [|apply within_ret].
  apply within_renegotiate. reflexivity.
Qed.

Lemma receive_loop_messages (P : Platform) (events : list Event) :
  within any_call loop_message (receive_loop P events).
Proof.
  induction events as [|ev rest IH]; cbn [receive_loop].
  - apply within_still. intros s. split; reflexivity.
  - destruct (match ev with
              | received msg => ends_iteration (msg_type msg)
              | _ => false
              end).
    + apply within_still. intros s. split; reflexivity.
    + apply within_bind; [apply loop_messages_only | intros _; exact IH].
Qed.

(** X17. The greeting is the first message of every session, and the only
    greeting; it is followed at once by the [error] message of a failed
    start exactly when [start] raised, and that message is sent once; no
    message that the session sends afterwards is a greeting or reports a
    failed start. *)
Theorem greeting_first (P : Platform) (app : AppServer) (events : list Event) :
  exists later,
    forallb loop_message later = true
    /\ sent (ws (snd (handle_ws P app events)))
       = (hello_message ::
          match fst (start P (new_session app)) with
          | Return _ => []
          | Raise ex => [error_message ("Camera start failed: " ++ exc_str ex)]
          end ++ later)%list
    /\ count_sent "hello" (ws (snd (handle_ws P app events))) = 1%nat
    /\ List.length (filter is_start_failure (sent (ws (snd (handle_ws P app events)))))
       = match fst (start P (new_session app)) with
         | Return _ => 0%nat
         | Raise _ => 1%nat
         end.
Proof.
  rewrite handle_ws_serve, serve_unfold. cbn [snd].
  destruct (receive_loop_messages P events (entering P app))
    as [calls [later [_ [Hsent [_ Hlater]]]]].
  exists later. split; [exact Hlater|].
  assert (Hstop : forall s1, sent (ws (snd (stop s1))) = sent (ws s1)).
  { intros s1. unfold stop. destruct (pipeline (camera s1)); reflexivity. }
  assert (Hhello : filter (has_type "hello") later = []
                   /\ filter is_start_failure later = []).
  { clear Hsent. induction later as [|obj rest IH]; [split; reflexivity|].
    cbn [forallb] in Hlater. apply andb_true_iff in Hlater.
    destruct Hlater as [Hobj Hrest]. destruct (IH Hrest) as [IH1 IH2].
    unfold loop_message in Hobj. apply andb_true_iff in Hobj.
    destruct Hobj as [H1 H2].
    cbn [filter].
    destruct (has_type "hello" obj); [discriminate H1|].
    destruct (is_start_failure obj); [discriminate H2|].
    split; assumption. }
  destruct Hhello as [Hnohello Hnofailure].
  unfold count_sent. rewrite Hstop, Hsent, entering_cases.
  rewrite start_fresh by reflexivity.
  change (camera (new_session app)) with (new_camera app).
  destruct (build P (new_camera app)) as [b|ex].
  - cbv zeta. cbn [ws sent].
    destruct (set_state_return P (built_pipeline b) PLAYING); cbn [fst];
      (split; [reflexivity|]);
      change (hello_message :: ?l)%list with ([hello_message] ++ l)%list;
      rewrite !filter_app, Hnohello, Hnofailure; split; reflexivity.
  - cbn [fst ws sent].
    split; [reflexivity|].
    rewrite !filter_app, Hnohello, Hnofailure. split; reflexivity.
Qed.
